(** * Accessibility triage: scan orchestration and decision agents

    A shallow embedding of the page scanner ([src/agents/bulk-scanner.ts])
    and of the decision agents ([src/agents/decision-agent.ts],
    [src/agents/enhanced-decision-agent-fixed.ts],
    [src/agents/enhanced-decision-agent.ts]) together with the properties
    the specification states about them.

    JavaScript numbers that hold confidences, weights and hours are binary64
    floats ([PrimFloat]); lengths and counters are [nat]; option values
    that may be negative are [Z]. *)

Set Warnings "-inexact-float".
From Stdlib Require Import PrimFloat Uint63 ZArith Lia DecimalString Sorted.
From stdpp Require Import base option list strings gmap relations.

Local Open Scope string_scope.
Local Open Scope list_scope.
Local Open Scope nat_scope.

(** ** JavaScript primitives used by the agents *)

Module JS.

(** A JavaScript string is a sequence of UTF-16 code units; a [string]
    here is its (generalized) UTF-8 encoding, as a literal of this file
    is. The number of code units a byte of the encoding starts: one for
    an ASCII byte and for the lead byte of a two- or three-byte sequence,
    none for a continuation byte, two (a surrogate pair) for the lead byte
    of a four-byte sequence. *)
Definition utf16Units (c : Ascii.ascii) : nat :=
  let n := Ascii.nat_of_ascii c in
  if n <? 128 then 1
  else if n <? 192 then 0
  else if n <? 240 then 1
  else 2.

(** [s.length]: the number of UTF-16 code units of [s]. *)
Fixpoint string_length (s : string) : nat :=
  match s with
  | EmptyString => 0
  | String c s' => utf16Units c + string_length s'
  end.

(** [s.includes(sub)] on strings. *)
Fixpoint includes (s sub : string) : bool :=
  if String.prefix sub s then true
  else match s with
       | EmptyString => false
       | String _ s' => includes s' sub
       end.

(** [arr.includes(x)] on arrays of strings. *)
Definition array_includes (arr : list string) (x : string) : bool :=
  existsb (String.eqb x) arr.

(** [`${n}`] for a non-negative integer. *)
Definition toString (n : nat) : string :=
  NilZero.string_of_uint (Nat.to_uint n).

(** [arr.join(sep)]. *)
Definition join (sep : string) (arr : list string) : string :=
  String.concat sep arr.

(** [s || d] on strings: the empty string is falsy. *)
Definition or_string (s d : string) : string :=
  if String.eqb s "" then d else s.

(** Truthiness of an optional string ([if (error)]): absent and the empty
    string are falsy. *)
Definition truthy (s : option string) : bool :=
  match s with
  | Some s => negb (String.eqb s "")
  | None => false
  end.

(** [x || d] on an optional integer option value: [undefined], [NaN] and
    [0] are falsy. *)
Definition or_number (x : option Z) (d : Z) : Z :=
  match x with
  | Some z => if (z =? 0)%Z then d else z
  | None => d
  end.

(** [Math.max(a, b)] on two numbers neither of which is NaN. *)
Definition max (a b : float) : float :=
  if PrimFloat.ltb a b then b else a.

(** [Math.min(a, b)] on two numbers neither of which is NaN. *)
Definition min (a b : float) : float :=
  if PrimFloat.ltb b a then b else a.

(** A length or counter used as a number (exact below [2^53]). *)
Definition Number (n : nat) : float :=
  PrimFloat.of_uint63 (Uint63.of_Z (Z.of_nat n)).

(** The outcome of a call that may throw. *)
Inductive Completion (A : Type) : Type :=
  | Return (a : A)
  | Throw (e : string).
Arguments Return {A} a.
Arguments Throw {A} e.

Definition bind {A B} (c : Completion A) (k : A -> Completion B)
  : Completion B :=
  match c with
  | Return a => k a
  | Throw e => Throw e
  end.

End JS.

#[global] Instance Completion_ret : MRet JS.Completion := @JS.Return.
#[global] Instance Completion_bind : MBind JS.Completion :=
  fun A B k c => JS.bind c k.

(** The platform services the agents call: [new URL(url).hostname], which
  throws a [TypeError] on a string that is not an absolute URL, and
  [new Date().toISOString()]. *)
Class Platform := {
  URL_hostname : string -> option string;
  Date_toISOString : string
}.

(** ** Data model ([src/types/accessibility-types.ts]) *)

Inductive Impact := minor | moderate | serious | critical.

Definition Impact_eqb (a b : Impact) : bool :=
  match a, b with
  | minor, minor | moderate, moderate
  | serious, serious | critical, critical => true
  | _, _ => false
  end.

Module ViolationNode.
Record t := mk {
  html : string;
  impact : Impact;
  target : list string
  }.
End ViolationNode.

Module ViolationResult.
Record t := mk {
  id : string;
  impact : Impact;
  description : string;
  help : string;
  helpUrl : string;
  nodes : list ViolationNode.t;
  tags : list string
  }.
End ViolationResult.

Module PageScanResult.
Record t := mk {
  url : string;
  timestamp : string;
  violations : list ViolationResult.t;
  passes : list ViolationResult.t;
  incomplete : list ViolationResult.t;
  inapplicable : list ViolationResult.t;
  scanDuration : Z;
  error : option string
  }.
End PageScanResult.

Module DecisionResult.
Record t := mk {
  passed : list PageScanResult.t;
  minorIssues : list PageScanResult.t;
  claudeNeeded : list PageScanResult.t;
  critical : list PageScanResult.t
  }.
End DecisionResult.

(** Keys of [DECISION_CATEGORIES]. *)
Inductive Category := PASSED | MINOR_ISSUES | CLAUDE_NEEDED | CRITICAL.

Inductive Priority := Low | Medium | High | Critical.

(** ** Configuration ([config/scan-config.ts]) *)

Module SCAN_CONFIG.
Module decisionThresholds.
Definition criticalViolationsLimit : nat := 5.
Definition incompleteResultsLimit : nat := 5.
Definition complexIssuesForClaudeAnalysis : list string :=
    [ "color-contrast";
      "focus-order-semantics";
      "keyboard-navigation";
      "aria-hidden-focus";
      "visual-only-information" ].
End decisionThresholds.
End SCAN_CONFIG.

Definition isCriticalOrSerious (v : ViolationResult.t) : bool :=
  Impact_eqb (ViolationResult.impact v) critical
  || Impact_eqb (ViolationResult.impact v) serious.

Definition hasImpact (i : Impact) (v : ViolationResult.t) : bool :=
  Impact_eqb (ViolationResult.impact v) i.

Definition idIncludes (sub : string) (v : ViolationResult.t) : bool :=
  JS.includes (ViolationResult.id v) sub.


(** ** [DecisionAgent] ([src/agents/decision-agent.ts]) *)

Module PageDecision.
Record t := mk {
  url : string;
  category : Category;
  reason : string;
  priority : Priority;
  estimatedEffort : string;
  complexViolations : list string;
  criticalViolations : list string
}.
End PageDecision.

Module DecisionAgent.

Record t := mk {
  complexIssues : list string;
  criticalThreshold : nat;
  incompleteThreshold : nat
}.

(** The constructor reads the thresholds of [SCAN_CONFIG]. *)
Definition new : t := {|
  complexIssues := SCAN_CONFIG.decisionThresholds.complexIssuesForClaudeAnalysis;
  criticalThreshold := SCAN_CONFIG.decisionThresholds.criticalViolationsLimit;
  incompleteThreshold := SCAN_CONFIG.decisionThresholds.incompleteResultsLimit
|}.

Definition visualVerificationRules : list string :=
  [ "color-contrast";
    "focus-visible";
    "focus-order-semantics";
    "keyboard-navigation";
    "aria-hidden-focus";
    "visual-only-information";
    "bypass";
    "landmark-one-main";
    "page-has-heading-one" ].

Definition needsHumanAnalysis (this : t)
  (violations incomplete : list ViolationResult.t) : bool :=
  if incompleteThreshold this <? length incomplete then true
  else
    existsb (fun violation =>
      existsb (fun rule => JS.includes (ViolationResult.id violation) rule)
        visualVerificationRules) violations.

Definition getCriticalViolations (violations : list ViolationResult.t)
  : list ViolationResult.t :=
  List.filter (fun violation =>
    Impact_eqb (ViolationResult.impact violation) critical
    || Impact_eqb (ViolationResult.impact violation) serious) violations.

Definition getComplexViolations (this : t)
  (violations : list ViolationResult.t) : list ViolationResult.t :=
  List.filter (fun violation =>
    existsb (fun complexIssue =>
      JS.includes (ViolationResult.id violation) complexIssue
      || JS.array_includes (ViolationResult.tags violation) complexIssue)
      (complexIssues this)) violations.

(** [if (cond) reasons.push(text)]. *)
Definition pushIf (cond : bool) (text : string) (reasons : list string)
  : list string :=
  if cond then reasons ++ [text] else reasons.

Definition buildClaudeAnalysisReason (this : t)
  (violations incomplete complexViolations : list ViolationResult.t)
  : string :=
  let reasons := [] in
  let reasons :=
    pushIf (0 <? length complexViolations)
      (JS.toString (length complexViolations)
         +:+ " complex violations requiring visual analysis") reasons in
  let reasons :=
    pushIf (incompleteThreshold this <? length incomplete)
      (JS.toString (length incomplete)
         +:+ " incomplete results need verification") reasons in
  let focusIssues := List.filter (idIncludes "focus") violations in
  let reasons :=
    pushIf (0 <? length focusIssues)
      (JS.toString (length focusIssues) +:+ " focus management issues")
      reasons in
  let keyboardIssues := List.filter (idIncludes "keyboard") violations in
  let reasons :=
    pushIf (0 <? length keyboardIssues)
      (JS.toString (length keyboardIssues) +:+ " keyboard navigation issues")
      reasons in
  let ariaIssues := List.filter (idIncludes "aria") violations in
  let reasons :=
    pushIf (0 <? length ariaIssues)
      (JS.toString (length ariaIssues) +:+ " ARIA implementation issues")
      reasons in
  JS.or_string (JS.join ", " reasons) "Complex accessibility issues detected".

Definition calculatePriority (violations : list ViolationResult.t)
  : Priority :=
  let criticalCount := length (List.filter (hasImpact critical) violations) in
  let seriousCount := length (List.filter (hasImpact serious) violations) in
  let moderateCount := length (List.filter (hasImpact moderate) violations) in
  if 0 <? criticalCount then Critical
  else if (3 <=? seriousCount)
          || ((1 <=? seriousCount) && (5 <=? moderateCount)) then High
  else if (1 <=? seriousCount) || (3 <=? moderateCount) then Medium
  else Low.

Definition totalNodes (violations : list ViolationResult.t) : nat :=
  foldl (fun sum violation => sum + length (ViolationResult.nodes violation))
    0 violations.

Definition estimateEffort (this : t) (violations : list ViolationResult.t)
  : string :=
  let totalNodes := totalNodes violations in
  let complexViolations := getComplexViolations this violations in
  let criticalViolations := getCriticalViolations violations in
  let baseHours := 0%float in
  let baseHours :=
    (baseHours + JS.Number (length criticalViolations) * 2)%float in
  let baseHours :=
    (baseHours + JS.Number (length complexViolations) * 3)%float in
  let baseHours :=
    (baseHours
     + (JS.Number (length violations)
        - JS.Number (length criticalViolations)
        - JS.Number (length complexViolations)) * 0.5)%float in
  let baseHours :=
    (baseHours
     + JS.max 0 (JS.Number totalNodes - JS.Number (length violations))
       * 0.25)%float in
  if PrimFloat.leb baseHours 1 then "0.5-1 hours"
  else if PrimFloat.leb baseHours 2 then "1-2 hours"
  else if PrimFloat.leb baseHours 4 then "2-4 hours"
  else if PrimFloat.leb baseHours 8 then "4-8 hours"
  else if PrimFloat.leb baseHours 16 then "8-16 hours"
  else "16+ hours".

Definition makeDecision (this : t) (scanResult : PageScanResult.t)
  : PageDecision.t :=
  let url := PageScanResult.url scanResult in
  let violations := PageScanResult.violations scanResult in
  let incomplete := PageScanResult.incomplete scanResult in
  let error := PageScanResult.error scanResult in
  if JS.truthy error then
    {| PageDecision.url := url;
       PageDecision.category := CRITICAL;
       PageDecision.reason := "Scan failed: " +:+ default "" error;
       PageDecision.priority := Critical;
       PageDecision.estimatedEffort := "2-4 hours";
       PageDecision.complexViolations := [];
       PageDecision.criticalViolations := ["scan-error"] |}
  else
  let criticalViolations := getCriticalViolations violations in
  if criticalThreshold this <=? length criticalViolations then
    {| PageDecision.url := url;
       PageDecision.category := CRITICAL;
       PageDecision.reason :=
         JS.toString (length criticalViolations)
           +:+ " critical violations found";
       PageDecision.priority := Critical;
       PageDecision.estimatedEffort := estimateEffort this violations;
       PageDecision.complexViolations :=
         map ViolationResult.id (getComplexViolations this violations);
       PageDecision.criticalViolations :=
         map ViolationResult.id criticalViolations |}
  else
  let complexViolations := getComplexViolations this violations in
  let needsClaudeAnalysis := needsHumanAnalysis this violations incomplete in
  if needsClaudeAnalysis || (0 <? length complexViolations) then
    {| PageDecision.url := url;
       PageDecision.category := CLAUDE_NEEDED;
       PageDecision.reason :=
         buildClaudeAnalysisReason this violations incomplete
           complexViolations;
       PageDecision.priority := calculatePriority violations;
       PageDecision.estimatedEffort := estimateEffort this violations;
       PageDecision.complexViolations :=
         map ViolationResult.id complexViolations;
       PageDecision.criticalViolations :=
         map ViolationResult.id criticalViolations |}
  else
  if length violations =? 0 then
    {| PageDecision.url := url;
       PageDecision.category := PASSED;
       PageDecision.reason := "No violations found";
       PageDecision.priority := Low;
       PageDecision.estimatedEffort := "0 hours";
       PageDecision.complexViolations := [];
       PageDecision.criticalViolations := [] |}
  else
    {| PageDecision.url := url;
       PageDecision.category := MINOR_ISSUES;
       PageDecision.reason :=
         JS.toString (length violations) +:+ " auto-fixable violations found";
       PageDecision.priority := calculatePriority violations;
       PageDecision.estimatedEffort := estimateEffort this violations;
       PageDecision.complexViolations := [];
       PageDecision.criticalViolations := [] |}.

(** The [for ... of] loop of [categorizePages]: each result is pushed on the
    list its decision names. *)
Definition pushByCategory (c : Category) (scanResult : PageScanResult.t)
  (result : DecisionResult.t) : DecisionResult.t :=
  match c with
  | PASSED =>
      {| DecisionResult.passed := DecisionResult.passed result ++ [scanResult];
         DecisionResult.minorIssues := DecisionResult.minorIssues result;
         DecisionResult.claudeNeeded := DecisionResult.claudeNeeded result;
         DecisionResult.critical := DecisionResult.critical result |}
  | MINOR_ISSUES =>
      {| DecisionResult.passed := DecisionResult.passed result;
         DecisionResult.minorIssues :=
           DecisionResult.minorIssues result ++ [scanResult];
         DecisionResult.claudeNeeded := DecisionResult.claudeNeeded result;
         DecisionResult.critical := DecisionResult.critical result |}
  | CLAUDE_NEEDED =>
      {| DecisionResult.passed := DecisionResult.passed result;
         DecisionResult.minorIssues := DecisionResult.minorIssues result;
         DecisionResult.claudeNeeded :=
           DecisionResult.claudeNeeded result ++ [scanResult];
         DecisionResult.critical := DecisionResult.critical result |}
  | CRITICAL =>
      {| DecisionResult.passed := DecisionResult.passed result;
         DecisionResult.minorIssues := DecisionResult.minorIssues result;
         DecisionResult.claudeNeeded := DecisionResult.claudeNeeded result;
         DecisionResult.critical :=
           DecisionResult.critical result ++ [scanResult] |}
  end.

Definition emptyDecisionResult : DecisionResult.t :=
  {| DecisionResult.passed := [];
     DecisionResult.minorIssues := [];
     DecisionResult.claudeNeeded := [];
     DecisionResult.critical := [] |}.

Definition categorizePages (this : t) (scanResults : list PageScanResult.t)
  : DecisionResult.t :=
  foldl (fun result scanResult =>
           let decision := makeDecision this scanResult in
           pushByCategory (PageDecision.category decision) scanResult result)
    emptyDecisionResult scanResults.

End DecisionAgent.


(** ** Decision records of the enhanced agents
    ([src/agents/enhanced-decision-agent.ts]) *)

Inductive FactorType := violation | pattern | context | historical | heuristic.

Module ReasoningFactor.
Record t := mk {
  type : FactorType;
  description : string;
  weight : float;
  evidence : list string;
  impact : option Impact
}.
End ReasoningFactor.

Module AlternativeDecision.
Record t := mk {
  decision : Category;
  confidence : float;
  rationale : string
}.
End AlternativeDecision.

Module DecisionReasoning.
Record t := mk {
  decision : Category;
  confidence : float;
  factors : list ReasoningFactor.t;
  contextualAnalysis : string;
  alternativeDecisions : list AlternativeDecision.t;
  learningInsights : list string
}.
End DecisionReasoning.

Module EnhancedPageDecision.
Record t := mk {
  url : string;
  category : Category;
  reasoning : DecisionReasoning.t;
  reason : string;
  priority : Priority;
  estimatedEffort : string;
  complexViolations : list string;
  criticalViolations : list string;
  adaptiveSuggestions : list string;
  uncertaintyFactors : list string
}.
End EnhancedPageDecision.

Module PatternOccurrence.
Record t := mk {
  url : string;
  timestamp : string;
  violationTypes : list string;
  decision : Category
}.
End PatternOccurrence.

(** [new URL(url).hostname]. *)
Definition hostnameOf `{Platform} (url : string) : JS.Completion string :=
  match URL_hostname url with
  | Some domain => JS.Return domain
  | None => JS.Throw "TypeError: Invalid URL"
  end.

(** ** [EnhancedDecisionAgentFixed]
    ([src/agents/enhanced-decision-agent-fixed.ts]) *)

Module EnhancedDecisionAgentFixed.

(** The agent: its thresholds and the pattern history of its learning
    memory, a [Map] from domain to the occurrences recorded for it. The
    other maps of the learning memory are never written by this agent. *)
Record t := mk {
  complexIssues : list string;
  criticalThreshold : nat;
  incompleteThreshold : nat;
  patternHistory : gmap string (list PatternOccurrence.t)
}.

Definition new : t := {|
  complexIssues := SCAN_CONFIG.decisionThresholds.complexIssuesForClaudeAnalysis;
  criticalThreshold := SCAN_CONFIG.decisionThresholds.criticalViolationsLimit;
  incompleteThreshold := SCAN_CONFIG.decisionThresholds.incompleteResultsLimit;
  patternHistory := ∅
|}.

Definition getCriticalViolations (violations : list ViolationResult.t)
  : list ViolationResult.t :=
  List.filter isCriticalOrSerious violations.

Definition getComplexViolations (this : t)
  (violations : list ViolationResult.t) : list ViolationResult.t :=
  List.filter (fun v =>
    existsb (fun issue =>
      JS.includes (ViolationResult.id v) issue
      || JS.array_includes (ViolationResult.tags v) issue)
      (complexIssues this)) violations.

Definition visualVerificationRules : list string :=
  [ "color-contrast"; "focus-visible"; "focus-order-semantics";
    "keyboard-navigation"; "aria-hidden-focus"; "visual-only-information";
    "bypass"; "landmark-one-main"; "page-has-heading-one" ].

(** One numbered block of [determineClaudeNeed]:
    [if (cond) { reasons.push(text); confidence = Math.max(confidence, floor) }]. *)
Definition consider (cond : bool) (text : string) (floor : float)
  (acc : list string * float) : list string * float :=
  if cond then (acc.1 ++ [text], JS.max acc.2 floor) else acc.

Module ClaudeNeed.
Record t := mk {
  needed : bool;
  reason : string;
  confidence : float
}.
End ClaudeNeed.

Definition determineClaudeNeed (this : t)
  (violations incomplete complexViolations : list ViolationResult.t)
  : ClaudeNeed.t :=
  let acc := ([], 0.7%float) in
  (* 1. Complex violations that need visual analysis *)
  let acc :=
    consider (0 <? length complexViolations)
      (JS.toString (length complexViolations)
         +:+ " complex violations requiring visual analysis")
      0.85 acc in
  (* 2. High number of incomplete results *)
  let acc :=
    consider (incompleteThreshold this <? length incomplete)
      (JS.toString (length incomplete)
         +:+ " incomplete results need verification")
      0.8 acc in
  (* 3. Visual verification rules *)
  let visualVerificationNeeded :=
    List.filter (fun v =>
      existsb (fun rule => JS.includes (ViolationResult.id v) rule)
        visualVerificationRules) violations in
  let acc :=
    consider (0 <? length visualVerificationNeeded)
      (JS.toString (length visualVerificationNeeded)
         +:+ " violations need visual verification")
      0.9 acc in
  (* 4. Focus and keyboard issues *)
  let focusKeyboardIssues :=
    List.filter (fun v =>
      idIncludes "focus" v || idIncludes "keyboard" v
      || idIncludes "tabindex" v) violations in
  let acc :=
    consider (2 <=? length focusKeyboardIssues)
      (JS.toString (length focusKeyboardIssues)
         +:+ " focus/keyboard navigation issues")
      0.85 acc in
  (* 5. ARIA implementation issues *)
  let ariaIssues := List.filter (idIncludes "aria") violations in
  let acc :=
    consider (3 <=? length ariaIssues)
      (JS.toString (length ariaIssues) +:+ " ARIA implementation issues")
      0.8 acc in
  (* 6. Critical but below threshold *)
  let criticalCount := length (List.filter isCriticalOrSerious violations) in
  let acc :=
    consider ((0 <? criticalCount) && (criticalCount <? criticalThreshold this))
      (JS.toString criticalCount
         +:+ " critical/serious violations need review")
      0.75 acc in
  let '(reasons, confidence) := acc in
  {| ClaudeNeed.needed := 0 <? length reasons;
     ClaudeNeed.reason :=
       JS.or_string (JS.join "; " reasons) "No complex issues detected";
     ClaudeNeed.confidence := confidence |}.

Definition pushIf (cond : bool) (text : string) (arr : list string)
  : list string :=
  if cond then arr ++ [text] else arr.

Definition detectPatterns (violations : list ViolationResult.t)
  : list string :=
  let patterns := [] in
  let formViolations :=
    List.filter (fun v =>
      idIncludes "label" v || idIncludes "input" v || idIncludes "form" v)
      violations in
  let patterns :=
    pushIf (3 <=? length formViolations)
      "Systematic form accessibility issues detected" patterns in
  let navViolations :=
    List.filter (fun v =>
      idIncludes "landmark" v || idIncludes "heading" v || idIncludes "skip" v)
      violations in
  let patterns :=
    pushIf (2 <=? length navViolations)
      "Page navigation and structure issues" patterns in
  let focusViolations :=
    List.filter (fun v => idIncludes "focus" v || idIncludes "keyboard" v)
      violations in
  let patterns :=
    pushIf (2 <=? length focusViolations)
      "Focus management and keyboard navigation issues" patterns in
  patterns.

Definition buildReasoningFactors
  (violations incomplete : list ViolationResult.t) (category : Category)
  : list ReasoningFactor.t :=
  let factors := [] in
  let criticalCount := length (List.filter isCriticalOrSerious violations) in
  let factors :=
    if 0 <? criticalCount then
      factors ++
      [ {| ReasoningFactor.type := violation;
           ReasoningFactor.description :=
             JS.toString criticalCount +:+ " critical/serious violations found";
           ReasoningFactor.weight := 0.9;
           ReasoningFactor.evidence :=
             map ViolationResult.id
               (List.filter isCriticalOrSerious violations);
           ReasoningFactor.impact := None |} ]
    else factors in
  let patterns := detectPatterns violations in
  let factors :=
    factors ++
    map (fun pattern_ =>
           {| ReasoningFactor.type := pattern;
              ReasoningFactor.description := pattern_;
              ReasoningFactor.weight := 0.7;
              ReasoningFactor.evidence := [];
              ReasoningFactor.impact := None |}) patterns in
  let factors :=
    if 0 <? length incomplete then
      factors ++
      [ {| ReasoningFactor.type := context;
           ReasoningFactor.description :=
             JS.toString (length incomplete)
               +:+ " incomplete results require manual verification";
           ReasoningFactor.weight := 0.6;
           ReasoningFactor.evidence := map ViolationResult.id incomplete;
           ReasoningFactor.impact := None |} ]
    else factors in
  factors.

Definition Category_eqb (a b : Category) : bool :=
  match a, b with
  | PASSED, PASSED | MINOR_ISSUES, MINOR_ISSUES
  | CLAUDE_NEEDED, CLAUDE_NEEDED | CRITICAL, CRITICAL => true
  | _, _ => false
  end.

Definition generateAlternatives (primaryDecision : Category)
  (violations : list ViolationResult.t) (confidence : float)
  : list AlternativeDecision.t :=
  let alternatives := [] in
  let alternatives :=
    if Category_eqb primaryDecision CRITICAL && PrimFloat.ltb confidence 0.9
    then alternatives ++
         [ {| AlternativeDecision.decision := CLAUDE_NEEDED;
              AlternativeDecision.confidence := 0.7;
              AlternativeDecision.rationale :=
                "Visual analysis could provide additional context for remediation" |} ]
    else alternatives in
  let alternatives :=
    if Category_eqb primaryDecision CLAUDE_NEEDED && (length violations <? 3)
    then alternatives ++
         [ {| AlternativeDecision.decision := MINOR_ISSUES;
              AlternativeDecision.confidence := 0.5;
              AlternativeDecision.rationale :=
                "Limited violations might be addressable without visual analysis" |} ]
    else alternatives in
  alternatives.

Definition totalNodes (violations : list ViolationResult.t) : nat :=
  foldl (fun sum v => sum + length (ViolationResult.nodes v)) 0 violations.

Definition buildContextualAnalysis
  (violations criticalViolations complexViolations : list ViolationResult.t)
  : string :=
  let totalElements := totalNodes violations in
  let wcagCriteria :=
    remove_dups
      (flat_map (fun v =>
         List.filter (fun t => JS.includes t "wcag") (ViolationResult.tags v))
         violations) in
  let analysis :=
    "Page has " +:+ JS.toString (length violations)
      +:+ " violations affecting " +:+ JS.toString totalElements
      +:+ " elements" in
  let analysis :=
    if 0 <? length criticalViolations then
      analysis +:+ ", including " +:+ JS.toString (length criticalViolations)
        +:+ " critical/serious issues"
    else analysis in
  let analysis :=
    if 0 <? length complexViolations then
      analysis +:+ " and " +:+ JS.toString (length complexViolations)
        +:+ " complex violations requiring visual analysis"
    else analysis in
  analysis +:+ ". Violations span " +:+ JS.toString (length wcagCriteria)
    +:+ " WCAG criteria.".

Definition calculatePriority (violations : list ViolationResult.t)
  : Priority :=
  let criticalCount := length (List.filter (hasImpact critical) violations) in
  let seriousCount := length (List.filter (hasImpact serious) violations) in
  if 0 <? criticalCount then Critical
  else if 3 <=? seriousCount then High
  else if (1 <=? seriousCount) || (5 <=? length violations) then Medium
  else Low.

Definition estimateEffort (violations : list ViolationResult.t) : string :=
  let criticalCount := length (List.filter isCriticalOrSerious violations) in
  let totalNodes := totalNodes violations in
  let hours :=
    (JS.Number criticalCount * 2
     + (JS.Number (length violations) - JS.Number criticalCount) * 0.5
     + JS.Number totalNodes * 0.1)%float in
  if PrimFloat.leb hours 2 then "1-2 hours"
  else if PrimFloat.leb hours 4 then "2-4 hours"
  else if PrimFloat.leb hours 8 then "4-8 hours"
  else if PrimFloat.leb hours 16 then "8-16 hours"
  else "16+ hours".

Definition generateSuggestions (violations : list ViolationResult.t)
  (category : Category) : list string :=
  let suggestions := [] in
  let suggestions :=
    pushIf (Category_eqb category CRITICAL)
      "Prioritize fixing critical accessibility barriers immediately"
      suggestions in
  let autoFixable :=
    List.filter (fun v =>
      idIncludes "image-alt" v || idIncludes "label" v
      || idIncludes "html-has-lang" v) violations in
  let suggestions :=
    pushIf (0 <? length autoFixable)
      (JS.toString (length autoFixable)
         +:+ " violations can be fixed with automated tools") suggestions in
  suggestions.

Section WithPlatform.
Context `{Platform}.

Definition extractInsights (this : t) (url : string)
  (violations : list ViolationResult.t) (category : Category)
  : JS.Completion (list string) :=
  let insights := [] in
  let insights :=
    pushIf (10 <? length violations)
      "High violation count suggests systemic accessibility issues"
      insights in
  domain ← hostnameOf url;
  let insights :=
    match patternHistory this !! domain with
    | Some history =>
        pushIf (0 <? length history)
          ("Domain has " +:+ JS.toString (length history)
             +:+ " previous scans in history") insights
    | None => insights
    end in
  mret insights.

Definition updateLearningMemory (this : t) (url : string)
  (violations : list ViolationResult.t) (decision : Category)
  : JS.Completion t :=
  domain ← hostnameOf url;
  let patternHistory_ := default [] (patternHistory this !! domain) in
  let patternHistory_ :=
    patternHistory_ ++
    [ {| PatternOccurrence.url := url;
         PatternOccurrence.timestamp := Date_toISOString;
         PatternOccurrence.violationTypes := map ViolationResult.id violations;
         PatternOccurrence.decision := decision |} ] in
  mret {| complexIssues := complexIssues this;
          criticalThreshold := criticalThreshold this;
          incompleteThreshold := incompleteThreshold this;
          patternHistory := <[domain := patternHistory_]> (patternHistory this) |}.

(** [createDecision] returns the decision and leaves the agent with its
    learning memory updated; it throws when [url] is not a URL. *)
Definition createDecision (this : t) (url : string) (category : Category)
  (reason : string) (confidence : float)
  (violations criticalViolations complexViolations incomplete
     : list ViolationResult.t)
  : JS.Completion (EnhancedPageDecision.t * t) :=
  let factors := buildReasoningFactors violations incomplete category in
  let alternatives := generateAlternatives category violations confidence in
  let contextualAnalysis :=
    buildContextualAnalysis violations criticalViolations complexViolations in
  learningInsights ← extractInsights this url violations category;
  let reasoning :=
    {| DecisionReasoning.decision := category;
       DecisionReasoning.confidence := confidence;
       DecisionReasoning.factors := factors;
       DecisionReasoning.contextualAnalysis := contextualAnalysis;
       DecisionReasoning.alternativeDecisions := alternatives;
       DecisionReasoning.learningInsights := learningInsights |} in
  this' ← updateLearningMemory this url violations category;
  mret
    ({| EnhancedPageDecision.url := url;
        EnhancedPageDecision.category := category;
        EnhancedPageDecision.reasoning := reasoning;
        EnhancedPageDecision.reason := reason;
        EnhancedPageDecision.priority := calculatePriority violations;
        EnhancedPageDecision.estimatedEffort := estimateEffort violations;
        EnhancedPageDecision.complexViolations :=
          map ViolationResult.id complexViolations;
        EnhancedPageDecision.criticalViolations :=
          map ViolationResult.id criticalViolations;
        EnhancedPageDecision.adaptiveSuggestions :=
          generateSuggestions violations category;
        EnhancedPageDecision.uncertaintyFactors :=
          if PrimFloat.ltb confidence 0.8
          then ["Confidence below 80% - review recommended"] else [] |},
     this').

Definition createErrorDecision (url error : string) : EnhancedPageDecision.t :=
  let reasoning :=
    {| DecisionReasoning.decision := CRITICAL;
       DecisionReasoning.confidence := 1.0;
       DecisionReasoning.factors :=
         [ {| ReasoningFactor.type := violation;
              ReasoningFactor.description := "Scan failed: " +:+ error;
              ReasoningFactor.weight := 1.0;
              ReasoningFactor.evidence := [error];
              ReasoningFactor.impact := None |} ];
       DecisionReasoning.contextualAnalysis :=
         "Page scan failed - manual review required";
       DecisionReasoning.alternativeDecisions := [];
       DecisionReasoning.learningInsights :=
         ["Scan failure prevents automated assessment"] |} in
  {| EnhancedPageDecision.url := url;
     EnhancedPageDecision.category := CRITICAL;
     EnhancedPageDecision.reasoning := reasoning;
     EnhancedPageDecision.reason := "Scan error: " +:+ error;
     EnhancedPageDecision.priority := Critical;
     EnhancedPageDecision.estimatedEffort := "2-4 hours";
     EnhancedPageDecision.complexViolations := [];
     EnhancedPageDecision.criticalViolations := ["scan-error"];
     EnhancedPageDecision.adaptiveSuggestions :=
       ["Investigate scan failure"; "Try manual accessibility audit"];
     EnhancedPageDecision.uncertaintyFactors :=
       ["Unable to determine actual accessibility status"] |}.

Definition makeDecisionWithReasoning (this : t) (scanResult : PageScanResult.t)
  : JS.Completion (EnhancedPageDecision.t * t) :=
  let url := PageScanResult.url scanResult in
  let violations := PageScanResult.violations scanResult in
  let incomplete := PageScanResult.incomplete scanResult in
  let error := PageScanResult.error scanResult in
  if JS.truthy error then
    mret (createErrorDecision url (default "" error), this)
  else
  let criticalViolations := getCriticalViolations violations in
  let complexViolations := getComplexViolations this violations in
  if criticalThreshold this <=? length criticalViolations then
    createDecision this url CRITICAL
      (JS.toString (length criticalViolations)
         +:+ " critical/serious violations require immediate attention")
      0.95 violations criticalViolations complexViolations incomplete
  else
  let needsClaudeAnalysis :=
    determineClaudeNeed this violations incomplete complexViolations in
  if ClaudeNeed.needed needsClaudeAnalysis then
    createDecision this url CLAUDE_NEEDED
      (ClaudeNeed.reason needsClaudeAnalysis)
      (ClaudeNeed.confidence needsClaudeAnalysis)
      violations criticalViolations complexViolations incomplete
  else
  if length violations =? 0 then
    createDecision this url PASSED
      "No accessibility violations detected"
      1.0 violations criticalViolations complexViolations incomplete
  else
    createDecision this url MINOR_ISSUES
      (JS.toString (length violations) +:+ " auto-fixable violations found")
      0.8 violations criticalViolations complexViolations incomplete.

End WithPlatform.

End EnhancedDecisionAgentFixed.

(** ** [EnhancedDecisionAgent] ([src/agents/enhanced-decision-agent.ts])

    The agent [EnhancedDecisionAgentFixed] replaces; only its types are
    still imported. Modelled here: its error decision, its scoring of the
    categories, its choice among the scores and its priority. *)

Module EnhancedDecisionAgent.

Record t := mk {
  complexIssues : list string;
  criticalThreshold : nat;
  incompleteThreshold : nat
}.

Definition new : t := {|
  complexIssues := SCAN_CONFIG.decisionThresholds.complexIssuesForClaudeAnalysis;
  criticalThreshold := SCAN_CONFIG.decisionThresholds.criticalViolationsLimit;
  incompleteThreshold := SCAN_CONFIG.decisionThresholds.incompleteResultsLimit
|}.

Definition getCriticalViolations (violations : list ViolationResult.t)
  : list ViolationResult.t :=
  List.filter (fun violation =>
    Impact_eqb (ViolationResult.impact violation) critical
    || Impact_eqb (ViolationResult.impact violation) serious) violations.

Definition createErrorDecision (url error : string) : EnhancedPageDecision.t :=
  let reasoning :=
    {| DecisionReasoning.decision := CRITICAL;
       DecisionReasoning.confidence := 1.0;
       DecisionReasoning.factors :=
         [ {| ReasoningFactor.type := violation;
              ReasoningFactor.description :=
                "Scan failed with error: " +:+ error;
              ReasoningFactor.weight := 1.0;
              ReasoningFactor.evidence := [error];
              ReasoningFactor.impact := None |} ];
       DecisionReasoning.contextualAnalysis :=
         "Page scan failed, preventing accessibility assessment";
       DecisionReasoning.alternativeDecisions := [];
       DecisionReasoning.learningInsights :=
         ["Scan failures require manual investigation"] |} in
  {| EnhancedPageDecision.url := url;
     EnhancedPageDecision.category := CRITICAL;
     EnhancedPageDecision.reasoning := reasoning;
     EnhancedPageDecision.reason := "Scan failed: " +:+ error;
     EnhancedPageDecision.priority := Critical;
     EnhancedPageDecision.estimatedEffort := "2-4 hours";
     EnhancedPageDecision.complexViolations := [];
     EnhancedPageDecision.criticalViolations := ["scan-error"];
     EnhancedPageDecision.adaptiveSuggestions :=
       [ "Investigate scan failure cause";
         "Consider manual accessibility review" ];
     EnhancedPageDecision.uncertaintyFactors :=
       ["Unable to assess actual accessibility status due to scan failure"] |}.

(** The [Map] of scores: its entries in insertion order. *)
Definition Scores := list (Category * float).

Definition Category_eqb (a b : Category) : bool :=
  match a, b with
  | PASSED, PASSED | MINOR_ISSUES, MINOR_ISSUES
  | CLAUDE_NEEDED, CLAUDE_NEEDED | CRITICAL, CRITICAL => true
  | _, _ => false
  end.

(** [scores.set(key, value)]: an existing key keeps its place. *)
Fixpoint set (scores : Scores) (key : Category) (value : float) : Scores :=
  match scores with
  | [] => [(key, value)]
  | (k, v) :: rest =>
      if Category_eqb k key then (k, value) :: rest
      else (k, v) :: set rest key value
  end.

(** [scores.get(key) || 0]. *)
Fixpoint getOrZero (scores : Scores) (key : Category) : float :=
  match scores with
  | [] => 0
  | (k, v) :: rest =>
      if Category_eqb k key
      then (if PrimFloat.eqb v v && negb (PrimFloat.eqb v 0) then v else 0)
      else getOrZero rest key
  end.

Definition FactorType_eqb (a b : FactorType) : bool :=
  match a, b with
  | violation, violation | pattern, pattern | context, context
  | historical, historical | heuristic, heuristic => true
  | _, _ => false
  end.

(** One turn of the loop over the factors. *)
Definition adjust (scores : Scores) (factor : ReasoningFactor.t) : Scores :=
  let weight := ReasoningFactor.weight factor in
  if FactorType_eqb (ReasoningFactor.type factor) violation
     && JS.includes (ReasoningFactor.description factor) "critical" then
    let scores :=
      set scores CRITICAL (getOrZero scores CRITICAL + weight)%float in
    set scores CLAUDE_NEEDED
      (getOrZero scores CLAUDE_NEEDED + weight * 0.5)%float
  else if FactorType_eqb (ReasoningFactor.type factor) pattern
          || JS.includes (ReasoningFactor.description factor) "complex" then
    let scores :=
      set scores CLAUDE_NEEDED (getOrZero scores CLAUDE_NEEDED + weight)%float in
    set scores MINOR_ISSUES
      (getOrZero scores MINOR_ISSUES - weight * 0.3)%float
  else if FactorType_eqb (ReasoningFactor.type factor) heuristic then
    let scores :=
      set scores CLAUDE_NEEDED
        (getOrZero scores CLAUDE_NEEDED + weight * 0.7)%float in
    set scores CRITICAL (getOrZero scores CRITICAL + weight * 0.3)%float
  else scores.

(** [calculateDecisionScores]: the scores, and the factors as the call
    leaves them (it pushes one on the array it was given). *)
Definition calculateDecisionScores (this : t)
  (factors : list ReasoningFactor.t) (violations : list ViolationResult.t)
  : Scores * list ReasoningFactor.t :=
  let scores := [] in
  let scores :=
    set scores PASSED
      (if length violations =? 0 then 1.0%float else 0.0%float) in
  let scores := set scores MINOR_ISSUES 0.3 in
  let scores := set scores CLAUDE_NEEDED 0.2 in
  let scores := set scores CRITICAL 0.1 in
  let criticalViolations := getCriticalViolations violations in
  if criticalThreshold this <=? length criticalViolations then
    let scores := set scores CLAUDE_NEEDED 0.98 in
    let scores := set scores CRITICAL 0.0 in
    let scores := set scores MINOR_ISSUES 0.0 in
    let scores := set scores PASSED 0.0 in
    (scores,
     factors ++
     [ {| ReasoningFactor.type := violation;
          ReasoningFactor.description :=
            JS.toString (length criticalViolations)
              +:+ " critical violations require urgent Claude analysis";
          ReasoningFactor.weight := 1.0;
          ReasoningFactor.evidence := ["high-priority"];
          ReasoningFactor.impact := Some critical |} ])
  else
    let scores := foldl adjust scores factors in
    let total := foldl (fun sum entry => (sum + entry.2)%float) 0%float scores in
    let scores :=
      if PrimFloat.ltb 0 total
      then map (fun entry => (entry.1, (entry.2 / total)%float)) scores
      else scores in
    (scores, factors).

(** [values.sort((a, b) => b - a)] on numbers none of which is NaN. *)
Fixpoint insertDescending (x : float) (sorted : list float) : list float :=
  match sorted with
  | [] => [x]
  | y :: rest =>
      if PrimFloat.ltb y x then x :: y :: rest
      else y :: insertDescending x rest
  end.

Definition sortDescending (values : list float) : list float :=
  foldr insertDescending [] values.

Definition selectBestDecision (scores : Scores) : Category * float :=
  let '(bestDecision, highestScore) :=
    foldl (fun best entry =>
             if PrimFloat.ltb best.2 entry.2 then (entry.1, entry.2) else best)
      (MINOR_ISSUES, 0%float) scores in
  let sortedScores := sortDescending (map snd scores) in
  let confidence :=
    (nth 0 sortedScores nan - nth 1 sortedScores nan)%float in
  (bestDecision, JS.min (confidence * 2)%float 1).

Definition calculateEnhancedPriority (violations : list ViolationResult.t)
  (reasoning : DecisionReasoning.t) : Priority :=
  let criticalCount := length (List.filter (hasImpact critical) violations) in
  let seriousCount := length (List.filter (hasImpact serious) violations) in
  if PrimFloat.ltb (DecisionReasoning.confidence reasoning) 0.5
     && ((0 <? criticalCount) || (2 <? seriousCount)) then Critical
  else if 0 <? criticalCount then Critical
  else if (3 <=? seriousCount)
          || ((1 <=? seriousCount) && (10 <=? length violations)) then High
  else if (1 <=? seriousCount) || (5 <=? length violations) then Medium
  else Low.

End EnhancedDecisionAgent.


(** ** [BulkScannerAgent] ([src/agents/bulk-scanner.ts]) *)

(** The options object passed to the constructor. A numeric option is
    [None] when it is [undefined] or [NaN] (what [parseInt] gives for a
    string that holds no number). *)
Module BulkScanOptions.
Record t := mk {
  maxWorkers : option Z;
  outputDirectory : string;
  timeout : option Z;
  retryAttempts : option Z
}.
End BulkScanOptions.

Module WorkerTask.
Record t := mk {
  url : string;
  index : nat;
  total : nat
}.
End WorkerTask.

Module WorkerResult.
Record t := mk {
  url : string;
  result : PageScanResult.t;
  needsClaudeAnalysis : bool
}.
End WorkerResult.

Module BulkScanSummary.
Record t := mk {
  totalPages : nat;
  passedPages : nat;
  minorIssues : nat;
  claudeAnalysisNeeded : nat;
  criticalIssues : nat;
  errors : nat
}.
End BulkScanSummary.

(** What axe-core reports for a page. *)
Module AxeResults.
Record t := mk {
  violations : list ViolationResult.t;
  passes : list ViolationResult.t;
  incomplete : list ViolationResult.t;
  inapplicable : list ViolationResult.t
}.
End AxeResults.

(** What one attempt on a page comes to: every step of the [try] block went
    through (the page opened, loaded, was analysed and closed), or one of
    them threw an error with a [message]. *)
Inductive AttemptOutcome :=
| Analysed (axeResults : AxeResults.t) (timestamp : string) (scanDuration : Z)
| Failed (message : string).

(** The browser the scanner drives: whether [puppeteer.launch] resolves, and
    what the [attempt]-th attempt on the task of a given index comes to. *)
Class Browser := {
  launch : JS.Completion unit;
  attemptOutcome : string -> nat -> Z -> AttemptOutcome
}.

Module BulkScannerAgent.

Module Options.
Record t := mk {
  maxWorkers : Z;
  outputDirectory : string;
  timeout : Z;
  retryAttempts : Z
}.
End Options.

Record t := mk {
  options : Options.t;
  processedCount : nat;
  results : list WorkerResult.t;
  errors : list string;
  totalUrlsToProcess : nat
}.

(** The constructor. It never throws on the options it is given. *)
Definition new (options : BulkScanOptions.t) : t := {|
  options :=
    {| Options.maxWorkers := JS.or_number (BulkScanOptions.maxWorkers options) 5;
       Options.outputDirectory :=
         JS.or_string (BulkScanOptions.outputDirectory options)
           "results/bulk-scan-results";
       Options.timeout := JS.or_number (BulkScanOptions.timeout options) 30000;
       Options.retryAttempts :=
         JS.or_number (BulkScanOptions.retryAttempts options) 3 |};
  processedCount := 0;
  results := [];
  errors := [];
  totalUrlsToProcess := 0
|}.

Section WithBrowser.
Context `{Platform} `{Browser}.

(** [performScan] on the outcome of the attempt: the page's results with no
    [error] field, or the error rethrown. *)
Definition performScan (url : string) (outcome : AttemptOutcome)
  : JS.Completion PageScanResult.t :=
  match outcome with
  | Analysed axeResults timestamp scanDuration =>
      JS.Return
        {| PageScanResult.url := url;
           PageScanResult.timestamp := timestamp;
           PageScanResult.violations := AxeResults.violations axeResults;
           PageScanResult.passes := AxeResults.passes axeResults;
           PageScanResult.incomplete := AxeResults.incomplete axeResults;
           PageScanResult.inapplicable := AxeResults.inapplicable axeResults;
           PageScanResult.scanDuration := scanDuration;
           PageScanResult.error := None |}
  | Failed message => JS.Throw message
  end.

(** The [for] loop of [scanSinglePage] from [attempt] on, with [remaining]
    iterations left. The second component lists the delays awaited, in
    milliseconds and in order. *)
Fixpoint scanAttempts (this : t) (url : string) (index : nat)
  (remaining : nat) (attempt : Z) (lastError : option string)
  : PageScanResult.t * list Z :=
  match remaining with
  | 0 =>
      (* All attempts failed *)
      ({| PageScanResult.url := url;
          PageScanResult.timestamp := Date_toISOString;
          PageScanResult.violations := [];
          PageScanResult.passes := [];
          PageScanResult.incomplete := [];
          PageScanResult.inapplicable := [];
          PageScanResult.scanDuration := 0;
          PageScanResult.error :=
            Some (JS.or_string (default "" lastError) "Unknown error") |},
       [])
  | S remaining' =>
      match performScan url (attemptOutcome url index attempt) with
      | JS.Return result => (result, [])
      | JS.Throw message =>
          let delays :=
            if (attempt <? Options.retryAttempts (options this))%Z
            then [(2000 * attempt)%Z] else [] in
          let '(result, later) :=
            scanAttempts this url index remaining' (attempt + 1)%Z
              (Some message) in
          (result, delays ++ later)
      end
  end.

Definition scanSinglePage (this : t) (url : string) (index : nat)
  : PageScanResult.t * list Z :=
  scanAttempts this url index
    (Z.to_nat (Options.retryAttempts (options this))) 1%Z None.

Definition visualVerificationIds : list string :=
  [ "color-contrast"; "focus-order-semantics"; "keyboard-navigation";
    "aria-hidden-focus"; "visual-only-information"; "focus-management";
    "modal-focus-trap"; "skip-link" ].

Definition needsHumanAnalysis (scanResult : PageScanResult.t) : bool :=
  if JS.truthy (PageScanResult.error scanResult) then true
  else
  let criticalViolations :=
    List.filter (hasImpact critical) (PageScanResult.violations scanResult) in
  if SCAN_CONFIG.decisionThresholds.criticalViolationsLimit
       <=? length criticalViolations then true
  else
  let complexIssues :=
    List.filter (fun violation =>
      JS.array_includes
        SCAN_CONFIG.decisionThresholds.complexIssuesForClaudeAnalysis
        (ViolationResult.id violation))
      (PageScanResult.violations scanResult) in
  if 0 <? length complexIssues then true
  else
  if SCAN_CONFIG.decisionThresholds.incompleteResultsLimit
       <? length (PageScanResult.incomplete scanResult) then true
  else
    existsb (fun violation =>
      JS.array_includes visualVerificationIds (ViolationResult.id violation))
      (PageScanResult.violations scanResult).

(** The category [categorizeResults] files one stored result under. *)
Definition categoryOf (entry : WorkerResult.t) : Category :=
  let result := WorkerResult.result entry in
  if JS.truthy (PageScanResult.error result) then CRITICAL
  else if length (PageScanResult.violations result) =? 0 then PASSED
  else if WorkerResult.needsClaudeAnalysis entry then CLAUDE_NEEDED
  else
    let hasSerious :=
      existsb isCriticalOrSerious (PageScanResult.violations result) in
    if hasSerious then CRITICAL else MINOR_ISSUES.

Definition categorizeResults (this : t) : DecisionResult.t :=
  foldl (fun acc entry =>
           DecisionAgent.pushByCategory (categoryOf entry)
             (WorkerResult.result entry) acc)
    DecisionAgent.emptyDecisionResult (results this).

Definition generateSummary (this : t) (totalPages : nat) : BulkScanSummary.t :=
  let categorized := categorizeResults this in
  {| BulkScanSummary.totalPages := totalPages;
     BulkScanSummary.passedPages := length (DecisionResult.passed categorized);
     BulkScanSummary.minorIssues :=
       length (DecisionResult.minorIssues categorized);
     BulkScanSummary.claudeAnalysisNeeded :=
       length (DecisionResult.claudeNeeded categorized);
     BulkScanSummary.criticalIssues :=
       length (DecisionResult.critical categorized);
     BulkScanSummary.errors := length (errors this) |}.

(** *** The worker pool

    [createWorker] is an [async] function: several workers run interleaved,
    each giving way at its [await]s. A worker is at the head of its [while]
    loop, or awaits [scanSinglePage] for the task it shifted off the queue,
    or awaits the rate-limiting delay, or has returned. *)
Inductive Worker :=
| AtLoopHead
| Scanning (task : WorkerTask.t)
| RateLimiting
| Finished.

Record Pool := mkPool {
  agent : t;
  workQueue : list WorkerTask.t;
  workers : list Worker
}.

Definition recordResult (this : t) (task : WorkerTask.t) : t :=
  let result := (scanSinglePage this (WorkerTask.url task)
                   (WorkerTask.index task)).1 in
  let needsClaudeAnalysis := needsHumanAnalysis result in
  {| options := options this;
     processedCount := processedCount this + 1;
     results :=
       results this ++
       [ {| WorkerResult.url := WorkerTask.url task;
            WorkerResult.result := result;
            WorkerResult.needsClaudeAnalysis := needsClaudeAnalysis |} ];
     errors := errors this;
     totalUrlsToProcess := totalUrlsToProcess this |}.

(** Worker [i] runs up to its next [await] (or returns). [None]: there is
    no such worker, or it has returned. *)
Definition stepWorker (i : nat) (p : Pool) : option Pool :=
  match workers p !! i with
  | Some AtLoopHead =>
      match workQueue p with
      | [] =>
          Some {| agent := agent p;
                  workQueue := [];
                  workers := <[i := Finished]> (workers p) |}
      | task :: rest =>
          Some {| agent := agent p;
                  workQueue := rest;
                  workers := <[i := Scanning task]> (workers p) |}
      end
  | Some (Scanning task) =>
      Some {| agent := recordResult (agent p) task;
              workQueue := workQueue p;
              workers := <[i := RateLimiting]> (workers p) |}
  | Some RateLimiting =>
      Some {| agent := agent p;
              workQueue := workQueue p;
              workers := <[i := AtLoopHead]> (workers p) |}
  | Some Finished | None => None
  end.

Definition step (p p' : Pool) : Prop := ∃ i, stepWorker i p = Some p'.

(** [Promise.all(workers)] has resolved. *)
Definition allFinished (p : Pool) : Prop :=
  Forall (fun w => w = Finished) (workers p).

Definition makeTasks (urls : list string) : list WorkerTask.t :=
  imap (fun index url =>
          {| WorkerTask.url := url;
             WorkerTask.index := index;
             WorkerTask.total := length urls |}) urls.

(** [processWithWorkers] at the point where the workers have been created:
    one worker for each [i] with [0 <= i < maxWorkers]. *)
Definition startWorkers (this : t) (tasks : list WorkerTask.t) : Pool :=
  {| agent := this;
     workQueue := tasks;
     workers :=
       replicate (Z.to_nat (Options.maxWorkers (options this))) AtLoopHead |}.

Definition setTotal (this : t) (n : nat) : t :=
  {| options := options this;
     processedCount := processedCount this;
     results := results this;
     errors := errors this;
     totalUrlsToProcess := n |}.

(** [scanPages]: it rejects when the browser cannot be launched, and
    otherwise resolves with the summary once every worker has returned.
    Writing the result files is outside the model. *)
Inductive scanPages (this : t) (urls : list string)
  : JS.Completion (BulkScanSummary.t * t) -> Prop :=
| scanPages_rejected e :
    launch = JS.Throw e ->
    scanPages this urls (JS.Throw e)
| scanPages_resolved p :
    launch = JS.Return () ->
    rtc step (startWorkers (setTotal this (length urls)) (makeTasks urls)) p ->
    allFinished p ->
    scanPages this urls
      (JS.Return (generateSummary (agent p) (length urls), agent p)).

End WithBrowser.

End BulkScannerAgent.


(** * Properties *)

(** ** Strings and counting *)

Lemma prefix_refl (s : string) : String.prefix s s = true.
Proof.
  induction s as [|c s IH]; simpl; [reflexivity|].
  destruct (Ascii.ascii_dec c c); [exact IH | congruence].
Qed.

Lemma includes_prefix (s sub : string) :
  String.prefix sub s = true → JS.includes s sub = true.
Proof. intros Hp. destruct s; cbn [JS.includes]; rewrite Hp; reflexivity. Qed.

Lemma includes_refl (s : string) : JS.includes s s = true.
Proof. apply includes_prefix, prefix_refl. Qed.

Lemma append_nonempty (s t : string) : t ≠ "" → s +:+ t ≠ "".
Proof.
  intros Ht. destruct s as [|c s]; [exact Ht|].
  intros Heq. change (String c (s +:+ t) = "") in Heq. discriminate.
Qed.

Lemma concat_nonempty (sep x : string) (l : list string) :
  x ≠ "" → String.concat sep (x :: l) ≠ "".
Proof.
  intros Hx. destruct l as [|y l]; cbn [String.concat]; [exact Hx|].
  destruct x as [|c x]; [congruence|].
  intros Heq.
  change (String c (x +:+ sep +:+ String.concat sep (y :: l)) = "") in Heq.
  discriminate.
Qed.

Lemma or_string_nonempty (s d : string) : s ≠ "" → JS.or_string s d = s.
Proof.
  intros Hs. unfold JS.or_string.
  destruct (String.eqb_spec s ""); congruence.
Qed.

Lemma truthy_Some (o : option string) :
  JS.truthy o = true → ∃ e, o = Some e ∧ e ≠ "".
Proof.
  destruct o as [e|]; simpl; [|discriminate].
  destruct (String.eqb_spec e ""); simpl; [discriminate|]. eauto.
Qed.

Lemma filter_length_pos {A} (f : A → bool) (l : list A) :
  (0 <? length (List.filter f l)) = existsb f l.
Proof.
  induction l as [|x l IH]; simpl; [reflexivity|].
  destruct (f x); simpl; auto.
Qed.

(** ** The enhanced agent: what [createDecision] returns *)

Section FixedAgent.
Context `{Platform}.
Import EnhancedDecisionAgentFixed.

Lemma hostnameOf_Some (url domain : string) :
  URL_hostname url = Some domain → hostnameOf url = JS.Return domain.
Proof. intros Hd. unfold hostnameOf. rewrite Hd. reflexivity. Qed.

Lemma createDecision_returns (this : t) url category reason confidence
  violations criticalViolations complexViolations incomplete domain :
  URL_hostname url = Some domain →
  ∃ d this',
    createDecision this url category reason confidence violations
      criticalViolations complexViolations incomplete = JS.Return (d, this')
    ∧ EnhancedPageDecision.url d = url
    ∧ EnhancedPageDecision.category d = category
    ∧ EnhancedPageDecision.reason d = reason
    ∧ EnhancedPageDecision.priority d = calculatePriority violations
    ∧ DecisionReasoning.decision (EnhancedPageDecision.reasoning d) = category
    ∧ DecisionReasoning.confidence (EnhancedPageDecision.reasoning d)
      = confidence
    ∧ DecisionReasoning.factors (EnhancedPageDecision.reasoning d)
      = buildReasoningFactors violations incomplete category
    ∧ DecisionReasoning.alternativeDecisions (EnhancedPageDecision.reasoning d)
      = generateAlternatives category violations confidence
    ∧ patternHistory this' !! domain
      = Some (default [] (patternHistory this !! domain) ++
              [ {| PatternOccurrence.url := url;
                   PatternOccurrence.timestamp := Date_toISOString;
                   PatternOccurrence.violationTypes :=
                     map ViolationResult.id violations;
                   PatternOccurrence.decision := category |} ]).
Proof.
  intros Hd. unfold createDecision, extractInsights, updateLearningMemory.
  rewrite (hostnameOf_Some _ _ Hd).
  eexists _, _. split; [reflexivity|].
  cbn [EnhancedPageDecision.url EnhancedPageDecision.category
       EnhancedPageDecision.reason EnhancedPageDecision.priority
       EnhancedPageDecision.reasoning DecisionReasoning.decision
       DecisionReasoning.confidence DecisionReasoning.factors
       DecisionReasoning.alternativeDecisions patternHistory].
  repeat split. apply lookup_insert_eq.
Qed.

(** An unparsable URL makes [createDecision] throw. *)
Lemma createDecision_throws (this : t) url category reason confidence
  violations criticalViolations complexViolations incomplete :
  URL_hostname url = None →
  createDecision this url category reason confidence violations
    criticalViolations complexViolations incomplete
  = JS.Throw "TypeError: Invalid URL".
Proof.
  intros Hd. unfold createDecision, extractInsights, hostnameOf.
  rewrite Hd. reflexivity.
Qed.

End FixedAgent.

(** ** Sample inputs *)

Fixpoint untilSlash (s : string) : string :=
  match s with
  | EmptyString => EmptyString
  | String c s' => if Ascii.eqb c (Ascii.ascii_of_nat 47) then EmptyString else String c (untilSlash s')
  end.

(** A stand-in for [URL] on the sample pages: [https://host/path] has
    hostname [host]; anything else is refused. *)
Definition sampleHostname (url : string) : option string :=
  if String.prefix "https://" url
  then Some (untilSlash (String.substring 8 (String.length url - 8) url))
  else None.

Definition samplePlatform : Platform := {|
  URL_hostname := sampleHostname;
  Date_toISOString := "2024-01-01T00:00:00.000Z"
|}.

Definition sampleViolation (id : string) (impact : Impact) : ViolationResult.t :=
  {| ViolationResult.id := id;
     ViolationResult.impact := impact;
     ViolationResult.description := "";
     ViolationResult.help := "";
     ViolationResult.helpUrl := "";
     ViolationResult.nodes := [];
     ViolationResult.tags := ["wcag2aa"] |}.

Definition samplePage (violations incomplete : list ViolationResult.t)
  (error : option string) : PageScanResult.t :=
  {| PageScanResult.url := "https://example.com/";
     PageScanResult.timestamp := "2023-01-01T00:00:00.000Z";
     PageScanResult.violations := violations;
     PageScanResult.passes := [];
     PageScanResult.incomplete := incomplete;
     PageScanResult.inapplicable := [];
     PageScanResult.scanDuration := 1000;
     PageScanResult.error := error |}.

(** Five serious findings, one of them a complex issue. *)
Definition pageWithFiveSerious : PageScanResult.t :=
  samplePage
    [ sampleViolation "color-contrast" serious;
      sampleViolation "image-alt" serious;
      sampleViolation "label" critical;
      sampleViolation "html-has-lang" serious;
      sampleViolation "document-title" serious ] [] None.

(** No violation, six incomplete findings. *)
Definition cleanPageWithSixIncomplete : PageScanResult.t :=
  samplePage [] (replicate 6 (sampleViolation "duplicate-id" moderate)) None.

Definition cleanPage : PageScanResult.t :=
  samplePage [] [sampleViolation "duplicate-id" moderate] None.

Definition failedPage : PageScanResult.t :=
  samplePage [] [] (Some "Network timeout").

(** The same result under another address. *)
Definition atAddress (url : string) (page : PageScanResult.t)
  : PageScanResult.t :=
  {| PageScanResult.url := url;
     PageScanResult.timestamp := PageScanResult.timestamp page;
     PageScanResult.violations := PageScanResult.violations page;
     PageScanResult.passes := PageScanResult.passes page;
     PageScanResult.incomplete := PageScanResult.incomplete page;
     PageScanResult.inapplicable := PageScanResult.inapplicable page;
     PageScanResult.scanDuration := PageScanResult.scanDuration page;
     PageScanResult.error := PageScanResult.error page |}.

(** The five serious findings, recorded under an address [new URL]
    refuses (it has no scheme). *)
Definition pageWithFiveSeriousNoScheme : PageScanResult.t :=
  atAddress "example.com" pageWithFiveSerious.

(** ** Step 1 and step 2 of the decision *)

Section Decide.
Context `{Platform}.
Import EnhancedDecisionAgentFixed.

(** C1, as the agent has it. A result with no error, whose URL [new URL]
    parses (to some hostname [domain]) and whose violations hold at least
    [criticalThreshold] serious or critical findings is decided [CRITICAL]
    with confidence 0.95, under the reason of the critical-volume check and
    whatever complex-pattern findings it also holds; [DecisionAgent] with
    the same threshold decides [CRITICAL] too. *)
Theorem critical_volume_decides_CRITICAL
  (this : t) (scanResult : PageScanResult.t) (domain : string) :
  JS.truthy (PageScanResult.error scanResult) = false →
  URL_hostname (PageScanResult.url scanResult) = Some domain →
  criticalThreshold this
    ≤ length (List.filter isCriticalOrSerious
                (PageScanResult.violations scanResult)) →
  (∃ d this',
     makeDecisionWithReasoning this scanResult = JS.Return (d, this')
     ∧ EnhancedPageDecision.category d = CRITICAL
     ∧ DecisionReasoning.decision (EnhancedPageDecision.reasoning d) = CRITICAL
     ∧ PrimFloat.leb 0.95
         (DecisionReasoning.confidence (EnhancedPageDecision.reasoning d))
       = true
     ∧ EnhancedPageDecision.reason d
       = JS.toString
           (length (List.filter isCriticalOrSerious
                      (PageScanResult.violations scanResult)))
         +:+ " critical/serious violations require immediate attention")
  ∧ (∀ agent : DecisionAgent.t,
       DecisionAgent.criticalThreshold agent = criticalThreshold this →
       PageDecision.category (DecisionAgent.makeDecision agent scanResult)
       = CRITICAL).
Proof.
  intros Herr Hurl Hcount. split.
  - unfold makeDecisionWithReasoning. rewrite Herr.
    unfold getCriticalViolations.
    rewrite (proj2 (Nat.leb_le _ _) Hcount).
    destruct (createDecision_returns this (PageScanResult.url scanResult)
                CRITICAL
                (JS.toString
                   (length (List.filter isCriticalOrSerious
                              (PageScanResult.violations scanResult)))
                 +:+ " critical/serious violations require immediate attention")
                0.95%float (PageScanResult.violations scanResult)
                (List.filter isCriticalOrSerious
                   (PageScanResult.violations scanResult))
                (getComplexViolations this
                   (PageScanResult.violations scanResult))
                (PageScanResult.incomplete scanResult) domain Hurl)
      as (d & this' & Heq & _ & Hcat & Hreason & _ & Hdec & Hconf & _).
    exists d, this'. rewrite Hconf. repeat split; auto.
  - intros agent Hsame. unfold DecisionAgent.makeDecision.
    rewrite Herr. unfold DecisionAgent.getCriticalViolations.
    fold isCriticalOrSerious.
    change (fun violation : ViolationResult.t =>
              Impact_eqb (ViolationResult.impact violation) critical
              || Impact_eqb (ViolationResult.impact violation) serious)
      with isCriticalOrSerious.
    rewrite Hsame, (proj2 (Nat.leb_le _ _) Hcount). reflexivity.
Qed.

(** The shape of an error decision: [CRITICAL], confidence 1.0,
    one reasoning factor, no alternative. *)
Definition errorDecisionShape (d : EnhancedPageDecision.t) : Prop :=
  EnhancedPageDecision.category d = CRITICAL
  ∧ DecisionReasoning.confidence (EnhancedPageDecision.reasoning d) = 1.0%float
  ∧ (∃ factor,
       DecisionReasoning.factors (EnhancedPageDecision.reasoning d) = [factor])
  ∧ DecisionReasoning.alternativeDecisions (EnhancedPageDecision.reasoning d)
    = [].

(** C5. A result whose [error] is set (a non-empty message, as [if (error)]
    tests it) is decided [CRITICAL] with confidence 1.0, with exactly one
    reasoning factor, which describes the scan failure, and with no
    alternative; nothing is thrown and the learning memory is untouched.
    [DecisionAgent] decides [CRITICAL] too, and the error decision of the
    superseded [EnhancedDecisionAgent] has the same shape. *)
Theorem scan_error_decides_CRITICAL
  (this : t) (scanResult : PageScanResult.t) :
  JS.truthy (PageScanResult.error scanResult) = true →
  ∃ d e factor,
    PageScanResult.error scanResult = Some e
    ∧ makeDecisionWithReasoning this scanResult = JS.Return (d, this)
    ∧ EnhancedPageDecision.category d = CRITICAL
    ∧ DecisionReasoning.decision (EnhancedPageDecision.reasoning d) = CRITICAL
    ∧ DecisionReasoning.confidence (EnhancedPageDecision.reasoning d)
      = 1.0%float
    ∧ DecisionReasoning.factors (EnhancedPageDecision.reasoning d) = [factor]
    ∧ ReasoningFactor.description factor = "Scan failed: " +:+ e
    ∧ ReasoningFactor.evidence factor = [e]
    ∧ DecisionReasoning.alternativeDecisions (EnhancedPageDecision.reasoning d)
      = []
    ∧ EnhancedPageDecision.priority d = Critical
    ∧ (∀ agent : DecisionAgent.t,
         PageDecision.category (DecisionAgent.makeDecision agent scanResult)
         = CRITICAL)
    ∧ errorDecisionShape
        (EnhancedDecisionAgent.createErrorDecision
           (PageScanResult.url scanResult) e).
Proof.
  intros Herr. destruct (truthy_Some _ Herr) as (e & He & _).
  unfold makeDecisionWithReasoning. rewrite Herr, He.
  eexists _, e, _. split; [reflexivity|]. split; [reflexivity|].
  cbn. repeat split; [|eexists; split; reflexivity].
  intros agent. unfold DecisionAgent.makeDecision. rewrite Herr. reflexivity.
Qed.

End Decide.

(** The superseded [EnhancedDecisionAgent] scores a page at or above the
    critical threshold differently, on purpose: [CLAUDE_NEEDED] takes 0.98
    and [CRITICAL] 0, so it is chosen [CLAUDE_NEEDED], with confidence 1. *)
Lemma superseded_agent_scores_critical_volume_CLAUDE_NEEDED
  (this : EnhancedDecisionAgent.t) (factors : list ReasoningFactor.t)
  (violations : list ViolationResult.t) :
  EnhancedDecisionAgent.criticalThreshold this
    ≤ length (EnhancedDecisionAgent.getCriticalViolations violations) →
  EnhancedDecisionAgent.selectBestDecision
    (EnhancedDecisionAgent.calculateDecisionScores this factors violations).1
  = (CLAUDE_NEEDED, 1.0%float).
Proof.
  intros Hcount. unfold EnhancedDecisionAgent.calculateDecisionScores.
  rewrite (proj2 (Nat.leb_le _ _) Hcount).
  destruct (length violations =? 0); reflexivity.
Qed.

Lemma critical_volume_decides_CRITICAL_witness :
  (∃ d this',
     @EnhancedDecisionAgentFixed.makeDecisionWithReasoning samplePlatform
       EnhancedDecisionAgentFixed.new pageWithFiveSerious = JS.Return (d, this')
     ∧ EnhancedPageDecision.category d = CRITICAL
     ∧ DecisionReasoning.decision (EnhancedPageDecision.reasoning d) = CRITICAL
     ∧ PrimFloat.leb 0.95
         (DecisionReasoning.confidence (EnhancedPageDecision.reasoning d))
       = true
     ∧ EnhancedPageDecision.reason d
       = JS.toString
           (length (List.filter isCriticalOrSerious
                      (PageScanResult.violations pageWithFiveSerious)))
         +:+ " critical/serious violations require immediate attention")
  ∧ (∀ agent : DecisionAgent.t,
       DecisionAgent.criticalThreshold agent
       = EnhancedDecisionAgentFixed.criticalThreshold
           EnhancedDecisionAgentFixed.new →
       PageDecision.category (DecisionAgent.makeDecision agent pageWithFiveSerious)
       = CRITICAL).
Proof.
  apply (@critical_volume_decides_CRITICAL samplePlatform
           EnhancedDecisionAgentFixed.new pageWithFiveSerious "example.com").
  - reflexivity.
  - reflexivity.
  - vm_compute. lia.
Defined.

(** C1, as stated, fails: [createDecision] reads [new URL(url).hostname]
    for the learning memory and nothing catches what [new URL] throws, so
    a result with no error and five serious or critical findings whose URL
    does not parse yields no decision at all: the call throws. *)
Lemma critical_volume_with_unparsable_url_throws :
  JS.truthy (PageScanResult.error pageWithFiveSeriousNoScheme) = false
  ∧ EnhancedDecisionAgentFixed.criticalThreshold EnhancedDecisionAgentFixed.new
    ≤ length (List.filter isCriticalOrSerious
                (PageScanResult.violations pageWithFiveSeriousNoScheme))
  ∧ @EnhancedDecisionAgentFixed.makeDecisionWithReasoning samplePlatform
      EnhancedDecisionAgentFixed.new pageWithFiveSeriousNoScheme
    = JS.Throw "TypeError: Invalid URL"
  ∧ ¬ (∃ d this',
         @EnhancedDecisionAgentFixed.makeDecisionWithReasoning samplePlatform
           EnhancedDecisionAgentFixed.new pageWithFiveSeriousNoScheme
         = JS.Return (d, this')
         ∧ EnhancedPageDecision.category d = CRITICAL).
Proof.
  split; [reflexivity|]. split; [vm_compute; lia|]. split; [reflexivity|].
  intros (d & this' & Heq & _). vm_compute in Heq. discriminate.
Qed.

Lemma scan_error_decides_CRITICAL_witness :
  ∃ d e factor,
    PageScanResult.error failedPage = Some e
    ∧ @EnhancedDecisionAgentFixed.makeDecisionWithReasoning samplePlatform
        EnhancedDecisionAgentFixed.new failedPage
      = JS.Return (d, EnhancedDecisionAgentFixed.new)
    ∧ EnhancedPageDecision.category d = CRITICAL
    ∧ DecisionReasoning.decision (EnhancedPageDecision.reasoning d) = CRITICAL
    ∧ DecisionReasoning.confidence (EnhancedPageDecision.reasoning d)
      = 1.0%float
    ∧ DecisionReasoning.factors (EnhancedPageDecision.reasoning d) = [factor]
    ∧ ReasoningFactor.description factor = "Scan failed: " +:+ e
    ∧ ReasoningFactor.evidence factor = [e]
    ∧ DecisionReasoning.alternativeDecisions (EnhancedPageDecision.reasoning d)
      = []
    ∧ EnhancedPageDecision.priority d = Critical
    ∧ (∀ agent : DecisionAgent.t,
         PageDecision.category (DecisionAgent.makeDecision agent failedPage)
         = CRITICAL)
    ∧ errorDecisionShape
        (EnhancedDecisionAgent.createErrorDecision
           (PageScanResult.url failedPage) e).
Proof.
  apply (@scan_error_decides_CRITICAL samplePlatform
           EnhancedDecisionAgentFixed.new failedPage).
  reflexivity.
Defined.

(** ** Step 3: the review-needed factors *)

(** The six factors as the specification lists them: when each one
    triggers, the confidence floor it contributes, and its description (the
    text the agent pushes for it). *)
Module ReviewFactor.
Record t := mk {
  triggered : bool;
  floor : float;
  description : string
}.
End ReviewFactor.

Definition countWhere {A} (f : A → bool) (l : list A) : nat :=
  length (List.filter f l).

Definition isComplexPattern (complexIssues : list string)
  (v : ViolationResult.t) : bool :=
  existsb (fun issue =>
    JS.includes (ViolationResult.id v) issue
    || JS.array_includes (ViolationResult.tags v) issue) complexIssues.

Definition matchesVisualRule (v : ViolationResult.t) : bool :=
  existsb (fun rule => JS.includes (ViolationResult.id v) rule)
    EnhancedDecisionAgentFixed.visualVerificationRules.

Definition mentionsFocusKeyboardTabindex (v : ViolationResult.t) : bool :=
  idIncludes "focus" v || idIncludes "keyboard" v || idIncludes "tabindex" v.

Definition reviewFactors (this : EnhancedDecisionAgentFixed.t)
  (scanResult : PageScanResult.t) : list ReviewFactor.t :=
  let violations := PageScanResult.violations scanResult in
  let incomplete := PageScanResult.incomplete scanResult in
  let complex :=
    countWhere
      (isComplexPattern (EnhancedDecisionAgentFixed.complexIssues this))
      violations in
  let visual := countWhere matchesVisualRule violations in
  let focus := countWhere mentionsFocusKeyboardTabindex violations in
  let aria := countWhere (idIncludes "aria") violations in
  let severe := countWhere isCriticalOrSerious violations in
  [ (* complex-pattern findings present *)
    {| ReviewFactor.triggered := existsb
         (isComplexPattern (EnhancedDecisionAgentFixed.complexIssues this))
         violations;
       ReviewFactor.floor := 0.85;
       ReviewFactor.description :=
         JS.toString complex
           +:+ " complex violations requiring visual analysis" |};
    (* the count of incomplete findings exceeds the threshold *)
    {| ReviewFactor.triggered :=
         EnhancedDecisionAgentFixed.incompleteThreshold this
           <? length incomplete;
       ReviewFactor.floor := 0.8;
       ReviewFactor.description :=
         JS.toString (length incomplete)
           +:+ " incomplete results need verification" |};
    (* any finding id matches a visual-verification rule *)
    {| ReviewFactor.triggered := existsb matchesVisualRule violations;
       ReviewFactor.floor := 0.9;
       ReviewFactor.description :=
         JS.toString visual +:+ " violations need visual verification" |};
    (* at least two findings about focus, keyboard or tab index *)
    {| ReviewFactor.triggered := 2 <=? focus;
       ReviewFactor.floor := 0.85;
       ReviewFactor.description :=
         JS.toString focus +:+ " focus/keyboard navigation issues" |};
    (* at least three findings about ARIA *)
    {| ReviewFactor.triggered := 3 <=? aria;
       ReviewFactor.floor := 0.8;
       ReviewFactor.description :=
         JS.toString aria +:+ " ARIA implementation issues" |};
    (* between 1 and criticalThreshold - 1 serious or critical findings *)
    {| ReviewFactor.triggered :=
         (1 <=? severe)
         && (severe <=? EnhancedDecisionAgentFixed.criticalThreshold this - 1);
       ReviewFactor.floor := 0.75;
       ReviewFactor.description :=
         JS.toString severe +:+ " critical/serious violations need review" |} ].

Definition triggeredFactors (factors : list ReviewFactor.t)
  : list ReviewFactor.t :=
  List.filter ReviewFactor.triggered factors.

(** The maximum of a list of floors; [None] on the empty list. *)
Definition maxFloor (floors : list float) : option float :=
  match floors with
  | [] => None
  | f :: floors' => Some (foldl JS.max f floors')
  end.

Section ReviewNeeded.
Import EnhancedDecisionAgentFixed.

(** The six blocks of [determineClaudeNeed] against the list of factors. *)
Lemma consider_all (b1 b2 b3 b4 b5 b6 : bool) (d1 d2 d3 d4 d5 d6 : string) :
  let acc :=
    consider b6 d6 0.75
      (consider b5 d5 0.8
         (consider b4 d4 0.85
            (consider b3 d3 0.9
               (consider b2 d2 0.8
                  (consider b1 d1 0.85 ([], 0.7%float)))))) in
  let factors :=
    triggeredFactors
      [ ReviewFactor.mk b1 0.85 d1; ReviewFactor.mk b2 0.8 d2;
        ReviewFactor.mk b3 0.9 d3; ReviewFactor.mk b4 0.85 d4;
        ReviewFactor.mk b5 0.8 d5; ReviewFactor.mk b6 0.75 d6 ] in
  acc.1 = map ReviewFactor.description factors
  ∧ (factors ≠ [] → maxFloor (map ReviewFactor.floor factors) = Some acc.2).
Proof.
  destruct b1, b2, b3, b4, b5, b6;
    (split; [reflexivity | intros Hne; try reflexivity; contradiction]).
Qed.

Lemma below_threshold_trigger (severe threshold : nat) :
  ((0 <? severe) && (severe <? threshold))
  = ((1 <=? severe) && (severe <=? threshold - 1)).
Proof.
  destruct (Nat.ltb_spec 0 severe), (Nat.ltb_spec severe threshold),
    (Nat.leb_spec 1 severe), (Nat.leb_spec severe (threshold - 1));
    simpl; try reflexivity; lia.
Qed.

Lemma review_descriptions_nonempty (this : t) (scanResult : PageScanResult.t) :
  Forall (fun f => ReviewFactor.description f ≠ "")
    (reviewFactors this scanResult).
Proof.
  unfold reviewFactors. repeat constructor; cbn [ReviewFactor.description];
    apply append_nonempty; discriminate.
Qed.

Lemma join_descriptions_nonempty (sep : string) (factors : list ReviewFactor.t) :
  Forall (fun f => ReviewFactor.description f ≠ "") factors →
  factors ≠ [] →
  JS.join sep (map ReviewFactor.description factors) ≠ "".
Proof.
  intros Hall Hne. destruct factors as [|f factors]; [congruence|].
  apply concat_nonempty. inversion Hall; auto.
Qed.

(** What [determineClaudeNeed] computes, in terms of the factors. *)
Lemma determineClaudeNeed_factors (this : t) (scanResult : PageScanResult.t) :
  let need :=
    determineClaudeNeed this (PageScanResult.violations scanResult)
      (PageScanResult.incomplete scanResult)
      (getComplexViolations this (PageScanResult.violations scanResult)) in
  let factors := triggeredFactors (reviewFactors this scanResult) in
  factors ≠ [] →
  ClaudeNeed.needed need = true
  ∧ ClaudeNeed.reason need
    = JS.join "; " (map ReviewFactor.description factors)
  ∧ maxFloor (map ReviewFactor.floor factors)
    = Some (ClaudeNeed.confidence need).
Proof.
  intros need factors Hne.
  pose proof (review_descriptions_nonempty this scanResult) as Hdesc.
  assert (Hsub : Forall (fun f => ReviewFactor.description f ≠ "") factors).
  { apply Forall_forall. intros f Hf. apply list_elem_of_In in Hf.
    apply filter_In in Hf as [Hf _]. apply list_elem_of_In in Hf.
    rewrite Forall_forall in Hdesc. auto. }
  pose proof (join_descriptions_nonempty "; " factors Hsub Hne) as Hjoin.
  subst need factors. revert Hne Hjoin.
  unfold determineClaudeNeed, reviewFactors, getComplexViolations, countWhere,
    isComplexPattern, matchesVisualRule, mentionsFocusKeyboardTabindex.
  rewrite below_threshold_trigger, !filter_length_pos.
  match goal with
  | |- context [consider ?b6 ?d6 _ (consider ?b5 ?d5 _ (consider ?b4 ?d4 _
         (consider ?b3 ?d3 _ (consider ?b2 ?d2 _ (consider ?b1 ?d1 _ _)))))] =>
      pose proof (consider_all b1 b2 b3 b4 b5 b6 d1 d2 d3 d4 d5 d6) as Hall;
      cbv zeta in Hall
  end.
  destruct Hall as [Hreasons Hmax].
  match type of Hreasons with
  | ?acc.1 = _ => destruct acc as [reasons confidence] eqn:Hacc
  end.
  cbn [fst snd] in Hreasons, Hmax. subst reasons.
  intros Hne Hjoin.
  cbn [ClaudeNeed.needed ClaudeNeed.reason ClaudeNeed.confidence].
  split; [|split].
  - rewrite length_map. apply Nat.ltb_lt.
    destruct (triggeredFactors _); [congruence | simpl; lia].
  - apply or_string_nonempty, Hjoin.
  - apply Hmax, Hne.
Qed.

Context `{Platform}.

(** C6, as the agent has it. A result with no error, whose URL [new URL]
    parses (to some hostname [domain]) and which has fewer than
    [criticalThreshold] serious or critical violations, for which at least
    one of the six review-needed factors triggers, is decided
    [CLAUDE_NEEDED] (the specification's REVIEW_NEEDED); the confidence is the maximum of the floors of the
    triggered factors, and the reason joins the descriptions of all the
    triggered factors, in order, with ["; "]. *)
Theorem review_needed_takes_the_maximum_floor
  (this : t) (scanResult : PageScanResult.t) (domain : string) :
  JS.truthy (PageScanResult.error scanResult) = false →
  URL_hostname (PageScanResult.url scanResult) = Some domain →
  countWhere isCriticalOrSerious (PageScanResult.violations scanResult)
    < criticalThreshold this →
  triggeredFactors (reviewFactors this scanResult) ≠ [] →
  ∃ d this',
    makeDecisionWithReasoning this scanResult = JS.Return (d, this')
    ∧ EnhancedPageDecision.category d = CLAUDE_NEEDED
    ∧ DecisionReasoning.decision (EnhancedPageDecision.reasoning d)
      = CLAUDE_NEEDED
    ∧ maxFloor (map ReviewFactor.floor
                  (triggeredFactors (reviewFactors this scanResult)))
      = Some (DecisionReasoning.confidence (EnhancedPageDecision.reasoning d))
    ∧ EnhancedPageDecision.reason d
      = JS.join "; "
          (map ReviewFactor.description
             (triggeredFactors (reviewFactors this scanResult))).
Proof.
  intros Herr Hurl Hcount Hne.
  destruct (determineClaudeNeed_factors this scanResult Hne)
    as (Hneeded & Hreason & Hmax).
  unfold makeDecisionWithReasoning. rewrite Herr.
  unfold getCriticalViolations. unfold countWhere in Hcount.
  rewrite (proj2 (Nat.leb_gt _ _) Hcount), Hneeded.
  match goal with
  | |- context [createDecision this ?u ?c ?r ?f ?v ?cv ?xv ?i] =>
      destruct (createDecision_returns this u c r f v cv xv i domain Hurl)
        as (d & this' & Heq & _ & Hcat & Hr & _ & Hdec & Hconf & _)
  end.
  exists d, this'.
  split; [exact Heq|]. split; [exact Hcat|]. split; [exact Hdec|].
  split; [rewrite Hconf; exact Hmax | rewrite Hr; exact Hreason].
Qed.

(** C2, as the agents have it. A result with no error, whose URL [new URL]
    parses (to some hostname [domain]), with no violation and no more than
    [incompleteThreshold] incomplete findings is decided [PASSED] with
    confidence 1.0, whatever its passes and inapplicable lists hold, by an
    agent whose critical threshold is at least 1 (it is 5 as configured).
    [DecisionAgent] with the same thresholds decides [PASSED] too. *)
Theorem clean_page_decides_PASSED
  (this : t) (scanResult : PageScanResult.t) (domain : string) :
  JS.truthy (PageScanResult.error scanResult) = false →
  URL_hostname (PageScanResult.url scanResult) = Some domain →
  PageScanResult.violations scanResult = [] →
  length (PageScanResult.incomplete scanResult) ≤ incompleteThreshold this →
  0 < criticalThreshold this →
  (∃ d this',
     makeDecisionWithReasoning this scanResult = JS.Return (d, this')
     ∧ EnhancedPageDecision.category d = PASSED
     ∧ DecisionReasoning.confidence (EnhancedPageDecision.reasoning d)
       = 1.0%float
     ∧ EnhancedPageDecision.priority d = Low)
  ∧ (∀ agent : DecisionAgent.t,
       DecisionAgent.criticalThreshold agent = criticalThreshold this →
       DecisionAgent.incompleteThreshold agent = incompleteThreshold this →
       PageDecision.category (DecisionAgent.makeDecision agent scanResult)
       = PASSED).
Proof.
  intros Herr Hurl Hnone Hinc Hpos. split.
  - unfold makeDecisionWithReasoning. rewrite Herr, Hnone.
    cbn [getCriticalViolations List.filter length].
    rewrite (proj2 (Nat.leb_gt _ _) Hpos).
    unfold determineClaudeNeed, getComplexViolations.
    rewrite (proj2 (Nat.ltb_ge _ _) Hinc).
    cbn [List.filter length consider ClaudeNeed.needed Nat.ltb Nat.leb
         Nat.eqb andb].
    match goal with
    | |- context [createDecision this ?u ?c ?r ?f ?v ?cv ?xv ?i] =>
        destruct (createDecision_returns this u c r f v cv xv i domain Hurl)
          as (d & this' & Heq & _ & Hcat & _ & Hprio & _ & Hconf & _)
    end.
    exists d, this'. rewrite Hconf. repeat split; auto.
  - intros agent Hcrit Hincomplete.
    unfold DecisionAgent.makeDecision. rewrite Herr, Hnone.
    cbn [DecisionAgent.getCriticalViolations List.filter length].
    rewrite Hcrit, (proj2 (Nat.leb_gt _ _) Hpos).
    unfold DecisionAgent.needsHumanAnalysis, DecisionAgent.getComplexViolations.
    rewrite Hincomplete, (proj2 (Nat.ltb_ge _ _) Hinc).
    reflexivity.
Qed.

End ReviewNeeded.

(** One serious colour-contrast finding: a complex issue, a
    visual-verification rule and a serious finding below the threshold. *)
Definition pageWithColorContrast : PageScanResult.t :=
  samplePage [sampleViolation "color-contrast" serious] [] None.

Lemma review_needed_takes_the_maximum_floor_witness :
  ∃ d this',
    @EnhancedDecisionAgentFixed.makeDecisionWithReasoning samplePlatform
      EnhancedDecisionAgentFixed.new pageWithColorContrast
    = JS.Return (d, this')
    ∧ EnhancedPageDecision.category d = CLAUDE_NEEDED
    ∧ DecisionReasoning.decision (EnhancedPageDecision.reasoning d)
      = CLAUDE_NEEDED
    ∧ maxFloor (map ReviewFactor.floor
                  (triggeredFactors
                     (reviewFactors EnhancedDecisionAgentFixed.new
                        pageWithColorContrast)))
      = Some (DecisionReasoning.confidence (EnhancedPageDecision.reasoning d))
    ∧ EnhancedPageDecision.reason d
      = JS.join "; "
          (map ReviewFactor.description
             (triggeredFactors
                (reviewFactors EnhancedDecisionAgentFixed.new
                   pageWithColorContrast))).
Proof.
  apply (@review_needed_takes_the_maximum_floor samplePlatform
           EnhancedDecisionAgentFixed.new pageWithColorContrast "example.com").
  - reflexivity.
  - reflexivity.
  - vm_compute. lia.
  - vm_compute. discriminate.
Defined.

(** The colour-contrast finding, recorded under an address [new URL]
    refuses. *)
Definition pageWithColorContrastNoScheme : PageScanResult.t :=
  atAddress "example.com" pageWithColorContrast.

(** C6, as stated, fails: a result with no error, one serious finding
    (fewer than the threshold) and three triggered factors, whose URL does
    not parse, yields no decision: [new URL] throws in [createDecision]. *)
Lemma review_needed_with_unparsable_url_throws :
  JS.truthy (PageScanResult.error pageWithColorContrastNoScheme) = false
  ∧ countWhere isCriticalOrSerious
      (PageScanResult.violations pageWithColorContrastNoScheme)
    < EnhancedDecisionAgentFixed.criticalThreshold
        EnhancedDecisionAgentFixed.new
  ∧ length (triggeredFactors
              (reviewFactors EnhancedDecisionAgentFixed.new
                 pageWithColorContrastNoScheme)) = 3
  ∧ @EnhancedDecisionAgentFixed.makeDecisionWithReasoning samplePlatform
      EnhancedDecisionAgentFixed.new pageWithColorContrastNoScheme
    = JS.Throw "TypeError: Invalid URL"
  ∧ ¬ (∃ d this',
         @EnhancedDecisionAgentFixed.makeDecisionWithReasoning samplePlatform
           EnhancedDecisionAgentFixed.new pageWithColorContrastNoScheme
         = JS.Return (d, this')
         ∧ EnhancedPageDecision.category d = CLAUDE_NEEDED).
Proof.
  split; [reflexivity|]. split; [vm_compute; lia|]. split; [reflexivity|].
  split; [reflexivity|].
  intros (d & this' & Heq & _). vm_compute in Heq. discriminate.
Qed.

(** On that page the floors 0.85, 0.9 and 0.75 are triggered and the
    confidence is 0.9, not their sum. *)
Example color_contrast_page_confidence :
  ∃ d this',
    @EnhancedDecisionAgentFixed.makeDecisionWithReasoning samplePlatform
      EnhancedDecisionAgentFixed.new pageWithColorContrast
    = JS.Return (d, this')
    ∧ DecisionReasoning.confidence (EnhancedPageDecision.reasoning d)
      = 0.9%float
    ∧ EnhancedPageDecision.reason d
      = "1 complex violations requiring visual analysis; 1 violations need visual verification; 1 critical/serious violations need review".
Proof. vm_compute. eexists _, _. repeat split. Qed.

Lemma clean_page_decides_PASSED_witness :
  (∃ d this',
     @EnhancedDecisionAgentFixed.makeDecisionWithReasoning samplePlatform
       EnhancedDecisionAgentFixed.new cleanPage = JS.Return (d, this')
     ∧ EnhancedPageDecision.category d = PASSED
     ∧ DecisionReasoning.confidence (EnhancedPageDecision.reasoning d)
       = 1.0%float
     ∧ EnhancedPageDecision.priority d = Low)
  ∧ (∀ agent : DecisionAgent.t,
       DecisionAgent.criticalThreshold agent
       = EnhancedDecisionAgentFixed.criticalThreshold
           EnhancedDecisionAgentFixed.new →
       DecisionAgent.incompleteThreshold agent
       = EnhancedDecisionAgentFixed.incompleteThreshold
           EnhancedDecisionAgentFixed.new →
       PageDecision.category (DecisionAgent.makeDecision agent cleanPage)
       = PASSED).
Proof.
  apply (@clean_page_decides_PASSED samplePlatform
           EnhancedDecisionAgentFixed.new cleanPage "example.com").
  - reflexivity.
  - reflexivity.
  - reflexivity.
  - vm_compute. lia.
  - vm_compute. lia.
Defined.

(** C2, as stated, fails: a result with no error and no violation but six
    incomplete findings is decided [CLAUDE_NEEDED] with confidence 0.8 by
    the enhanced agent, and [CLAUDE_NEEDED] by [DecisionAgent]. *)
Lemma clean_page_with_six_incomplete_is_not_PASSED :
  JS.truthy (PageScanResult.error cleanPageWithSixIncomplete) = false
  ∧ PageScanResult.violations cleanPageWithSixIncomplete = []
  ∧ (∃ d this',
       @EnhancedDecisionAgentFixed.makeDecisionWithReasoning samplePlatform
         EnhancedDecisionAgentFixed.new cleanPageWithSixIncomplete
       = JS.Return (d, this')
       ∧ EnhancedPageDecision.category d = CLAUDE_NEEDED
       ∧ EnhancedPageDecision.category d ≠ PASSED
       ∧ DecisionReasoning.confidence (EnhancedPageDecision.reasoning d)
         = 0.8%float
       ∧ EnhancedPageDecision.reason d
         = "6 incomplete results need verification")
  ∧ PageDecision.category
      (DecisionAgent.makeDecision DecisionAgent.new cleanPageWithSixIncomplete)
    = CLAUDE_NEEDED.
Proof.
  split; [reflexivity|]. split; [reflexivity|]. split; [|reflexivity].
  vm_compute. eexists _, _. repeat split. discriminate.
Qed.

(** The two other conditions of C2 as the agents have it are needed as
    well: the clean page under an address [new URL] refuses makes the
    enhanced agent throw, and an agent whose critical threshold is 0 finds
    the critical volume reached by no violation at all. *)
Definition agentWithThreshold (criticalThreshold : nat)
  : EnhancedDecisionAgentFixed.t :=
  {| EnhancedDecisionAgentFixed.complexIssues :=
       EnhancedDecisionAgentFixed.complexIssues EnhancedDecisionAgentFixed.new;
     EnhancedDecisionAgentFixed.criticalThreshold := criticalThreshold;
     EnhancedDecisionAgentFixed.incompleteThreshold :=
       EnhancedDecisionAgentFixed.incompleteThreshold
         EnhancedDecisionAgentFixed.new;
     EnhancedDecisionAgentFixed.patternHistory := ∅ |}.

Example clean_page_needs_a_url_and_a_positive_threshold :
  @EnhancedDecisionAgentFixed.makeDecisionWithReasoning samplePlatform
    EnhancedDecisionAgentFixed.new (atAddress "example.com" cleanPage)
  = JS.Throw "TypeError: Invalid URL"
  ∧ (∃ d this',
       @EnhancedDecisionAgentFixed.makeDecisionWithReasoning samplePlatform
         (agentWithThreshold 0) cleanPage = JS.Return (d, this')
       ∧ EnhancedPageDecision.category d = CRITICAL
       ∧ DecisionReasoning.confidence (EnhancedPageDecision.reasoning d)
         = 0.95%float).
Proof.
  split; [reflexivity|]. vm_compute. eexists _, _. repeat split.
Qed.

(** ** Priority *)

(** C7. The priority [calculatePriority] derives from a violations list is
    [Critical] exactly when some finding is critical; otherwise [High]
    exactly when at least 3 findings are serious; otherwise [Medium]
    exactly when at least 1 finding is serious or there are at least 5
    findings; otherwise [Low]. *)
Theorem priority_derivation (violations : list ViolationResult.t) :
  let anyCritical :=
    Exists (fun v => ViolationResult.impact v = critical) violations in
  let seriousCount := countWhere (hasImpact serious) violations in
  let p := EnhancedDecisionAgentFixed.calculatePriority violations in
  (p = Critical ↔ anyCritical)
  ∧ (p = High ↔ ¬ anyCritical ∧ 3 ≤ seriousCount)
  ∧ (p = Medium ↔
       ¬ anyCritical ∧ seriousCount < 3
       ∧ (1 ≤ seriousCount ∨ 5 ≤ length violations))
  ∧ (p = Low ↔
       ¬ anyCritical ∧ seriousCount < 3
       ∧ ¬ (1 ≤ seriousCount ∨ 5 ≤ length violations)).
Proof.
  intros anyCritical seriousCount p.
  assert (Hcrit : existsb (hasImpact critical) violations = true ↔ anyCritical).
  { unfold anyCritical. rewrite existsb_exists, Exists_exists. unfold hasImpact.
    split; intros (v & Hin & Hv); exists v.
    - split; [apply list_elem_of_In, Hin|].
      destruct (ViolationResult.impact v); simpl in Hv; congruence.
    - split; [apply list_elem_of_In, Hin|]. rewrite Hv. reflexivity. }
  subst p. unfold EnhancedDecisionAgentFixed.calculatePriority.
  rewrite filter_length_pos. fold (countWhere (hasImpact serious) violations).
  fold seriousCount.
  destruct (existsb (hasImpact critical) violations) eqn:Hex.
  - assert anyCritical by (apply Hcrit; reflexivity).
    repeat split; try discriminate; intros; tauto.
  - assert (¬ anyCritical) by (rewrite <- Hcrit; discriminate).
    destruct (Nat.leb_spec 3 seriousCount).
    + repeat split; try discriminate; intros; try tauto; lia.
    + destruct (Nat.leb_spec 1 seriousCount);
        destruct (Nat.leb_spec 5 (length violations)); simpl;
        repeat split; try discriminate; intros; try tauto; try lia.
Qed.

(** ** The scanner: one page *)

(** The invariant of a [PageScanResult]: a result that carries an error
    carries no finding. *)
Definition errorMeansNoFindings (r : PageScanResult.t) : Prop :=
  PageScanResult.error r ≠ None →
  PageScanResult.violations r = []
  ∧ PageScanResult.passes r = []
  ∧ PageScanResult.incomplete r = []
  ∧ PageScanResult.inapplicable r = [].

(** The result [scanSinglePage] returns once every attempt has failed. *)
Definition failureResult `{Platform} (url : string) (lastError : option string)
  : PageScanResult.t :=
  {| PageScanResult.url := url;
     PageScanResult.timestamp := Date_toISOString;
     PageScanResult.violations := [];
     PageScanResult.passes := [];
     PageScanResult.incomplete := [];
     PageScanResult.inapplicable := [];
     PageScanResult.scanDuration := 0;
     PageScanResult.error :=
       Some (JS.or_string (default "" lastError) "Unknown error") |}.

(** The entry a worker stores for a task. *)
Definition entryOf `{Platform} `{Browser} (this : BulkScannerAgent.t)
  (task : WorkerTask.t) : WorkerResult.t :=
  let result :=
    (BulkScannerAgent.scanSinglePage this (WorkerTask.url task)
       (WorkerTask.index task)).1 in
  {| WorkerResult.url := WorkerTask.url task;
     WorkerResult.result := result;
     WorkerResult.needsClaudeAnalysis :=
       BulkScannerAgent.needsHumanAnalysis result |}.

Section SinglePage.
Context `{Platform} `{Browser}.
Import BulkScannerAgent.

(** What the specification asks of the result for the [index]-th URL given,
    in terms of what the attempts on it come to: the findings of the first
    of the [retryAttempts] attempts that loads and analyses the page, under
    the URL given; or, when none of them does, a result under that URL
    with only [error] set, to the message of the last attempt (to
    ["Unknown error"] when that message is empty or no attempt was made). *)
Inductive auditOutcome (retryAttempts : Z) (url : string) (index : nat)
  : PageScanResult.t → Prop :=
| audit_succeeded attempt axeResults timestamp scanDuration :
    (1 ≤ attempt ≤ retryAttempts)%Z →
    (∀ earlier, (1 ≤ earlier < attempt)%Z →
       ∃ message, attemptOutcome url index earlier = Failed message) →
    attemptOutcome url index attempt
    = Analysed axeResults timestamp scanDuration →
    auditOutcome retryAttempts url index
      {| PageScanResult.url := url;
         PageScanResult.timestamp := timestamp;
         PageScanResult.violations := AxeResults.violations axeResults;
         PageScanResult.passes := AxeResults.passes axeResults;
         PageScanResult.incomplete := AxeResults.incomplete axeResults;
         PageScanResult.inapplicable := AxeResults.inapplicable axeResults;
         PageScanResult.scanDuration := scanDuration;
         PageScanResult.error := None |}
| audit_exhausted lastError :
    (∀ attempt, (1 ≤ attempt ≤ retryAttempts)%Z →
       ∃ message, attemptOutcome url index attempt = Failed message) →
    match lastError with
    | Some message =>
        (1 ≤ retryAttempts)%Z
        ∧ attemptOutcome url index retryAttempts = Failed message
    | None => (retryAttempts < 1)%Z
    end →
    auditOutcome retryAttempts url index (failureResult url lastError).

(** The attempts fix the result: [auditOutcome] holds of one result only. *)
Lemma auditOutcome_unique retryAttempts url index (r r' : PageScanResult.t) :
  auditOutcome retryAttempts url index r →
  auditOutcome retryAttempts url index r' →
  r = r'.
Proof.
  intros [a axe ts dur Ha Hbefore Hat | lastError Hall Hlast]
         [a' axe' ts' dur' Ha' Hbefore' Hat' | lastError' Hall' Hlast'].
  - assert (a = a') as <-.
    { destruct (Z.lt_trichotomy a a') as [Hlt | [Heq | Hgt]]; [|exact Heq|].
      - destruct (Hbefore' a) as [m Hm]; [lia | congruence].
      - destruct (Hbefore a') as [m Hm]; [lia | congruence]. }
    rewrite Hat in Hat'. injection Hat' as <- <- <-. reflexivity.
  - destruct (Hall' a Ha) as [m Hm]. congruence.
  - destruct (Hall a' Ha') as [m Hm]. congruence.
  - f_equal. destruct lastError as [m|], lastError' as [m'|].
    + destruct Hlast as [_ Hm], Hlast' as [_ Hm']. congruence.
    + destruct Hlast. lia.
    + destruct Hlast'. lia.
    + reflexivity.
Qed.

Lemma scanAttempts_invariant (this : t) url index remaining attempt lastError :
  errorMeansNoFindings
    (scanAttempts this url index remaining attempt lastError).1.
Proof.
  revert attempt lastError.
  induction remaining as [|remaining IH]; intros attempt lastError.
  - intros _. cbn. auto.
  - cbn [scanAttempts].
    destruct (attemptOutcome url index attempt) as [axe ts dur|message];
      cbn [performScan].
    + intros Herr. cbn in Herr. congruence.
    + specialize (IH (attempt + 1)%Z (Some message)).
      destruct (scanAttempts this url index remaining (attempt + 1)
                  (Some message)) as [result later].
      exact IH.
Qed.

Lemma scanSinglePage_invariant (this : t) url index :
  errorMeansNoFindings (scanSinglePage this url index).1.
Proof. apply scanAttempts_invariant. Qed.







(** The error of a result of [scanSinglePage] is never the empty string. *)
Lemma scanAttempts_error_nonempty (this : t) url index remaining attempt
  lastError e :
  PageScanResult.error
    (scanAttempts this url index remaining attempt lastError).1 = Some e →
  e ≠ "".
Proof.
  revert attempt lastError.
  induction remaining as [|remaining IH]; intros attempt lastError.
  - cbn. intros [= <-]. unfold JS.or_string.
    destruct (String.eqb_spec (default "" lastError) ""); [discriminate|auto].
  - cbn [scanAttempts].
    destruct (attemptOutcome url index attempt) as [axe ts dur|message];
      cbn [performScan].
    + cbn. discriminate.
    + specialize (IH (attempt + 1)%Z (Some message)).
      destruct (scanAttempts this url index remaining (attempt + 1)
                  (Some message)) as [result later].
      exact IH.
Qed.

(** When every attempt fails: the loop makes all its remaining attempts,
    waits [2000 * attempt] after each attempt that is not the last one
    allowed, and returns the failure result with the last message. *)
Lemma scanAttempts_all_fail (this : t) url index (message : Z → string)
  remaining attempt lastError :
  (∀ a, attemptOutcome url index a = Failed (message a)) →
  scanAttempts this url index remaining attempt lastError
  = (failureResult url
       (match remaining with
        | 0 => lastError
        | S n => Some (message (attempt + Z.of_nat n)%Z)
        end),
     map (fun a => (2000 * a)%Z)
       (List.filter (fun a => (a <? Options.retryAttempts (options this))%Z)
          (seqZ attempt (Z.of_nat remaining)))).
Proof.
  intros Hfail. revert attempt lastError.
  induction remaining as [|remaining IH]; intros attempt lastError.
  - reflexivity.
  - cbn [scanAttempts]. rewrite Hfail. cbn [performScan].
    rewrite IH. rewrite Nat2Z.inj_succ, (seqZ_cons attempt) by lia.
    replace (Z.pred (Z.succ (Z.of_nat remaining))) with (Z.of_nat remaining)
      by lia.
    replace (Z.succ attempt) with (attempt + 1)%Z by lia.
    cbn [List.filter].
    f_equal.
    + f_equal. destruct remaining as [|n]; f_equal.
      * f_equal. lia.
      * f_equal. lia.
    + destruct (attempt <? Options.retryAttempts (options this))%Z;
        reflexivity.
Qed.

Lemma filter_all {A} (f : A → bool) (l : list A) :
  (∀ x, x ∈ l → f x = true) → List.filter f l = l.
Proof.
  induction l as [|x l IH]; intros Hall; simpl; [reflexivity|].
  rewrite (Hall x) by left. rewrite IH; [reflexivity|].
  intros y Hy. apply Hall. right. exact Hy.
Qed.

(** [scanSinglePage] when every attempt fails, [retryAttempts] being at
    least 1: the attempts 1 to [retryAttempts] are made, the delay after
    attempt [a < retryAttempts] is [2000 * a], and the result carries the
    message of the last attempt and no finding. *)
Lemma scanSinglePage_all_fail (this : t) url index (message : Z → string) :
  (∀ a, attemptOutcome url index a = Failed (message a)) →
  (1 ≤ Options.retryAttempts (options this))%Z →
  scanSinglePage this url index
  = (failureResult url
       (Some (message (Options.retryAttempts (options this)))),
     map (fun a => (2000 * a)%Z)
       (seqZ 1 (Options.retryAttempts (options this) - 1))).
Proof.
  intros Hfail Hpos. unfold scanSinglePage.
  rewrite (scanAttempts_all_fail this url index message _ _ _ Hfail).
  set (R := Options.retryAttempts (options this)) in *.
  assert (Hdelays :
    List.filter (fun a => (a <? R)%Z) (seqZ 1 R) = seqZ 1 (R - 1)).
  { pose proof (seqZ_app 1 (R - 1) 1 ltac:(lia) ltac:(lia)) as Happ.
    replace (R - 1 + 1)%Z with R in Happ by lia.
    replace (1 + (R - 1))%Z with R in Happ by lia.
    rewrite (seqZ_cons R 1), (seqZ_nil (Z.succ R)) in Happ by lia.
    rewrite Happ, List.filter_app.
    cbn [List.filter]. rewrite Z.ltb_irrefl, app_nil_r.
    apply filter_all. intros a Ha. apply elem_of_seqZ in Ha.
    apply Z.ltb_lt. lia. }
  rewrite Z2Nat.id by lia. rewrite Hdelays.
  destruct (Z.to_nat R) as [|n] eqn:Hn; [lia|].
  replace (1 + Z.of_nat n)%Z with R by lia. reflexivity.
Qed.

End SinglePage.

(** A browser no page ever loads in. *)
Definition failingBrowser : Browser := {|
  launch := JS.Return ();
  attemptOutcome := fun _ _ _ => Failed "net::ERR_CONNECTION_TIMED_OUT"
|}.

Definition scannerWithRetries (maxWorkers retryAttempts : Z)
  : BulkScannerAgent.t :=
  BulkScannerAgent.new
    {| BulkScanOptions.maxWorkers := Some maxWorkers;
       BulkScanOptions.outputDirectory := "results";
       BulkScanOptions.timeout := None;
       BulkScanOptions.retryAttempts := Some retryAttempts |}.

(** C3. With four attempts allowed and every attempt failing,
    [scanSinglePage] makes the four attempts and returns a result that only
    carries the error, but the delays it waits are 2000, 4000 and 6000 ms:
    [2000 * attempt], where the exponential backoff of the specification
    (and of the comment on that line) gives 2000, 4000 and 8000 ms. *)
Theorem backoff_is_linear_not_exponential :
  let scanned :=
    @BulkScannerAgent.scanSinglePage samplePlatform failingBrowser
      (scannerWithRetries 2 4) "https://example.com/" 0 in
  scanned.1
  = @failureResult samplePlatform "https://example.com/"
      (Some "net::ERR_CONNECTION_TIMED_OUT")
  ∧ scanned.2 = [2000; 4000; 6000]%Z
  ∧ scanned.2 ≠ map (fun attempt => (2000 * 2 ^ (attempt - 1))%Z) [1; 2; 3]%Z.
Proof.
  cbv zeta. split; [reflexivity|]. split; [reflexivity|].
  vm_compute. discriminate.
Qed.

(** With the default of three attempts the two delays waited are those of
    the exponential formula. *)
Example backoff_with_three_attempts :
  (@BulkScannerAgent.scanSinglePage samplePlatform failingBrowser
     (scannerWithRetries 2 3) "https://example.com/" 0).2
  = map (fun attempt => (2000 * 2 ^ (attempt - 1))%Z) [1; 2]%Z.
Proof. reflexivity. Qed.

(** ** The scanner: the worker pool *)

(** The task a worker holds in flight, if any. *)
Definition taskInFlight (w : BulkScannerAgent.Worker)
  : option WorkerTask.t :=
  match w with
  | BulkScannerAgent.Scanning task => Some task
  | _ => None
  end.

Definition inFlight (p : BulkScannerAgent.Pool) : list WorkerTask.t :=
  omap taskInFlight (BulkScannerAgent.workers p).

(** How far a worker is from the head of its loop, and a pool from rest. *)
Definition workerWeight (w : BulkScannerAgent.Worker) : nat :=
  match w with
  | BulkScannerAgent.Finished => 0
  | BulkScannerAgent.AtLoopHead => 1
  | BulkScannerAgent.RateLimiting => 2
  | BulkScannerAgent.Scanning _ => 3
  end.

Definition poolWeight (p : BulkScannerAgent.Pool) : nat :=
  3 * length (BulkScannerAgent.workQueue p)
  + sum_list (map workerWeight (BulkScannerAgent.workers p)).

(** The index of the first worker that has not returned. *)
Fixpoint firstActive (ws : list BulkScannerAgent.Worker) : option nat :=
  match ws with
  | [] => None
  | BulkScannerAgent.Finished :: ws' => S <$> firstActive ws'
  | _ :: _ => Some 0
  end.

(** One schedule among the possible ones: always run the first worker that
    has not returned. *)
Fixpoint runPool `{Platform} `{Browser} (fuel : nat) (p : BulkScannerAgent.Pool)
  : BulkScannerAgent.Pool :=
  match fuel with
  | 0 => p
  | S fuel' =>
      match firstActive (BulkScannerAgent.workers p) with
      | Some i =>
          match BulkScannerAgent.stepWorker i p with
          | Some p' => runPool fuel' p'
          | None => p
          end
      | None => p
      end
  end.

(** The agent after its workers have stored these results, as
    [createWorker] stores them. *)
Definition storeResults (this : BulkScannerAgent.t)
  (scanResults : list PageScanResult.t) : BulkScannerAgent.t :=
  {| BulkScannerAgent.options := BulkScannerAgent.options this;
     BulkScannerAgent.processedCount :=
       BulkScannerAgent.processedCount this + length scanResults;
     BulkScannerAgent.results :=
       BulkScannerAgent.results this ++
       map (fun result =>
              {| WorkerResult.url := PageScanResult.url result;
                 WorkerResult.result := result;
                 WorkerResult.needsClaudeAnalysis :=
                   BulkScannerAgent.needsHumanAnalysis result |})
         scanResults;
     BulkScannerAgent.errors := BulkScannerAgent.errors this;
     BulkScannerAgent.totalUrlsToProcess :=
       BulkScannerAgent.totalUrlsToProcess this |}.

Section Pool.
Context `{Platform} `{Browser}.
Import BulkScannerAgent.





Lemma sum_weight_insert (ws : list Worker) i w w' :
  ws !! i = Some w →
  sum_list (map workerWeight (<[i := w']> ws)) + workerWeight w
  = sum_list (map workerWeight ws) + workerWeight w'.
Proof.
  revert i. induction ws as [|x ws IH]; intros i Hi; [discriminate|].
  destruct i as [|i]; simpl in *.
  - injection Hi as ->. lia.
  - specialize (IH i Hi). lia.
Qed.

(** Every step brings the pool closer to rest. *)
Lemma step_decreases (p p' : Pool) : step p p' → poolWeight p' < poolWeight p.
Proof.
  intros [i Hstep]. unfold stepWorker in Hstep.
  destruct (workers p !! i) as [w|] eqn:Hw; [|discriminate].
  unfold poolWeight.
  destruct w; [destruct (workQueue p) as [|task rest] eqn:Hq| | |discriminate];
    injection Hstep as <-; cbn [workQueue workers];
    match goal with
    | |- context [<[i := ?w']> (workers p)] =>
        pose proof (sum_weight_insert (workers p) i _ w' Hw) as Hsum
    end; simpl in *; rewrite ?Hq; simpl; lia.
Qed.

Lemma runPool_reachable (fuel : nat) (p : Pool) : rtc step p (runPool fuel p).
Proof.
  revert p. induction fuel as [|fuel IH]; intros p; simpl; [reflexivity|].
  destruct (firstActive (workers p)) as [i|]; [|reflexivity].
  destruct (stepWorker i p) as [p'|] eqn:Hstep; [|reflexivity].
  eapply rtc_l; [exists i; exact Hstep | apply IH].
Qed.


(** No schedule runs for ever: a run from [p] has at most [poolWeight p]
    steps. *)
Lemma runs_are_bounded (p p' : Pool) (n : nat) :
  nsteps step n p p' → n + poolWeight p' ≤ poolWeight p.
Proof.
  induction 1 as [|n p q r Hstep _ IH]; [lia|].
  apply step_decreases in Hstep. lia.
Qed.

End Pool.

Section PoolInvariant.
Context `{Platform} `{Browser}.
Import BulkScannerAgent.

Lemma inFlight_insert (ws : list Worker) i w w' :
  ws !! i = Some w →
  option_list (taskInFlight w) ++ omap taskInFlight (<[i := w']> ws)
  ≡ₚ option_list (taskInFlight w') ++ omap taskInFlight ws.
Proof.
  revert i. induction ws as [|x ws IH]; intros i Hi; [discriminate|].
  destruct i as [|i]; simpl in *.
  - injection Hi as ->.
    destruct (taskInFlight w), (taskInFlight w'); simpl;
      try reflexivity; apply Permutation_swap.
  - specialize (IH i Hi).
    destruct (taskInFlight x) as [t|]; simpl; [|exact IH].
    rewrite <- !Permutation_middle. constructor. exact IH.
Qed.

Lemma inFlight_finished (ws : list Worker) :
  Forall (fun w => w = Finished) ws → omap taskInFlight ws = [].
Proof. induction 1 as [|w ws -> _ IH]; simpl; auto. Qed.

Lemma inFlight_at_loop_head (n : nat) :
  omap taskInFlight (replicate n AtLoopHead) = [].
Proof. induction n as [|n IH]; simpl; auto. Qed.

Lemma makeTasks_urls (urls : list string) :
  map WorkerTask.url (makeTasks urls) = urls.
Proof.
  unfold makeTasks. generalize (length urls) as total.
  intros total. rewrite fmap_imap.
  induction urls as [|u urls IH] using rev_ind; [reflexivity|].
  rewrite imap_app, IH. reflexivity.
Qed.

(** What every pool reachable from the start of a scan satisfies: each URL
    is in the queue, in flight or among the results, exactly as many times
    as it was given; the queue is empty once a worker has returned; the
    number of workers does not change; every result stored counts as
    processed and satisfies the invariant of results; no worker has
    failed. *)
Record poolInvariant (urls : list string) (nWorkers : nat) (p : Pool)
  : Prop := {
  inv_urls :
    map WorkerTask.url (workQueue p)
    ++ map WorkerTask.url (inFlight p)
    ++ map WorkerResult.url (results (agent p)) ≡ₚ urls;
  inv_queue : Finished ∈ workers p → workQueue p = [];
  inv_workers : length (workers p) = nWorkers;
  inv_processed : processedCount (agent p) = length (results (agent p));
  inv_results :
    Forall (fun entry => errorMeansNoFindings (WorkerResult.result entry))
      (results (agent p));
  inv_errors : errors (agent p) = []
}.

Lemma poolInvariant_start (this : t) (urls : list string) :
  results this = [] → processedCount this = 0 → errors this = [] →
  poolInvariant urls (Z.to_nat (Options.maxWorkers (options this)))
    (startWorkers (setTotal this (length urls)) (makeTasks urls)).
Proof.
  intros Hres Hcount Herrs. split; cbn.
  - unfold inFlight. cbn. rewrite Hres, makeTasks_urls.
    rewrite inFlight_at_loop_head. rewrite !app_nil_r. reflexivity.
  - intros Hin. apply elem_of_replicate in Hin as [? _]. discriminate.
  - apply length_replicate.
  - rewrite Hres, Hcount. reflexivity.
  - rewrite Hres. constructor.
  - exact Herrs.
Qed.

End PoolInvariant.

Section PoolSteps.
Context `{Platform} `{Browser}.
Import BulkScannerAgent.

Lemma finished_after_insert (ws : list Worker) i w :
  w ≠ Finished → Finished ∈ <[i := w]> ws → Finished ∈ ws.
Proof.
  intros Hne. revert i. induction ws as [|x ws IH]; intros i; [auto|].
  destruct i as [|i]; simpl; rewrite !elem_of_cons.
  - intros [Heq | Hin]; [congruence | auto].
  - intros [Heq | Hin]; eauto.
Qed.

Lemma poolInvariant_step (urls : list string) (nWorkers : nat) (p p' : Pool) :
  poolInvariant urls nWorkers p → step p p' → poolInvariant urls nWorkers p'.
Proof.
  intros [Hurls Hqueue Hworkers Hprocessed Hresults Herrors] [i Hstep].
  unfold stepWorker in Hstep.
  destruct (workers p !! i) as [w|] eqn:Hw; [|discriminate].
  unfold inFlight in Hurls.
  destruct w as [|task| |].
  - destruct (workQueue p) as [|task rest] eqn:Hq; injection Hstep as <-.
    + pose proof (inFlight_insert (workers p) i _ Finished Hw) as Hperm.
      simpl in Hperm.
      split; cbn [agent workQueue workers]; auto.
      * unfold inFlight; cbn [workers]. rewrite Hperm. exact Hurls.
      * rewrite length_insert. exact Hworkers.
    + pose proof (inFlight_insert (workers p) i _ (Scanning task) Hw) as Hperm.
      simpl in Hperm.
      split; cbn [agent workQueue workers]; auto.
      * unfold inFlight; cbn [workers]. rewrite Hperm, <- Hurls. simpl.
        rewrite <- Permutation_middle. reflexivity.
      * intros Hin. apply finished_after_insert in Hin; [|discriminate].
        specialize (Hqueue Hin). discriminate.
      * rewrite length_insert. exact Hworkers.
  - injection Hstep as <-.
    pose proof (inFlight_insert (workers p) i _ RateLimiting Hw) as Hperm.
    simpl in Hperm.
    split; cbn [agent workQueue workers recordResult results processedCount
                errors]; auto.
    + unfold inFlight; cbn [workers]. rewrite <- Hurls, <- Hperm.
      rewrite map_app. simpl. rewrite <- !Permutation_middle.
      rewrite app_nil_r. reflexivity.
    + intros Hin. apply finished_after_insert in Hin; [auto|discriminate].
    + rewrite length_insert. exact Hworkers.
    + rewrite length_app, Hprocessed. reflexivity.
    + apply Forall_app. split; [exact Hresults|].
      constructor; [|constructor]. apply scanSinglePage_invariant.
  - injection Hstep as <-.
    pose proof (inFlight_insert (workers p) i _ AtLoopHead Hw) as Hperm.
    simpl in Hperm.
    split; cbn [agent workQueue workers]; auto.
    + unfold inFlight; cbn [workers]. rewrite Hperm. exact Hurls.
    + intros Hin. apply finished_after_insert in Hin; [auto|discriminate].
    + rewrite length_insert. exact Hworkers.
  - discriminate.
Qed.

Lemma poolInvariant_reachable (urls : list string) (nWorkers : nat)
  (p p' : Pool) :
  poolInvariant urls nWorkers p → rtc step p p' → poolInvariant urls nWorkers p'.
Proof.
  intros Hinv Hrun. induction Hrun as [|p q r Hstep _ IH]; [exact Hinv|].
  apply IH. eapply poolInvariant_step; eauto.
Qed.

(** Once every worker of a pool with at least one worker has returned, the
    results are the given URLs, each as many times as it was given. *)
Lemma poolInvariant_finished (urls : list string) (nWorkers : nat) (p : Pool) :
  poolInvariant urls nWorkers p → 0 < nWorkers → allFinished p →
  map WorkerResult.url (results (agent p)) ≡ₚ urls
  ∧ length (results (agent p)) = length urls
  ∧ processedCount (agent p) = length urls
  ∧ workQueue p = [].
Proof.
  intros [Hurls Hqueue Hworkers Hprocessed _ _] Hpos Hdone.
  assert (Hq : workQueue p = []).
  { apply Hqueue. unfold allFinished in Hdone.
    destruct (workers p) as [|w ws]; simpl in Hworkers; [lia|].
    inversion Hdone; subst. left. }
  unfold inFlight in Hurls.
  rewrite Hq, (inFlight_finished _ Hdone) in Hurls. simpl in Hurls.
  assert (Hlen : length (results (agent p)) = length urls).
  { rewrite <- (length_map WorkerResult.url). apply Permutation_length, Hurls. }
  repeat split; auto. lia.
Qed.






End PoolSteps.

(** ** The scanner: a whole scan *)

(** The summary of a scan that stored no result. *)
Definition noResultsSummary (totalPages : nat) : BulkScanSummary.t :=
  {| BulkScanSummary.totalPages := totalPages;
     BulkScanSummary.passedPages := 0;
     BulkScanSummary.minorIssues := 0;
     BulkScanSummary.claudeAnalysisNeeded := 0;
     BulkScanSummary.criticalIssues := 0;
     BulkScanSummary.errors := 0 |}.

Section Scan.
Context `{Platform} `{Browser}.
Import BulkScannerAgent.

Lemma workers_of_valid_options (options : BulkScanOptions.t) :
  (∀ w, BulkScanOptions.maxWorkers options = Some w → (0 ≤ w)%Z) →
  0 < Z.to_nat (Options.maxWorkers (BulkScannerAgent.options (new options))).
Proof.
  intros Hvalid. cbn. unfold JS.or_number.
  destruct (BulkScanOptions.maxWorkers options) as [w|]; [|lia].
  specialize (Hvalid w eq_refl). destruct (Z.eqb_spec w 0); lia.
Qed.


(** C8. Every result a scan on a new scanner has stored, at any point of
    any run, satisfies the invariant of results: if its [error] is set, its
    violations, passes, incomplete and inapplicable lists are empty. *)
Theorem stored_results_with_error_have_no_findings
  (options : BulkScanOptions.t) (urls : list string) (p : Pool) :
  rtc step
    (startWorkers (setTotal (new options) (length urls)) (makeTasks urls)) p →
  Forall (fun entry => errorMeansNoFindings (WorkerResult.result entry))
    (results (agent p)).
Proof.
  intros Hrun.
  pose proof (poolInvariant_start (new options) urls eq_refl eq_refl eq_refl)
    as Hstart.
  exact (inv_results _ _ _ (poolInvariant_reachable _ _ _ _ Hstart Hrun)).
Qed.

Lemma no_worker_no_step (p p' : Pool) : workers p = [] → ¬ step p p'.
Proof.
  intros Hnone [i Hstep]. unfold stepWorker in Hstep.
  rewrite Hnone in Hstep. discriminate.
Qed.

Lemma no_worker_no_run (p p' : Pool) : workers p = [] → rtc step p p' → p' = p.
Proof.
  intros Hnone Hrun. destruct Hrun as [|p q r Hstep _]; [reflexivity|].
  destruct (no_worker_no_step _ _ Hnone Hstep).
Qed.

(** C9, as the scanner has it. The constructor takes a negative worker
    count as it is given, and a scan with it is not rejected: once the
    browser has launched no worker is created, no URL leaves the queue, and
    the scan resolves with a summary that counts the pages given and no
    result. *)
Theorem negative_worker_count_is_accepted
  (options : BulkScanOptions.t) (urls : list string) (w : Z) :
  BulkScanOptions.maxWorkers options = Some w →
  (w < 0)%Z →
  launch = JS.Return () →
  Options.maxWorkers (BulkScannerAgent.options (new options)) = w
  ∧ ∀ outcome,
      scanPages (new options) urls outcome
      ↔ outcome
        = JS.Return (noResultsSummary (length urls),
                     setTotal (new options) (length urls)).
Proof.
  intros Hw Hneg Hlaunch.
  assert (Hkept : Options.maxWorkers (BulkScannerAgent.options (new options)) = w).
  { cbn. rewrite Hw. unfold JS.or_number. destruct (Z.eqb_spec w 0); lia. }
  split; [exact Hkept|].
  assert (Hnone :
    workers (startWorkers (setTotal (new options) (length urls))
               (makeTasks urls)) = []).
  { unfold startWorkers. cbn [workers setTotal BulkScannerAgent.options].
    rewrite Hkept. destruct w; try lia. reflexivity. }
  intros outcome. split.
  - intros Hscan. inversion Hscan as [e He|p _ Hrun Hdone]; subst.
    + congruence.
    + apply (no_worker_no_run _ _ Hnone) in Hrun. subst p. reflexivity.
  - intros ->.
    apply (scanPages_resolved (new options) urls
             (startWorkers (setTotal (new options) (length urls))
                (makeTasks urls)));
      [exact Hlaunch | reflexivity |].
    unfold allFinished. rewrite Hnone. constructor.
Qed.

(** What the constructor makes of the worker count: [undefined], [NaN] and
    0 become 5; every other count is kept. *)
Lemma constructor_worker_count (options : BulkScanOptions.t) :
  Options.maxWorkers (BulkScannerAgent.options (new options))
  = match BulkScanOptions.maxWorkers options with
    | None | Some 0%Z => 5%Z
    | Some w => w
    end.
Proof.
  cbn. unfold JS.or_number.
  destruct (BulkScanOptions.maxWorkers options) as [[| |]|]; reflexivity.
Qed.

End Scan.

Definition optionsWithWorkers (maxWorkers : Z) : BulkScanOptions.t :=
  {| BulkScanOptions.maxWorkers := Some maxWorkers;
     BulkScanOptions.outputDirectory := "results";
     BulkScanOptions.timeout := None;
     BulkScanOptions.retryAttempts := Some 2%Z |}.

(** A browser in which the first task loads at its second attempt and no
    other does. *)
Definition flakyBrowser : Browser := {|
  launch := JS.Return ();
  attemptOutcome := fun _ index attempt =>
    if (index =? 0) && (attempt =? 2)%Z
    then Analysed
           {| AxeResults.violations := [sampleViolation "image-alt" serious];
              AxeResults.passes := [];
              AxeResults.incomplete := [];
              AxeResults.inapplicable := [] |}
           "2024-01-01T00:00:05.000Z" 4200
    else Failed "net::ERR_CONNECTION_TIMED_OUT"
|}.

Definition twiceTheSameUrl : list string :=
  ["https://example.com/"; "https://example.com/"].


(** The pool of that scan after the schedule of [runPool] has run to the
    end: two results, the first a page with a finding, the second a
    failure. *)
Definition samplePool : BulkScannerAgent.Pool :=
  @runPool samplePlatform flakyBrowser 20
    (BulkScannerAgent.startWorkers
       (BulkScannerAgent.setTotal
          (BulkScannerAgent.new (optionsWithWorkers 2))
          (length twiceTheSameUrl))
       (BulkScannerAgent.makeTasks twiceTheSameUrl)).

(** In that scan the two occurrences of the one URL fare differently, as
    [auditOutcome] has it: the first is analysed at its second attempt,
    the second is given up after two attempts. *)
Example same_url_two_outcomes :
  @auditOutcome samplePlatform flakyBrowser 2 "https://example.com/" 0
    {| PageScanResult.url := "https://example.com/";
       PageScanResult.timestamp := "2024-01-01T00:00:05.000Z";
       PageScanResult.violations := [sampleViolation "image-alt" serious];
       PageScanResult.passes := [];
       PageScanResult.incomplete := [];
       PageScanResult.inapplicable := [];
       PageScanResult.scanDuration := 4200;
       PageScanResult.error := None |}
  ∧ @auditOutcome samplePlatform flakyBrowser 2 "https://example.com/" 1
      (@failureResult samplePlatform "https://example.com/"
         (Some "net::ERR_CONNECTION_TIMED_OUT"))
  ∧ map WorkerResult.result
      (BulkScannerAgent.results (BulkScannerAgent.agent samplePool))
    = [ {| PageScanResult.url := "https://example.com/";
           PageScanResult.timestamp := "2024-01-01T00:00:05.000Z";
           PageScanResult.violations := [sampleViolation "image-alt" serious];
           PageScanResult.passes := [];
           PageScanResult.incomplete := [];
           PageScanResult.inapplicable := [];
           PageScanResult.scanDuration := 4200;
           PageScanResult.error := None |};
        @failureResult samplePlatform "https://example.com/"
          (Some "net::ERR_CONNECTION_TIMED_OUT") ].
Proof.
  split; [|split; [|reflexivity]].
  - apply (@audit_succeeded samplePlatform flakyBrowser 2
             "https://example.com/" 0 2
             {| AxeResults.violations := [sampleViolation "image-alt" serious];
                AxeResults.passes := [];
                AxeResults.incomplete := [];
                AxeResults.inapplicable := [] |}
             "2024-01-01T00:00:05.000Z" 4200); [lia | | reflexivity].
    intros earlier Hearlier. assert (earlier = 1)%Z as -> by lia.
    eexists. reflexivity.
  - apply (@audit_exhausted samplePlatform flakyBrowser 2
             "https://example.com/" 1 (Some "net::ERR_CONNECTION_TIMED_OUT")).
    + intros attempt Hattempt. eexists. reflexivity.
    + split; [lia | reflexivity].
Qed.

Example samplePool_results :
  map (fun entry => PageScanResult.error (WorkerResult.result entry))
    (BulkScannerAgent.results (BulkScannerAgent.agent samplePool))
  = [None; Some "net::ERR_CONNECTION_TIMED_OUT"].
Proof. reflexivity. Qed.

Lemma stored_results_with_error_have_no_findings_witness :
  Forall (fun entry => errorMeansNoFindings (WorkerResult.result entry))
    (BulkScannerAgent.results (BulkScannerAgent.agent samplePool)).
Proof.
  apply (@stored_results_with_error_have_no_findings samplePlatform
           flakyBrowser (optionsWithWorkers 2) twiceTheSameUrl samplePool).
  apply runPool_reachable.
Defined.

Lemma negative_worker_count_is_accepted_witness :
  BulkScannerAgent.Options.maxWorkers
    (BulkScannerAgent.options (BulkScannerAgent.new (optionsWithWorkers (-1))))
  = (-1)%Z
  ∧ ∀ outcome,
      @BulkScannerAgent.scanPages samplePlatform flakyBrowser
        (BulkScannerAgent.new (optionsWithWorkers (-1))) twiceTheSameUrl outcome
      ↔ outcome
        = JS.Return
            (noResultsSummary (length twiceTheSameUrl),
             BulkScannerAgent.setTotal
               (BulkScannerAgent.new (optionsWithWorkers (-1)))
               (length twiceTheSameUrl)).
Proof.
  apply (@negative_worker_count_is_accepted samplePlatform flakyBrowser
           (optionsWithWorkers (-1)) twiceTheSameUrl (-1)%Z).
  - reflexivity.
  - lia.
  - reflexivity.
Defined.

(** C9, as stated, fails: a scanner built with a worker count of -1 is not
    rejected. Its scan of two pages resolves, with a summary of two pages
    and no result, and cannot reject. *)
Lemma negative_worker_count_is_not_rejected :
  BulkScanOptions.maxWorkers (optionsWithWorkers (-1)) = Some (-1)%Z
  ∧ @BulkScannerAgent.scanPages samplePlatform flakyBrowser
      (BulkScannerAgent.new (optionsWithWorkers (-1))) twiceTheSameUrl
      (JS.Return
         (noResultsSummary 2,
          BulkScannerAgent.setTotal
            (BulkScannerAgent.new (optionsWithWorkers (-1))) 2))
  ∧ (∀ e,
       ¬ @BulkScannerAgent.scanPages samplePlatform flakyBrowser
           (BulkScannerAgent.new (optionsWithWorkers (-1))) twiceTheSameUrl
           (JS.Throw e)).
Proof.
  split; [reflexivity|]. split.
  - apply (BulkScannerAgent.scanPages_resolved
             (BulkScannerAgent.new (optionsWithWorkers (-1))) twiceTheSameUrl
             (BulkScannerAgent.startWorkers
                (BulkScannerAgent.setTotal
                   (BulkScannerAgent.new (optionsWithWorkers (-1))) 2)
                (BulkScannerAgent.makeTasks twiceTheSameUrl)));
      [reflexivity | reflexivity | constructor].
  - intros e Hscan. inversion Hscan as [e' He|]. discriminate He.
Qed.

(** ** The two categorizations *)

Definition Category_eqb := EnhancedDecisionAgentFixed.Category_eqb.

(** The category the scanner files a result under once a worker has stored
    it: [needsHumanAnalysis] at the time of the push, [categorizeResults]
    afterwards. *)
Definition scannerCategory (result : PageScanResult.t) : Category :=
  BulkScannerAgent.categoryOf
    {| WorkerResult.url := PageScanResult.url result;
       WorkerResult.result := result;
       WorkerResult.needsClaudeAnalysis :=
         BulkScannerAgent.needsHumanAnalysis result |}.

(** The category [DecisionAgent] gives a result. *)
Definition decisionCategory (result : PageScanResult.t) : Category :=
  PageDecision.category (DecisionAgent.makeDecision DecisionAgent.new result).

(** The flag the scanner stores with a result, and the test
    [needsClaudeAnalysis || complexViolations.length > 0] of
    [DecisionAgent.makeDecision]. *)
Definition scannerAsksAnalysis (result : PageScanResult.t) : bool :=
  BulkScannerAgent.needsHumanAnalysis result.

Definition decisionAsksAnalysis (result : PageScanResult.t) : bool :=
  DecisionAgent.needsHumanAnalysis DecisionAgent.new
    (PageScanResult.violations result) (PageScanResult.incomplete result)
  || (0 <? length (DecisionAgent.getComplexViolations DecisionAgent.new
                     (PageScanResult.violations result))).

(** The results on which the rules of the two agents coincide:
    - a result with an error (both file it under [critical]);
    - with no error: no violation and no more incomplete findings than the
      limit (both: [passed]);
    - violations, of which the serious or critical ones reach the limit,
      and no analysis asked for by the scanner (both: [critical]);
    - violations, fewer serious or critical ones than the limit, and
      analysis asked for by both agents (both: [claudeNeeded]);
    - violations, none of them serious or critical, and analysis asked for
      by neither agent (both: [minorIssues]). *)
Definition agreedOn (result : PageScanResult.t) : Prop :=
  let violations := PageScanResult.violations result in
  let severe := countWhere isCriticalOrSerious violations in
  JS.truthy (PageScanResult.error result) = true
  ∨ (JS.truthy (PageScanResult.error result) = false
     ∧ ((violations = []
         ∧ length (PageScanResult.incomplete result)
           ≤ SCAN_CONFIG.decisionThresholds.incompleteResultsLimit)
        ∨ (violations ≠ []
           ∧ SCAN_CONFIG.decisionThresholds.criticalViolationsLimit ≤ severe
           ∧ scannerAsksAnalysis result = false)
        ∨ (violations ≠ []
           ∧ severe < SCAN_CONFIG.decisionThresholds.criticalViolationsLimit
           ∧ scannerAsksAnalysis result = true
           ∧ decisionAsksAnalysis result = true)
        ∨ (violations ≠ []
           ∧ severe = 0
           ∧ scannerAsksAnalysis result = false
           ∧ decisionAsksAnalysis result = false))).

Definition allOf (r : DecisionResult.t) : list PageScanResult.t :=
  DecisionResult.passed r ++ DecisionResult.minorIssues r
  ++ DecisionResult.claudeNeeded r ++ DecisionResult.critical r.

(** One serious finding that is neither complex nor in a visual list. *)
Definition pageWithOneSerious : PageScanResult.t :=
  samplePage [sampleViolation "image-alt" serious] [] None.

Section Categorize.

Lemma foldl_map {A B C} (f : A → C → A) (g : B → C) (a : A) (l : list B) :
  foldl f a (map g l) = foldl (fun a x => f a (g x)) a l.
Proof. revert a. induction l as [|x l IH]; intros a; simpl; auto. Qed.

(** The loop that pushes each result on the list of its category. *)
Lemma categorize_loop (c : PageScanResult.t → Category)
  (l : list PageScanResult.t) (acc : DecisionResult.t) :
  foldl (fun acc r => DecisionAgent.pushByCategory (c r) r acc) acc l
  = {| DecisionResult.passed :=
         DecisionResult.passed acc
         ++ List.filter (fun r => Category_eqb (c r) PASSED) l;
       DecisionResult.minorIssues :=
         DecisionResult.minorIssues acc
         ++ List.filter (fun r => Category_eqb (c r) MINOR_ISSUES) l;
       DecisionResult.claudeNeeded :=
         DecisionResult.claudeNeeded acc
         ++ List.filter (fun r => Category_eqb (c r) CLAUDE_NEEDED) l;
       DecisionResult.critical :=
         DecisionResult.critical acc
         ++ List.filter (fun r => Category_eqb (c r) CRITICAL) l |}.
Proof.
  revert acc. induction l as [|r l IH]; intros acc.
  - destruct acc. simpl. rewrite !app_nil_r. reflexivity.
  - cbn [foldl List.filter]. rewrite IH.
    destruct (c r); cbn; rewrite <- ?app_assoc; reflexivity.
Qed.

Lemma scanner_categorize (this : BulkScannerAgent.t)
  (l : list PageScanResult.t) :
  BulkScannerAgent.results this = [] →
  BulkScannerAgent.categorizeResults (storeResults this l)
  = foldl (fun acc r => DecisionAgent.pushByCategory (scannerCategory r) r acc)
      DecisionAgent.emptyDecisionResult l.
Proof.
  intros Hnone. unfold BulkScannerAgent.categorizeResults, storeResults.
  cbn [BulkScannerAgent.results]. rewrite Hnone, app_nil_l, foldl_map.
  reflexivity.
Qed.

Lemma decision_categorize (l : list PageScanResult.t) :
  DecisionAgent.categorizePages DecisionAgent.new l
  = foldl (fun acc r => DecisionAgent.pushByCategory (decisionCategory r) r acc)
      DecisionAgent.emptyDecisionResult l.
Proof. reflexivity. Qed.

(** Whatever the categories, the four lists hold each result once. *)
Lemma categorize_partition (c : PageScanResult.t → Category)
  (l : list PageScanResult.t) :
  allOf (foldl (fun acc r => DecisionAgent.pushByCategory (c r) r acc)
           DecisionAgent.emptyDecisionResult l) ≡ₚ l.
Proof.
  rewrite categorize_loop. unfold allOf. cbn.
  induction l as [|r l IH]; [reflexivity|].
  cbn [List.filter]. destruct (c r); cbn.
  - constructor. exact IH.
  - rewrite <- Permutation_middle. constructor. exact IH.
  - rewrite app_assoc, <- Permutation_middle, <- app_assoc.
    constructor. exact IH.
  - rewrite !app_assoc, <- Permutation_middle, <- !app_assoc.
    constructor. exact IH.
Qed.

Lemma complex_id_is_complex_violation (v : ViolationResult.t) :
  JS.array_includes
    SCAN_CONFIG.decisionThresholds.complexIssuesForClaudeAnalysis
    (ViolationResult.id v) = true →
  existsb (fun complexIssue =>
    JS.includes (ViolationResult.id v) complexIssue
    || JS.array_includes (ViolationResult.tags v) complexIssue)
    SCAN_CONFIG.decisionThresholds.complexIssuesForClaudeAnalysis = true.
Proof.
  unfold JS.array_includes. rewrite !existsb_exists.
  intros (issue & Hin & Heq). apply String.eqb_eq in Heq. subst issue.
  exists (ViolationResult.id v). split; [exact Hin|].
  rewrite includes_refl. reflexivity.
Qed.

(** What the scanner asks analysis for, in terms of the findings of a
    result with no error: five critical violations, a violation whose id
    is a configured complex issue or one of the scanner's visual ids, or
    more incomplete findings than the limit. *)
Lemma scannerAsksAnalysis_findings (r : PageScanResult.t) :
  JS.truthy (PageScanResult.error r) = false →
  scannerAsksAnalysis r
  = (SCAN_CONFIG.decisionThresholds.criticalViolationsLimit
       <=? countWhere (hasImpact critical) (PageScanResult.violations r))
    || existsb (fun v =>
         JS.array_includes
           SCAN_CONFIG.decisionThresholds.complexIssuesForClaudeAnalysis
           (ViolationResult.id v)) (PageScanResult.violations r)
    || (SCAN_CONFIG.decisionThresholds.incompleteResultsLimit
          <? length (PageScanResult.incomplete r))
    || existsb (fun v =>
         JS.array_includes BulkScannerAgent.visualVerificationIds
           (ViolationResult.id v)) (PageScanResult.violations r).
Proof.
  intros Herr.
  unfold scannerAsksAnalysis, BulkScannerAgent.needsHumanAnalysis, countWhere.
  rewrite Herr, filter_length_pos.
  repeat match goal with
         | |- context [if ?b then _ else _] => destruct b
         end; reflexivity.
Qed.

(** What [DecisionAgent] asks analysis for: more incomplete findings than
    the limit, a violation whose id contains one of its visual rules, or a
    violation whose id contains, or whose tags hold, a configured complex
    issue. *)
Lemma decisionAsksAnalysis_findings (r : PageScanResult.t) :
  decisionAsksAnalysis r
  = (SCAN_CONFIG.decisionThresholds.incompleteResultsLimit
       <? length (PageScanResult.incomplete r))
    || existsb (fun v =>
         existsb (fun rule => JS.includes (ViolationResult.id v) rule)
           DecisionAgent.visualVerificationRules)
         (PageScanResult.violations r)
    || existsb (fun v =>
         existsb (fun issue =>
           JS.includes (ViolationResult.id v) issue
           || JS.array_includes (ViolationResult.tags v) issue)
           SCAN_CONFIG.decisionThresholds.complexIssuesForClaudeAnalysis)
         (PageScanResult.violations r).
Proof.
  unfold decisionAsksAnalysis, DecisionAgent.needsHumanAnalysis,
    DecisionAgent.getComplexViolations.
  rewrite filter_length_pos.
  cbn [DecisionAgent.incompleteThreshold DecisionAgent.complexIssues
       DecisionAgent.new].
  destruct (_ <? _); reflexivity.
Qed.

(** The two agents give a result the same category exactly when their
    rules coincide on it. *)
Lemma same_category_iff_agreedOn (r : PageScanResult.t) :
  scannerCategory r = decisionCategory r ↔ agreedOn r.
Proof.
  unfold agreedOn, scannerCategory, decisionCategory,
    BulkScannerAgent.categoryOf, DecisionAgent.makeDecision, countWhere.
  cbn [WorkerResult.result WorkerResult.needsClaudeAnalysis].
  change (DecisionAgent.getCriticalViolations (PageScanResult.violations r))
    with (List.filter isCriticalOrSerious (PageScanResult.violations r)).
  fold (scannerAsksAnalysis r). fold (decisionAsksAnalysis r).
  cbn [DecisionAgent.criticalThreshold DecisionAgent.new].
  rewrite <- filter_length_pos.
  destruct (JS.truthy (PageScanResult.error r)) eqn:Herr; [tauto|].
  destruct (PageScanResult.violations r) as [|v vs] eqn:Hv.
  - assert (Hasks :
      decisionAsksAnalysis r
      = (SCAN_CONFIG.decisionThresholds.incompleteResultsLimit
           <? length (PageScanResult.incomplete r))).
    { rewrite decisionAsksAnalysis_findings, Hv. cbn [existsb].
      rewrite !orb_false_r. reflexivity. }
    cbn [List.filter length Nat.eqb Nat.leb Nat.ltb].
    change (SCAN_CONFIG.decisionThresholds.criticalViolationsLimit <=? 0)
      with false. cbv iota.
    rewrite Hasks.
    destruct (Nat.ltb_spec
                SCAN_CONFIG.decisionThresholds.incompleteResultsLimit
                (length (PageScanResult.incomplete r))) as [Hmany | Hfew];
      cbn [PageDecision.category].
    + split; [discriminate|].
      intros [? | (_ & [(_ & Hinc) | [(Hne & _) | [(Hne & _) | (Hne & _)]]])];
        try discriminate; try (exfalso; apply Hne; reflexivity).
      lia.
    + split; [|reflexivity]. intros _. right. split; [reflexivity|].
      left. split; [reflexivity | exact Hfew].
  - change (length (v :: vs) =? 0) with false. cbv iota.
    set (severe := length (List.filter isCriticalOrSerious (v :: vs))).
    assert (Hne : v :: vs ≠ []) by discriminate.
    assert (Hlimit : 0 < SCAN_CONFIG.decisionThresholds.criticalViolationsLimit)
      by (vm_compute; lia).
    destruct (Nat.leb_spec
                SCAN_CONFIG.decisionThresholds.criticalViolationsLimit severe)
      as [Hreached | Hbelow]; cbn [PageDecision.category].
    + assert (Hpos : (0 <? severe) = true) by (apply Nat.ltb_lt; lia).
      rewrite Hpos.
      destruct (scannerAsksAnalysis r) eqn:Hscanner.
      * split; [discriminate|].
        intros [? | (_ & [(? & _) | [(_ & _ & ?) | [(_ & ? & _) | (_ & ? & _)]]])];
          try discriminate; lia.
      * split; [|reflexivity]. intros _. right. split; [reflexivity|].
        right. left. auto.
    + destruct (scannerAsksAnalysis r) eqn:Hscanner;
        destruct (decisionAsksAnalysis r) eqn:Hdecision;
        cbn [PageDecision.category].
      * split; [|reflexivity]. intros _. right. split; [reflexivity|].
        right. right. left. auto.
      * split; [discriminate|].
        intros [? | (_ & [(? & _) | [(_ & ? & _) | [(_ & _ & _ & ?) | (_ & _ & ? & _)]]])];
          try discriminate; lia.
      * split.
        { destruct (0 <? severe); discriminate. }
        intros [? | (_ & [(? & _) | [(_ & ? & _) | [(_ & _ & ? & _) | (_ & _ & _ & ?)]]])];
          try discriminate; lia.
      * destruct (Nat.ltb_spec 0 severe) as [Hsome | Hnone].
        { split; [discriminate|].
          intros [? | (_ & [(? & _) | [(_ & ? & _) | [(_ & _ & ? & _) | (_ & ? & _)]]])];
            try discriminate; lia. }
        { split; [|reflexivity]. intros _. right. split; [reflexivity|].
          right. right. right. repeat split; auto. lia. }
Qed.

Lemma filter_eq_pointwise {A} (f g : A → bool) (l : list A) :
  List.filter f l = List.filter g l → Forall (fun x => f x = g x) l.
Proof.
  induction l as [|x l IH]; intros Heq; [constructor|].
  cbn [List.filter] in Heq.
  destruct (f x) eqn:Hf, (g x) eqn:Hg.
  - injection Heq as Heq. constructor; [congruence | auto].
  - assert (Hin : In x (List.filter g l)) by (rewrite <- Heq; left; reflexivity).
    apply filter_In in Hin as [_ Hx]. congruence.
  - assert (Hin : In x (List.filter f l)) by (rewrite Heq; left; reflexivity).
    apply filter_In in Hin as [_ Hx]. congruence.
  - constructor; [congruence | auto].
Qed.

(** Two categorizations of one list give the same four lists exactly when
    they give every result the same category. *)
Lemma categorize_same_lists (c c' : PageScanResult.t → Category)
  (l : list PageScanResult.t) :
  foldl (fun acc r => DecisionAgent.pushByCategory (c r) r acc)
    DecisionAgent.emptyDecisionResult l
  = foldl (fun acc r => DecisionAgent.pushByCategory (c' r) r acc)
      DecisionAgent.emptyDecisionResult l
  ↔ Forall (fun r => c r = c' r) l.
Proof.
  rewrite !categorize_loop. cbn [DecisionAgent.emptyDecisionResult
    DecisionResult.passed DecisionResult.minorIssues
    DecisionResult.claudeNeeded DecisionResult.critical app].
  split.
  - intros Heq. injection Heq as Hpassed Hminor Hclaude Hcritical.
    apply filter_eq_pointwise in Hpassed, Hminor, Hclaude, Hcritical.
    rewrite Forall_forall in *. intros r Hr.
    specialize (Hpassed r Hr). specialize (Hminor r Hr).
    specialize (Hclaude r Hr). specialize (Hcritical r Hr).
    cbv beta in *.
    destruct (c r), (c' r); simpl in *; congruence.
  - intros Hall.
    assert (Hsame : ∀ k,
      List.filter (fun r => Category_eqb (c r) k) l
      = List.filter (fun r => Category_eqb (c' r) k) l).
    { intros k. induction Hall as [|r l Hr _ IH]; [reflexivity|].
      cbn [List.filter]. rewrite Hr, IH. reflexivity. }
    rewrite !Hsame. reflexivity.
Qed.

(** C10, as the agents have it. For every list of results, each of the
    two categorizations files every result under exactly one of the four
    lists, and the two produce the same four lists exactly when the rules
    of the two agents coincide on every result of the list ([agreedOn]):
    an error; or no violation and no more incomplete findings than the
    limit; or violations with the serious or critical ones at the limit
    and no analysis asked for by the scanner; or violations with fewer
    serious or critical ones than the limit and analysis asked for by
    both agents; or violations, none serious or critical, and analysis
    asked for by neither. *)
Theorem categorizations_agree_where_the_rules_coincide
  (options : BulkScanOptions.t) (scanResults : list PageScanResult.t) :
  allOf (BulkScannerAgent.categorizeResults
           (storeResults (BulkScannerAgent.new options) scanResults))
  ≡ₚ scanResults
  ∧ allOf (DecisionAgent.categorizePages DecisionAgent.new scanResults)
    ≡ₚ scanResults
  ∧ (BulkScannerAgent.categorizeResults
       (storeResults (BulkScannerAgent.new options) scanResults)
     = DecisionAgent.categorizePages DecisionAgent.new scanResults
     ↔ Forall agreedOn scanResults).
Proof.
  rewrite (scanner_categorize (BulkScannerAgent.new options) scanResults
             eq_refl), decision_categorize.
  split; [apply categorize_partition|].
  split; [apply categorize_partition|].
  rewrite categorize_same_lists.
  rewrite !Forall_forall.
  split; intros Hall r Hr; apply same_category_iff_agreedOn, Hall, Hr.
Qed.

End Categorize.

Definition clearPages : list PageScanResult.t :=
  [failedPage; cleanPage; pageWithColorContrast].

(** Three minor findings that match no rule of either agent. *)
Definition pageWithThreeMinor : PageScanResult.t :=
  samplePage (replicate 3 (sampleViolation "image-alt" minor)) [] None.

(** Five serious findings, none of them critical, complex or visual. *)
Definition pageWithFivePlainSerious : PageScanResult.t :=
  samplePage (replicate 5 (sampleViolation "image-alt" serious)) [] None.

Definition agreedPages : list PageScanResult.t :=
  clearPages ++ [pageWithThreeMinor; pageWithFivePlainSerious].

(** On these five pages, one of each kind, the rules coincide and the two
    categorizations give the same lists. *)
Lemma categorizations_agree_where_the_rules_coincide_witness :
  Forall agreedOn agreedPages
  ∧ BulkScannerAgent.categorizeResults
      (storeResults (BulkScannerAgent.new (optionsWithWorkers 2)) agreedPages)
    = DecisionAgent.categorizePages DecisionAgent.new agreedPages
  ∧ DecisionAgent.categorizePages DecisionAgent.new agreedPages
    = {| DecisionResult.passed := [cleanPage];
         DecisionResult.minorIssues := [pageWithThreeMinor];
         DecisionResult.claudeNeeded := [pageWithColorContrast];
         DecisionResult.critical := [failedPage; pageWithFivePlainSerious] |}.
Proof.
  assert (Hall : Forall agreedOn agreedPages).
  { repeat apply Forall_cons_2; [| | | | |apply Forall_nil_2].
    - left. reflexivity.
    - right. split; [reflexivity|]. left. split; [reflexivity|].
      vm_compute. lia.
    - right. split; [reflexivity|]. right. right. left.
      split; [discriminate|]. split; [vm_compute; lia|].
      split; reflexivity.
    - right. split; [reflexivity|]. right. right. right.
      split; [discriminate|]. repeat split.
    - right. split; [reflexivity|]. right. left.
      split; [discriminate|]. split; [vm_compute; lia | reflexivity]. }
  split; [exact Hall|]. split; [|reflexivity].
  apply (categorizations_agree_where_the_rules_coincide
           (optionsWithWorkers 2) agreedPages).
  exact Hall.
Defined.

(** C10, as stated, fails: a page with one serious finding that is neither
    complex nor in a visual list is filed under [critical] by the scanner
    and under [minorIssues] by [DecisionAgent]. *)
Lemma scanner_and_decision_agent_disagree :
  DecisionResult.critical
    (BulkScannerAgent.categorizeResults
       (storeResults (BulkScannerAgent.new (optionsWithWorkers 2))
          [pageWithOneSerious]))
  = [pageWithOneSerious]
  ∧ DecisionResult.critical
      (DecisionAgent.categorizePages DecisionAgent.new [pageWithOneSerious])
    = []
  ∧ DecisionResult.minorIssues
      (DecisionAgent.categorizePages DecisionAgent.new [pageWithOneSerious])
    = [pageWithOneSerious]
  ∧ BulkScannerAgent.categorizeResults
      (storeResults (BulkScannerAgent.new (optionsWithWorkers 2))
         [pageWithOneSerious])
    ≠ DecisionAgent.categorizePages DecisionAgent.new [pageWithOneSerious].
Proof.
  split; [reflexivity|]. split; [reflexivity|]. split; [reflexivity|].
  vm_compute. discriminate.
Qed.

(** That page is none the rules coincide on: it has a serious finding, so
    it is no page of minor issues for the scanner, and neither agent asks
    analysis for it. *)
Example rules_differ_on_one_serious_finding :
  ¬ agreedOn pageWithOneSerious
  ∧ scannerAsksAnalysis pageWithOneSerious = false
  ∧ decisionAsksAnalysis pageWithOneSerious = false
  ∧ countWhere isCriticalOrSerious
      (PageScanResult.violations pageWithOneSerious) = 1.
Proof.
  split; [|repeat split].
  intros Hagreed. apply same_category_iff_agreedOn in Hagreed.
  vm_compute in Hagreed. discriminate.
Qed.

(** ** The scenarios of the specification *)

Definition triage (scanResult : PageScanResult.t)
  : option (Category * float * Priority) :=
  match @EnhancedDecisionAgentFixed.makeDecisionWithReasoning samplePlatform
          EnhancedDecisionAgentFixed.new scanResult with
  | JS.Return (d, _) =>
      Some (EnhancedPageDecision.category d,
            DecisionReasoning.confidence (EnhancedPageDecision.reasoning d),
            EnhancedPageDecision.priority d)
  | JS.Throw _ => None
  end.

(** Scenario A: no violation. *)
Example scenario_A : triage (samplePage [] [] None) = Some (PASSED, 1.0%float, Low).
Proof. reflexivity. Qed.

(** Scenario B: six critical findings. *)
Example scenario_B :
  triage (samplePage (replicate 6 (sampleViolation "image-alt" critical)) [] None)
  = Some (CRITICAL, 0.95%float, Critical).
Proof. reflexivity. Qed.

(** Scenario C: one serious colour-contrast finding. *)
Example scenario_C :
  triage pageWithColorContrast = Some (CLAUDE_NEEDED, 0.9%float, Medium).
Proof. reflexivity. Qed.

(** Scenario D: three minor findings that match no pattern. *)
Example scenario_D :
  triage (samplePage (replicate 3 (sampleViolation "image-alt" minor)) [] None)
  = Some (MINOR_ISSUES, 0.8%float, Low).
Proof. reflexivity. Qed.

(** A result with no error whose URL does not parse makes the enhanced
    agent throw. *)
Example unparsable_url_throws :
  @EnhancedDecisionAgentFixed.makeDecisionWithReasoning samplePlatform
    EnhancedDecisionAgentFixed.new
    {| PageScanResult.url := "example.com";
       PageScanResult.timestamp := "";
       PageScanResult.violations := [];
       PageScanResult.passes := [];
       PageScanResult.incomplete := [];
       PageScanResult.inapplicable := [];
       PageScanResult.scanDuration := 0;
       PageScanResult.error := None |}
  = JS.Throw "TypeError: Invalid URL".
Proof. reflexivity. Qed.

(** The priority rules of the other two agents are not those of C7: three
    moderate findings are [Medium] for [DecisionAgent]; one serious finding
    among ten is [High] for the superseded agent. *)
Example priority_rules_of_the_other_agents :
  DecisionAgent.calculatePriority
    (replicate 3 (sampleViolation "image-alt" moderate)) = Medium
  ∧ EnhancedDecisionAgentFixed.calculatePriority
      (replicate 3 (sampleViolation "image-alt" moderate)) = Low
  ∧ (∀ reasoning,
       DecisionReasoning.confidence reasoning = 0.9%float →
       EnhancedDecisionAgent.calculateEnhancedPriority
         (sampleViolation "image-alt" serious
          :: replicate 9 (sampleViolation "image-alt" minor)) reasoning = High)
  ∧ EnhancedDecisionAgentFixed.calculatePriority
      (sampleViolation "image-alt" serious
       :: replicate 9 (sampleViolation "image-alt" minor)) = Medium.
Proof.
  repeat split. intros reasoning Hconf.
  unfold EnhancedDecisionAgent.calculateEnhancedPriority.
  rewrite Hconf. reflexivity.
Qed.

(** An empty error message is no error for the agents: [if (error)] is
    false on it, and the page is decided on its findings. *)
Example empty_error_message_is_not_an_error :
  triage (samplePage [] [] (Some "")) = Some (PASSED, 1.0%float, Low)
  ∧ PageDecision.category
      (DecisionAgent.makeDecision DecisionAgent.new (samplePage [] [] (Some "")))
    = PASSED.
Proof. split; reflexivity. Qed.

(** * Further properties of the enhanced agent *)

Section FixedDecisions.
Context `{Platform}.
Import EnhancedDecisionAgentFixed.

(** The decision [createDecision] builds, given the insights drawn from the
    learning memory. *)
Definition decisionRecord (url : string) (category : Category)
  (reason : string) (confidence : float)
  (violations criticalViolations complexViolations incomplete
     : list ViolationResult.t) (learningInsights : list string)
  : EnhancedPageDecision.t :=
  {| EnhancedPageDecision.url := url;
     EnhancedPageDecision.category := category;
     EnhancedPageDecision.reasoning :=
       {| DecisionReasoning.decision := category;
          DecisionReasoning.confidence := confidence;
          DecisionReasoning.factors :=
            buildReasoningFactors violations incomplete category;
          DecisionReasoning.contextualAnalysis :=
            buildContextualAnalysis violations criticalViolations
              complexViolations;
          DecisionReasoning.alternativeDecisions :=
            generateAlternatives category violations confidence;
          DecisionReasoning.learningInsights := learningInsights |};
     EnhancedPageDecision.reason := reason;
     EnhancedPageDecision.priority := calculatePriority violations;
     EnhancedPageDecision.estimatedEffort := estimateEffort violations;
     EnhancedPageDecision.complexViolations :=
       map ViolationResult.id complexViolations;
     EnhancedPageDecision.criticalViolations :=
       map ViolationResult.id criticalViolations;
     EnhancedPageDecision.adaptiveSuggestions :=
       generateSuggestions violations category;
     EnhancedPageDecision.uncertaintyFactors :=
       if PrimFloat.ltb confidence 0.8
       then ["Confidence below 80% - review recommended"] else [] |}.

(** The agent after [updateLearningMemory] for a decision on [domain]. *)
Definition remember (this : t) (domain url : string)
  (violations : list ViolationResult.t) (category : Category) : t :=
  {| complexIssues := complexIssues this;
     criticalThreshold := criticalThreshold this;
     incompleteThreshold := incompleteThreshold this;
     patternHistory :=
       <[domain :=
           default [] (patternHistory this !! domain) ++
           [ {| PatternOccurrence.url := url;
                PatternOccurrence.timestamp := Date_toISOString;
                PatternOccurrence.violationTypes :=
                  map ViolationResult.id violations;
                PatternOccurrence.decision := category |} ]]>
         (patternHistory this) |}.

(** The insights [extractInsights] draws for a page of [domain]. *)
Definition insightsFor (this : t) (domain : string)
  (violations : list ViolationResult.t) : list string :=
  let insights :=
    pushIf (10 <? length violations)
      "High violation count suggests systemic accessibility issues" [] in
  match patternHistory this !! domain with
  | Some history =>
      pushIf (0 <? length history)
        ("Domain has " +:+ JS.toString (length history)
           +:+ " previous scans in history") insights
  | None => insights
  end.

Lemma createDecision_inv (this : t) url category reason confidence
  violations criticalViolations complexViolations incomplete d this' :
  createDecision this url category reason confidence violations
    criticalViolations complexViolations incomplete = JS.Return (d, this') →
  ∃ domain,
    URL_hostname url = Some domain
    ∧ d = decisionRecord url category reason confidence violations
            criticalViolations complexViolations incomplete
            (insightsFor this domain violations)
    ∧ this' = remember this domain url violations category.
Proof.
  unfold createDecision, extractInsights, updateLearningMemory, hostnameOf.
  destruct (URL_hostname url) as [domain|]; [|discriminate].
  intros Heq. exists domain. split; [reflexivity|].
  change (JS.Return
            (decisionRecord url category reason confidence violations
               criticalViolations complexViolations incomplete
               (insightsFor this domain violations),
             remember this domain url violations category)
          = JS.Return (d, this')) in Heq.
  injection Heq as <- <-. split; reflexivity.
Qed.

(** The outcome of a decision on a result without an error: which of the
    four branches was taken. *)
Inductive Branch := CriticalVolume | ReviewNeeded | NoViolation | MinorOnly.

Definition branchOf (this : t) (scanResult : PageScanResult.t) : Branch :=
  let violations := PageScanResult.violations scanResult in
  if criticalThreshold this <=? length (getCriticalViolations violations)
  then CriticalVolume
  else if ClaudeNeed.needed
            (determineClaudeNeed this violations
               (PageScanResult.incomplete scanResult)
               (getComplexViolations this violations))
  then ReviewNeeded
  else if length violations =? 0 then NoViolation
  else MinorOnly.

Definition branchCategory (b : Branch) : Category :=
  match b with
  | CriticalVolume => CRITICAL
  | ReviewNeeded => CLAUDE_NEEDED
  | NoViolation => PASSED
  | MinorOnly => MINOR_ISSUES
  end.

Definition branchConfidence (this : t) (scanResult : PageScanResult.t)
  : float :=
  match branchOf this scanResult with
  | CriticalVolume => 0.95
  | ReviewNeeded =>
      ClaudeNeed.confidence
        (determineClaudeNeed this (PageScanResult.violations scanResult)
           (PageScanResult.incomplete scanResult)
           (getComplexViolations this (PageScanResult.violations scanResult)))
  | NoViolation => 1.0
  | MinorOnly => 0.8
  end.

Definition branchReason (this : t) (scanResult : PageScanResult.t)
  : string :=
  let violations := PageScanResult.violations scanResult in
  match branchOf this scanResult with
  | CriticalVolume =>
      JS.toString (length (getCriticalViolations violations))
        +:+ " critical/serious violations require immediate attention"
  | ReviewNeeded =>
      ClaudeNeed.reason
        (determineClaudeNeed this violations
           (PageScanResult.incomplete scanResult)
           (getComplexViolations this violations))
  | NoViolation => "No accessibility violations detected"
  | MinorOnly =>
      JS.toString (length violations) +:+ " auto-fixable violations found"
  end.

(** Every decision the agent returns: the error decision with the agent
    unchanged, or the record of the branch taken with the occurrence
    remembered under the domain of the URL. *)
Lemma makeDecisionWithReasoning_inv (this : t) (scanResult : PageScanResult.t)
  d this' :
  makeDecisionWithReasoning this scanResult = JS.Return (d, this') →
  (∃ e,
     PageScanResult.error scanResult = Some e ∧ e ≠ ""
     ∧ d = createErrorDecision (PageScanResult.url scanResult) e
     ∧ this' = this)
  ∨ (JS.truthy (PageScanResult.error scanResult) = false
     ∧ ∃ domain,
         URL_hostname (PageScanResult.url scanResult) = Some domain
         ∧ d = decisionRecord (PageScanResult.url scanResult)
                 (branchCategory (branchOf this scanResult))
                 (branchReason this scanResult)
                 (branchConfidence this scanResult)
                 (PageScanResult.violations scanResult)
                 (getCriticalViolations (PageScanResult.violations scanResult))
                 (getComplexViolations this
                    (PageScanResult.violations scanResult))
                 (PageScanResult.incomplete scanResult)
                 (insightsFor this domain
                    (PageScanResult.violations scanResult))
         ∧ this' = remember this domain (PageScanResult.url scanResult)
                     (PageScanResult.violations scanResult)
                     (branchCategory (branchOf this scanResult))).
Proof.
  unfold makeDecisionWithReasoning.
  destruct (JS.truthy (PageScanResult.error scanResult)) eqn:Herr.
  - destruct (truthy_Some _ Herr) as (e & He & Hne). rewrite He.
    intros [= <- <-]. left. exists e. auto.
  - intros Heq. right. split; [reflexivity|].
    unfold branchReason, branchConfidence, branchOf.
    destruct (criticalThreshold this <=? _);
      [|destruct (ClaudeNeed.needed _); [|destruct (_ =? 0)]];
      apply createDecision_inv in Heq as (domain & Hd & -> & ->);
      exists domain; auto.
Qed.

End FixedDecisions.

(** The value a completion returned, or [fallback] when it threw. *)
Definition returned {A} (c : JS.Completion A) (fallback : A) : A :=
  match c with
  | JS.Return a => a
  | JS.Throw _ => fallback
  end.

(** The decision and the agent a sample page leaves. *)
Definition sampleOutcome (this : EnhancedDecisionAgentFixed.t)
  (scanResult : PageScanResult.t)
  : EnhancedPageDecision.t * EnhancedDecisionAgentFixed.t :=
  returned
    (@EnhancedDecisionAgentFixed.makeDecisionWithReasoning samplePlatform
       this scanResult)
    (EnhancedDecisionAgentFixed.createErrorDecision "" "", this).

Section FixedProperties.
Context `{Platform}.
Import EnhancedDecisionAgentFixed.

Lemma consider_levels (b1 b2 b3 b4 b5 b6 : bool) (d1 d2 d3 d4 d5 d6 : string) :
  let acc :=
    consider b6 d6 0.75
      (consider b5 d5 0.8
         (consider b4 d4 0.85
            (consider b3 d3 0.9
               (consider b2 d2 0.8
                  (consider b1 d1 0.85 ([], 0.7%float)))))) in
  (0 <? length acc.1) = true →
  acc.2 = 0.75%float ∨ acc.2 = 0.8%float ∨ acc.2 = 0.85%float
  ∨ acc.2 = 0.9%float.
Proof.
  destruct b1, b2, b3, b4, b5, b6; cbn; intros Hlen;
    try discriminate Hlen; auto.
Qed.

Lemma determineClaudeNeed_levels (this : t)
  (violations incomplete complexViolations : list ViolationResult.t) :
  let need := determineClaudeNeed this violations incomplete complexViolations in
  ClaudeNeed.needed need = true →
  ClaudeNeed.confidence need = 0.75%float
  ∨ ClaudeNeed.confidence need = 0.8%float
  ∨ ClaudeNeed.confidence need = 0.85%float
  ∨ ClaudeNeed.confidence need = 0.9%float.
Proof.
  unfold determineClaudeNeed.
  match goal with
  | |- context [consider ?b6 ?d6 _ (consider ?b5 ?d5 _ (consider ?b4 ?d4 _
         (consider ?b3 ?d3 _ (consider ?b2 ?d2 _ (consider ?b1 ?d1 _ _)))))] =>
      pose proof (consider_levels b1 b2 b3 b4 b5 b6 d1 d2 d3 d4 d5 d6) as Hall;
      cbv zeta in Hall
  end.
  match type of Hall with
  | context [length ?acc.1] => destruct acc as [reasons confidence]
  end.
  exact Hall.
Qed.

Lemma branchConfidence_levels (this : t) (scanResult : PageScanResult.t) :
  let c := branchConfidence this scanResult in
  c = 0.75%float ∨ c = 0.8%float ∨ c = 0.85%float ∨ c = 0.9%float
  ∨ c = 0.95%float ∨ c = 1.0%float.
Proof.
  unfold branchConfidence, branchOf.
  destruct (criticalThreshold this <=? _); [auto 10|].
  destruct (ClaudeNeed.needed _) eqn:Hneeded.
  - destruct (determineClaudeNeed_levels _ _ _ _ Hneeded)
      as [-> | [-> | [-> | ->]]]; auto 10.
  - destruct (_ =? 0); auto 10.
Qed.

(** X2. Whatever the result, the confidence of a decision the agent
    returns is one of 0.75, 0.8, 0.85, 0.9, 0.95 and 1.0: it lies between
    0.75 and 1, is never below the 0.6 under which the orchestrator counts
    a decision as of low confidence, and the decision carries at most one
    uncertainty factor. *)
Theorem decision_confidence_is_one_of_six_levels
  (this : t) (scanResult : PageScanResult.t) d this' :
  makeDecisionWithReasoning this scanResult = JS.Return (d, this') →
  let c := DecisionReasoning.confidence (EnhancedPageDecision.reasoning d) in
  (c = 0.75%float ∨ c = 0.8%float ∨ c = 0.85%float ∨ c = 0.9%float
   ∨ c = 0.95%float ∨ c = 1.0%float)
  ∧ PrimFloat.leb 0.75 c = true
  ∧ PrimFloat.leb c 1 = true
  ∧ PrimFloat.ltb c 0.6 = false
  ∧ length (EnhancedPageDecision.uncertaintyFactors d) ≤ 1.
Proof.
  intros Heq c.
  assert (Hlevels :
    (c = 0.75%float ∨ c = 0.8%float ∨ c = 0.85%float ∨ c = 0.9%float
     ∨ c = 0.95%float ∨ c = 1.0%float)
    ∧ length (EnhancedPageDecision.uncertaintyFactors d) ≤ 1).
  { subst c.
    destruct (makeDecisionWithReasoning_inv _ _ _ _ Heq)
      as [(e & _ & _ & -> & _) | (_ & domain & _ & -> & _)].
    - cbn. split; [auto 10 | lia].
    - cbn [decisionRecord EnhancedPageDecision.reasoning
           DecisionReasoning.confidence EnhancedPageDecision.uncertaintyFactors].
      split; [apply branchConfidence_levels|].
      destruct (PrimFloat.ltb _ _); simpl; lia. }
  destruct Hlevels as [Hc Hlen]. split; [exact Hc|].
  repeat split; [| | |exact Hlen];
    destruct Hc as [-> | [-> | [-> | [-> | [-> | ->]]]]]; reflexivity.
Qed.

Lemma no_serious_means_minor_or_moderate (violations : list ViolationResult.t) :
  length (List.filter isCriticalOrSerious violations) = 0 →
  Forall (fun v => ViolationResult.impact v = minor
                   ∨ ViolationResult.impact v = moderate) violations.
Proof.
  induction violations as [|v vs IH]; simpl; [constructor|].
  unfold isCriticalOrSerious at 1.
  destruct (ViolationResult.impact v) eqn:Hi; simpl; try discriminate;
    intros Hlen; constructor; auto.
Qed.

Lemma not_needed_no_factor (this : t) (scanResult : PageScanResult.t) :
  ClaudeNeed.needed
    (determineClaudeNeed this (PageScanResult.violations scanResult)
       (PageScanResult.incomplete scanResult)
       (getComplexViolations this (PageScanResult.violations scanResult)))
  = false →
  triggeredFactors (reviewFactors this scanResult) = [].
Proof.
  intros Hneeded.
  destruct (triggeredFactors (reviewFactors this scanResult)) as [|f fs] eqn:Hfs;
    [reflexivity|].
  assert (Hne : triggeredFactors (reviewFactors this scanResult) ≠ [])
    by (rewrite Hfs; discriminate).
  destruct (determineClaudeNeed_factors this scanResult Hne) as [Htrue _].
  congruence.
Qed.

(** X1. A decision of [MINOR_ISSUES] is only made for a page that has
    violations, all of them minor or moderate, on which none of the six
    review-needed factors triggers; its confidence is 0.8 and it has no
    alternative. *)
Theorem minor_issues_only_for_minor_or_moderate_violations
  (this : t) (scanResult : PageScanResult.t) d this' :
  makeDecisionWithReasoning this scanResult = JS.Return (d, this') →
  EnhancedPageDecision.category d = MINOR_ISSUES →
  PageScanResult.violations scanResult ≠ []
  ∧ Forall (fun v => ViolationResult.impact v = minor
                     ∨ ViolationResult.impact v = moderate)
      (PageScanResult.violations scanResult)
  ∧ triggeredFactors (reviewFactors this scanResult) = []
  ∧ DecisionReasoning.confidence (EnhancedPageDecision.reasoning d) = 0.8%float
  ∧ DecisionReasoning.alternativeDecisions (EnhancedPageDecision.reasoning d)
    = []
  ∧ EnhancedPageDecision.reason d
    = JS.toString (length (PageScanResult.violations scanResult))
      +:+ " auto-fixable violations found".
Proof.
  intros Heq Hcat.
  destruct (makeDecisionWithReasoning_inv _ _ _ _ Heq)
    as [(e & _ & _ & -> & _) | (_ & domain & _ & -> & _)];
    [discriminate Hcat|].
  cbn [decisionRecord EnhancedPageDecision.category] in Hcat.
  cbn [decisionRecord EnhancedPageDecision.reasoning
       EnhancedPageDecision.reason DecisionReasoning.confidence
       DecisionReasoning.alternativeDecisions].
  unfold branchReason, branchConfidence. revert Hcat. unfold branchOf.
  destruct (criticalThreshold this <=? _) eqn:Hcrit; [discriminate|].
  destruct (ClaudeNeed.needed _) eqn:Hneeded; [discriminate|].
  destruct (length (PageScanResult.violations scanResult) =? 0) eqn:Hlen;
    [discriminate|].
  intros _. apply Nat.leb_gt in Hcrit. apply Nat.eqb_neq in Hlen.
  pose proof (not_needed_no_factor this scanResult Hneeded) as Hnone.
  assert (Hsevere :
    length (List.filter isCriticalOrSerious
              (PageScanResult.violations scanResult)) = 0).
  { unfold triggeredFactors, reviewFactors in Hnone.
    cbn [List.filter ReviewFactor.triggered] in Hnone.
    repeat match type of Hnone with
           | context [if ?b then _ else _] =>
               destruct b eqn:?; try discriminate Hnone
           end.
    unfold countWhere, getCriticalViolations in *.
    match goal with
    | Hb : (_ && _) = false |- _ =>
        apply andb_false_iff in Hb as [Hb | Hb];
          [apply Nat.leb_gt in Hb | apply Nat.leb_gt in Hb]; lia
    end. }
  split; [destruct (PageScanResult.violations scanResult); [contradiction|discriminate]|].
  split; [apply no_serious_means_minor_or_moderate, Hsevere|].
  repeat split; auto.
Qed.

(** X3. A decision carries an alternative only when it is [CLAUDE_NEEDED]
    on a page with fewer than three violations, and then exactly one:
    [MINOR_ISSUES] at confidence 0.5. A [CRITICAL] decision never offers
    [CLAUDE_NEEDED] as an alternative. *)
Theorem alternatives_only_for_small_review_pages
  (this : t) (scanResult : PageScanResult.t) d this' :
  makeDecisionWithReasoning this scanResult = JS.Return (d, this') →
  DecisionReasoning.alternativeDecisions (EnhancedPageDecision.reasoning d)
  = if Category_eqb (EnhancedPageDecision.category d) CLAUDE_NEEDED
       && (length (PageScanResult.violations scanResult) <? 3)
    then [ {| AlternativeDecision.decision := MINOR_ISSUES;
              AlternativeDecision.confidence := 0.5;
              AlternativeDecision.rationale :=
                "Limited violations might be addressable without visual analysis" |} ]
    else [].
Proof.
  intros Heq.
  destruct (makeDecisionWithReasoning_inv _ _ _ _ Heq)
    as [(e & _ & _ & -> & _) | (_ & domain & _ & -> & _)]; [reflexivity|].
  cbn [decisionRecord EnhancedPageDecision.reasoning
       EnhancedPageDecision.category DecisionReasoning.alternativeDecisions].
  unfold generateAlternatives, branchConfidence.
  destruct (branchOf this scanResult); cbn; reflexivity.
Qed.

(** X4. A decision on a result with an error leaves the learning memory
    as it was. A decision on any other result appends exactly one
    occurrence, with the page's URL, the ids of its violations and the
    category decided, to the history of the URL's domain, and leaves the
    histories of all other domains and the thresholds untouched. *)
Theorem decision_appends_one_occurrence_to_its_domain
  (this : t) (scanResult : PageScanResult.t) d this' :
  makeDecisionWithReasoning this scanResult = JS.Return (d, this') →
  complexIssues this' = complexIssues this
  ∧ criticalThreshold this' = criticalThreshold this
  ∧ incompleteThreshold this' = incompleteThreshold this
  ∧ (JS.truthy (PageScanResult.error scanResult) = true → this' = this)
  ∧ (JS.truthy (PageScanResult.error scanResult) = false →
     ∃ domain,
       URL_hostname (PageScanResult.url scanResult) = Some domain
       ∧ patternHistory this' !! domain
         = Some (default [] (patternHistory this !! domain) ++
                 [ {| PatternOccurrence.url := PageScanResult.url scanResult;
                      PatternOccurrence.timestamp := Date_toISOString;
                      PatternOccurrence.violationTypes :=
                        map ViolationResult.id
                          (PageScanResult.violations scanResult);
                      PatternOccurrence.decision :=
                        EnhancedPageDecision.category d |} ])
       ∧ ∀ other, other ≠ domain →
           patternHistory this' !! other = patternHistory this !! other).
Proof.
  intros Heq.
  destruct (makeDecisionWithReasoning_inv _ _ _ _ Heq)
    as [(e & He & Hne & -> & ->) | (Herr & domain & Hd & -> & ->)].
  - repeat split; auto. intros Herr. rewrite He in Herr. simpl in Herr.
    destruct (String.eqb_spec e ""); [contradiction | discriminate].
  - repeat split; auto; [congruence|].
    intros _. exists domain. split; [exact Hd|].
    cbn [remember patternHistory decisionRecord EnhancedPageDecision.category].
    split; [apply lookup_insert_eq|].
    intros other Hother. apply lookup_insert_ne. congruence.
Qed.

(** A decision without the insights drawn from the learning memory. *)
Definition withoutLearningInsights (d : EnhancedPageDecision.t)
  : EnhancedPageDecision.t :=
  {| EnhancedPageDecision.url := EnhancedPageDecision.url d;
     EnhancedPageDecision.category := EnhancedPageDecision.category d;
     EnhancedPageDecision.reasoning :=
       {| DecisionReasoning.decision :=
            DecisionReasoning.decision (EnhancedPageDecision.reasoning d);
          DecisionReasoning.confidence :=
            DecisionReasoning.confidence (EnhancedPageDecision.reasoning d);
          DecisionReasoning.factors :=
            DecisionReasoning.factors (EnhancedPageDecision.reasoning d);
          DecisionReasoning.contextualAnalysis :=
            DecisionReasoning.contextualAnalysis
              (EnhancedPageDecision.reasoning d);
          DecisionReasoning.alternativeDecisions :=
            DecisionReasoning.alternativeDecisions
              (EnhancedPageDecision.reasoning d);
          DecisionReasoning.learningInsights := [] |};
     EnhancedPageDecision.reason := EnhancedPageDecision.reason d;
     EnhancedPageDecision.priority := EnhancedPageDecision.priority d;
     EnhancedPageDecision.estimatedEffort :=
       EnhancedPageDecision.estimatedEffort d;
     EnhancedPageDecision.complexViolations :=
       EnhancedPageDecision.complexViolations d;
     EnhancedPageDecision.criticalViolations :=
       EnhancedPageDecision.criticalViolations d;
     EnhancedPageDecision.adaptiveSuggestions :=
       EnhancedPageDecision.adaptiveSuggestions d;
     EnhancedPageDecision.uncertaintyFactors :=
       EnhancedPageDecision.uncertaintyFactors d |}.

Lemma branch_ignores_memory (this other : t) (scanResult : PageScanResult.t) :
  complexIssues other = complexIssues this →
  criticalThreshold other = criticalThreshold this →
  incompleteThreshold other = incompleteThreshold this →
  getComplexViolations other (PageScanResult.violations scanResult)
  = getComplexViolations this (PageScanResult.violations scanResult)
  ∧ branchOf other scanResult = branchOf this scanResult
  ∧ branchConfidence other scanResult = branchConfidence this scanResult
  ∧ branchReason other scanResult = branchReason this scanResult.
Proof.
  intros Hci Hct Hit.
  assert (Hcomplex :
    getComplexViolations other (PageScanResult.violations scanResult)
    = getComplexViolations this (PageScanResult.violations scanResult))
    by (unfold getComplexViolations; rewrite Hci; reflexivity).
  assert (Hneed : ∀ violations incomplete complexViolations,
    determineClaudeNeed other violations incomplete complexViolations
    = determineClaudeNeed this violations incomplete complexViolations)
    by (intros; unfold determineClaudeNeed; rewrite Hct, Hit; reflexivity).
  assert (Hbranch : branchOf other scanResult = branchOf this scanResult)
    by (unfold branchOf; rewrite Hct, Hcomplex, Hneed; reflexivity).
  repeat split; auto.
  - unfold branchConfidence. rewrite Hbranch, Hcomplex, Hneed. reflexivity.
  - unfold branchReason. rewrite Hbranch, Hcomplex, Hneed. reflexivity.
Qed.

(** X5. The learning memory never changes a decision: two agents with the
    same thresholds and complex issues, whatever their memories, return for
    the same result decisions that differ at most in their learning
    insights (when one returns, so does the other). In particular deciding
    the same result twice gives the same category, confidence, reason,
    factors, alternatives and priority. *)
Theorem memory_changes_only_the_learning_insights
  (this other : t) (scanResult : PageScanResult.t) d this' :
  complexIssues other = complexIssues this →
  criticalThreshold other = criticalThreshold this →
  incompleteThreshold other = incompleteThreshold this →
  makeDecisionWithReasoning this scanResult = JS.Return (d, this') →
  ∃ d' other',
    makeDecisionWithReasoning other scanResult = JS.Return (d', other')
    ∧ withoutLearningInsights d' = withoutLearningInsights d.
Proof.
  intros Hci Hct Hit Heq.
  destruct (branch_ignores_memory this other scanResult Hci Hct Hit)
    as (Hcomplex & Hbranch & Hconf & Hreason).
  destruct (makeDecisionWithReasoning_inv _ _ _ _ Heq)
    as [(e & He & Hne & -> & ->) | (Herr & domain & Hd & -> & ->)].
  - exists (createErrorDecision (PageScanResult.url scanResult) e), other.
    split; [|reflexivity].
    unfold makeDecisionWithReasoning. rewrite He. simpl.
    destruct (String.eqb_spec e ""); [contradiction | reflexivity].
  - destruct (makeDecisionWithReasoning other scanResult)
      as [[d' other']|e] eqn:Hother.
    + exists d', other'. split; [reflexivity|].
      destruct (makeDecisionWithReasoning_inv _ _ _ _ Hother)
        as [(e & He & Hne & _) | (_ & domain' & Hd' & -> & _)].
      * rewrite He in Herr. simpl in Herr.
        destruct (String.eqb_spec e ""); [contradiction | discriminate].
      * rewrite Hbranch, Hconf, Hreason, Hcomplex. reflexivity.
    + exfalso. revert Hother. unfold makeDecisionWithReasoning.
      rewrite Herr.
      repeat match goal with
             | |- context [if ?b then _ else _] => destruct b
             end;
        unfold createDecision, extractInsights, updateLearningMemory,
          hostnameOf; rewrite Hd; discriminate.
Qed.

End FixedProperties.

Lemma decision_confidence_is_one_of_six_levels_witness :
  let c :=
    DecisionReasoning.confidence
      (EnhancedPageDecision.reasoning
         (sampleOutcome EnhancedDecisionAgentFixed.new pageWithColorContrast).1) in
  (c = 0.75%float ∨ c = 0.8%float ∨ c = 0.85%float ∨ c = 0.9%float
   ∨ c = 0.95%float ∨ c = 1.0%float)
  ∧ PrimFloat.leb 0.75 c = true
  ∧ PrimFloat.leb c 1 = true
  ∧ PrimFloat.ltb c 0.6 = false
  ∧ length
      (EnhancedPageDecision.uncertaintyFactors
         (sampleOutcome EnhancedDecisionAgentFixed.new pageWithColorContrast).1)
    ≤ 1.
Proof.
  apply (@decision_confidence_is_one_of_six_levels samplePlatform
           EnhancedDecisionAgentFixed.new pageWithColorContrast
           (sampleOutcome EnhancedDecisionAgentFixed.new pageWithColorContrast).1
           (sampleOutcome EnhancedDecisionAgentFixed.new pageWithColorContrast).2).
  reflexivity.
Defined.

Lemma minor_issues_only_for_minor_or_moderate_violations_witness :
  PageScanResult.violations pageWithThreeMinor ≠ []
  ∧ Forall (fun v => ViolationResult.impact v = minor
                     ∨ ViolationResult.impact v = moderate)
      (PageScanResult.violations pageWithThreeMinor)
  ∧ triggeredFactors
      (reviewFactors EnhancedDecisionAgentFixed.new pageWithThreeMinor) = []
  ∧ DecisionReasoning.confidence
      (EnhancedPageDecision.reasoning
         (sampleOutcome EnhancedDecisionAgentFixed.new pageWithThreeMinor).1)
    = 0.8%float
  ∧ DecisionReasoning.alternativeDecisions
      (EnhancedPageDecision.reasoning
         (sampleOutcome EnhancedDecisionAgentFixed.new pageWithThreeMinor).1)
    = []
  ∧ EnhancedPageDecision.reason
      (sampleOutcome EnhancedDecisionAgentFixed.new pageWithThreeMinor).1
    = JS.toString (length (PageScanResult.violations pageWithThreeMinor))
      +:+ " auto-fixable violations found".
Proof.
  apply (@minor_issues_only_for_minor_or_moderate_violations samplePlatform
           EnhancedDecisionAgentFixed.new pageWithThreeMinor
           (sampleOutcome EnhancedDecisionAgentFixed.new pageWithThreeMinor).1
           (sampleOutcome EnhancedDecisionAgentFixed.new pageWithThreeMinor).2).
  - reflexivity.
  - reflexivity.
Defined.

Lemma alternatives_only_for_small_review_pages_witness :
  DecisionReasoning.alternativeDecisions
    (EnhancedPageDecision.reasoning
       (sampleOutcome EnhancedDecisionAgentFixed.new pageWithColorContrast).1)
  = if Category_eqb
         (EnhancedPageDecision.category
            (sampleOutcome EnhancedDecisionAgentFixed.new pageWithColorContrast).1)
         CLAUDE_NEEDED
       && (length (PageScanResult.violations pageWithColorContrast) <? 3)
    then [ {| AlternativeDecision.decision := MINOR_ISSUES;
              AlternativeDecision.confidence := 0.5;
              AlternativeDecision.rationale :=
                "Limited violations might be addressable without visual analysis" |} ]
    else [].
Proof.
  apply (@alternatives_only_for_small_review_pages samplePlatform
           EnhancedDecisionAgentFixed.new pageWithColorContrast
           (sampleOutcome EnhancedDecisionAgentFixed.new pageWithColorContrast).1
           (sampleOutcome EnhancedDecisionAgentFixed.new pageWithColorContrast).2).
  reflexivity.
Defined.

(** On the colour-contrast page the alternative is there. *)
Example color_contrast_page_alternative :
  map AlternativeDecision.decision
    (DecisionReasoning.alternativeDecisions
       (EnhancedPageDecision.reasoning
          (sampleOutcome EnhancedDecisionAgentFixed.new pageWithColorContrast).1))
  = [MINOR_ISSUES].
Proof. reflexivity. Qed.

Lemma decision_appends_one_occurrence_to_its_domain_witness :
  EnhancedDecisionAgentFixed.complexIssues
    (sampleOutcome EnhancedDecisionAgentFixed.new pageWithColorContrast).2
  = EnhancedDecisionAgentFixed.complexIssues EnhancedDecisionAgentFixed.new
  ∧ EnhancedDecisionAgentFixed.criticalThreshold
      (sampleOutcome EnhancedDecisionAgentFixed.new pageWithColorContrast).2
    = EnhancedDecisionAgentFixed.criticalThreshold
        EnhancedDecisionAgentFixed.new
  ∧ EnhancedDecisionAgentFixed.incompleteThreshold
      (sampleOutcome EnhancedDecisionAgentFixed.new pageWithColorContrast).2
    = EnhancedDecisionAgentFixed.incompleteThreshold
        EnhancedDecisionAgentFixed.new
  ∧ (JS.truthy (PageScanResult.error pageWithColorContrast) = true →
     (sampleOutcome EnhancedDecisionAgentFixed.new pageWithColorContrast).2
     = EnhancedDecisionAgentFixed.new)
  ∧ (JS.truthy (PageScanResult.error pageWithColorContrast) = false →
     ∃ domain,
       @URL_hostname samplePlatform (PageScanResult.url pageWithColorContrast)
       = Some domain
       ∧ EnhancedDecisionAgentFixed.patternHistory
           (sampleOutcome EnhancedDecisionAgentFixed.new pageWithColorContrast).2
         !! domain
         = Some (default []
                   (EnhancedDecisionAgentFixed.patternHistory
                      EnhancedDecisionAgentFixed.new !! domain) ++
                 [ {| PatternOccurrence.url :=
                        PageScanResult.url pageWithColorContrast;
                      PatternOccurrence.timestamp :=
                        @Date_toISOString samplePlatform;
                      PatternOccurrence.violationTypes :=
                        map ViolationResult.id
                          (PageScanResult.violations pageWithColorContrast);
                      PatternOccurrence.decision :=
                        EnhancedPageDecision.category
                          (sampleOutcome EnhancedDecisionAgentFixed.new
                             pageWithColorContrast).1 |} ])
       ∧ ∀ other, other ≠ domain →
           EnhancedDecisionAgentFixed.patternHistory
             (sampleOutcome EnhancedDecisionAgentFixed.new
                pageWithColorContrast).2 !! other
           = EnhancedDecisionAgentFixed.patternHistory
               EnhancedDecisionAgentFixed.new !! other).
Proof.
  apply (@decision_appends_one_occurrence_to_its_domain samplePlatform
           EnhancedDecisionAgentFixed.new pageWithColorContrast
           (sampleOutcome EnhancedDecisionAgentFixed.new pageWithColorContrast).1
           (sampleOutcome EnhancedDecisionAgentFixed.new pageWithColorContrast).2).
  reflexivity.
Defined.

(** The agent after it has decided the colour-contrast page once. *)
Definition agentWithMemory : EnhancedDecisionAgentFixed.t :=
  (sampleOutcome EnhancedDecisionAgentFixed.new pageWithColorContrast).2.

Lemma memory_changes_only_the_learning_insights_witness :
  ∃ d' other',
    @EnhancedDecisionAgentFixed.makeDecisionWithReasoning samplePlatform
      agentWithMemory pageWithColorContrast = JS.Return (d', other')
    ∧ withoutLearningInsights d'
      = withoutLearningInsights
          (sampleOutcome EnhancedDecisionAgentFixed.new pageWithColorContrast).1.
Proof.
  apply (@memory_changes_only_the_learning_insights samplePlatform
           EnhancedDecisionAgentFixed.new agentWithMemory pageWithColorContrast
           (sampleOutcome EnhancedDecisionAgentFixed.new pageWithColorContrast).1
           (sampleOutcome EnhancedDecisionAgentFixed.new pageWithColorContrast).2);
    reflexivity.
Defined.

(** The second decision on the same page tells of the first one. *)
Example second_decision_recalls_the_first :
  DecisionReasoning.learningInsights
    (EnhancedPageDecision.reasoning
       (sampleOutcome agentWithMemory pageWithColorContrast).1)
  = ["Domain has 1 previous scans in history"].
Proof. reflexivity. Qed.

(** * Further operations of [DecisionAgent]
    ([src/agents/decision-agent.ts]) *)

Definition Priority_eqb (a b : Priority) : bool :=
  match a, b with
  | Low, Low | Medium, Medium | High, High | Critical, Critical => true
  | _, _ => false
  end.

Module BreakdownEntry.
Record t := mk {
  category : string;
  count : nat;
  percentage : float;
  pages : list string
}.
End BreakdownEntry.

Module DecisionAgentQueries.

Definition getHighPriorityPages (this : DecisionAgent.t)
  (scanResults : list PageScanResult.t) : list PageScanResult.t :=
  List.filter (fun result =>
    let decision := DecisionAgent.makeDecision this result in
    Category_eqb (PageDecision.category decision) CRITICAL
    || Priority_eqb (PageDecision.priority decision) Critical) scanResults.

Definition breakdownEntry (category : string)
  (pages : list PageScanResult.t) (total : nat) : BreakdownEntry.t :=
  {| BreakdownEntry.category := category;
     BreakdownEntry.count := length pages;
     BreakdownEntry.percentage :=
       (JS.Number (length pages) / JS.Number total * 100)%float;
     BreakdownEntry.pages := map PageScanResult.url pages |}.

Definition getDecisionBreakdown (this : DecisionAgent.t)
  (scanResults : list PageScanResult.t) : list BreakdownEntry.t :=
  let result := DecisionAgent.categorizePages this scanResults in
  let total := length scanResults in
  [ breakdownEntry "PASSED" (DecisionResult.passed result) total;
    breakdownEntry "MINOR_ISSUES" (DecisionResult.minorIssues result) total;
    breakdownEntry "CLAUDE_NEEDED" (DecisionResult.claudeNeeded result) total;
    breakdownEntry "CRITICAL" (DecisionResult.critical result) total ].

End DecisionAgentQueries.

Section DecisionAgentProperties.
Import DecisionAgentQueries.

Lemma DecisionAgent_priority_Critical (violations : list ViolationResult.t) :
  DecisionAgent.calculatePriority violations = Critical
  ↔ existsb (hasImpact critical) violations = true.
Proof.
  unfold DecisionAgent.calculatePriority. rewrite filter_length_pos.
  destruct (existsb (hasImpact critical) violations); [tauto|].
  split; [|discriminate].
  repeat match goal with
         | |- context [if ?b then _ else _] => destruct b
         end; discriminate.
Qed.

(** X6. [getHighPriorityPages] keeps, in their order, exactly the results
    that carry an error, or hold at least [criticalThreshold] serious or
    critical violations, or hold a critical violation. *)
Theorem high_priority_pages_characterised
  (this : DecisionAgent.t) (scanResults : list PageScanResult.t) :
  getHighPriorityPages this scanResults
  = List.filter (fun result =>
      JS.truthy (PageScanResult.error result)
      || (DecisionAgent.criticalThreshold this
            <=? countWhere isCriticalOrSerious
                  (PageScanResult.violations result))
      || existsb (hasImpact critical) (PageScanResult.violations result))
      scanResults.
Proof.
  unfold getHighPriorityPages. apply List.filter_ext. intros r.
  unfold DecisionAgent.makeDecision, countWhere.
  change (DecisionAgent.getCriticalViolations (PageScanResult.violations r))
    with (List.filter isCriticalOrSerious (PageScanResult.violations r)).
  destruct (JS.truthy (PageScanResult.error r)); [reflexivity|].
  destruct (DecisionAgent.criticalThreshold this <=? _); [reflexivity|].
  cbn [orb].
  destruct (existsb (hasImpact critical) (PageScanResult.violations r))
    eqn:Hcrit.
  - apply DecisionAgent_priority_Critical in Hcrit.
    destruct (DecisionAgent.needsHumanAnalysis _ _ _ || _);
      cbn [PageDecision.category PageDecision.priority].
    + rewrite Hcrit. reflexivity.
    + destruct (PageScanResult.violations r) as [|v vs];
        [discriminate | cbn; rewrite Hcrit; reflexivity].
  - assert (Hprio : Priority_eqb
                      (DecisionAgent.calculatePriority
                         (PageScanResult.violations r)) Critical = false).
    { destruct (DecisionAgent.calculatePriority (PageScanResult.violations r))
        eqn:Hp; try reflexivity.
      apply DecisionAgent_priority_Critical in Hp. congruence. }
    destruct (DecisionAgent.needsHumanAnalysis _ _ _ || _);
      cbn [PageDecision.category PageDecision.priority];
      [exact Hprio|].
    destruct (length (PageScanResult.violations r) =? 0);
      cbn [PageDecision.category PageDecision.priority]; auto.
Qed.

Lemma categorizePages_partition (this : DecisionAgent.t)
  (scanResults : list PageScanResult.t) :
  allOf (DecisionAgent.categorizePages this scanResults) ≡ₚ scanResults.
Proof.
  apply (categorize_partition
           (fun r => PageDecision.category (DecisionAgent.makeDecision this r))).
Qed.

(** X7. [getDecisionBreakdown] returns the four categories in the order
    PASSED, MINOR_ISSUES, CLAUDE_NEEDED, CRITICAL; their counts add up to
    the number of results, each count is the number of URLs listed, and
    the URLs listed are those of the results, each once. On an empty list
    every percentage is NaN (0 divided by 0). *)
Theorem decision_breakdown_counts_every_page_once
  (this : DecisionAgent.t) (scanResults : list PageScanResult.t) :
  let entries := getDecisionBreakdown this scanResults in
  map BreakdownEntry.category entries
  = ["PASSED"; "MINOR_ISSUES"; "CLAUDE_NEEDED"; "CRITICAL"]
  ∧ sum_list (map BreakdownEntry.count entries) = length scanResults
  ∧ Forall (fun entry =>
              BreakdownEntry.count entry = length (BreakdownEntry.pages entry))
      entries
  ∧ concat (map BreakdownEntry.pages entries)
    ≡ₚ map PageScanResult.url scanResults
  ∧ (scanResults = [] →
     Forall (fun entry => PrimFloat.is_nan (BreakdownEntry.percentage entry)
                          = true) entries).
Proof.
  intros entries. subst entries. unfold getDecisionBreakdown, breakdownEntry.
  pose proof (categorizePages_partition this scanResults) as Hperm.
  unfold allOf in Hperm.
  split; [reflexivity|]. split; [|split; [|split]].
  - cbn. apply Permutation_length in Hperm. rewrite !length_app in Hperm. lia.
  - repeat constructor; cbn; rewrite length_map; reflexivity.
  - cbn. rewrite app_nil_r, <- !map_app. apply Permutation_map, Hperm.
  - intros ->. repeat constructor.
Qed.

End DecisionAgentProperties.

(** * Further operations of the scanner ([src/agents/bulk-scanner.ts]) *)

Module PageContext.
Record t := mk {
  title : string;
  description : string;
  hasForm : bool;
  hasNavigation : bool;
  hasModal : bool
}.
End PageContext.

Module PageData.
Record t := mk {
  url : string;
  violations : list ViolationResult.t;
  pageContext : option PageContext.t
}.
End PageData.

Module ScannerQueries.

(** [violations.some(v => v.nodes.some(n => test(n.html)))]. *)
Definition someNodeHtml (test : string → bool)
  (violations : list ViolationResult.t) : bool :=
  existsb (fun v =>
    existsb (fun n => test (ViolationNode.html n)) (ViolationResult.nodes v))
    violations.

Definition getPagesForClaudeAnalysis (this : BulkScannerAgent.t)
  : list PageData.t :=
  map (fun r =>
         {| PageData.url := WorkerResult.url r;
            PageData.violations :=
              PageScanResult.violations (WorkerResult.result r);
            PageData.pageContext :=
              Some
                {| PageContext.title := "";
                   PageContext.description := "";
                   PageContext.hasForm :=
                     someNodeHtml (fun html => JS.includes html "<form")
                       (PageScanResult.violations (WorkerResult.result r));
                   PageContext.hasNavigation :=
                     someNodeHtml (fun html => JS.includes html "nav")
                       (PageScanResult.violations (WorkerResult.result r));
                   PageContext.hasModal :=
                     someNodeHtml
                       (fun html =>
                          JS.includes html "modal" || JS.includes html "dialog")
                       (PageScanResult.violations (WorkerResult.result r)) |} |})
    (List.filter (fun r =>
       WorkerResult.needsClaudeAnalysis r
       && negb (JS.truthy (PageScanResult.error (WorkerResult.result r))))
       (BulkScannerAgent.results this)).

(** [validateUrls] of [src/utils/config-loader.ts]: the URLs [new URL]
    accepts, in their order. *)
Definition validateUrls `{Platform} (urls : list string) : list string :=
  List.filter (fun url =>
    match URL_hostname url with Some _ => true | None => false end) urls.

End ScannerQueries.

Section StoredEntries.
Context `{Platform} `{Browser}.
Import BulkScannerAgent.

Lemma inFlight_insert_Forall (Q : WorkerTask.t → Prop) (ws : list Worker) i w' :
  Forall Q (omap taskInFlight ws) →
  (∀ task, taskInFlight w' = Some task → Q task) →
  Forall Q (omap taskInFlight (<[i := w']> ws)).
Proof.
  intros Hall Hnew. revert i Hall.
  induction ws as [|x ws IH]; intros i Hall; [exact Hall|].
  destruct i as [|i]; simpl in *.
  - destruct (taskInFlight x) as [t|]; [inversion Hall; subst|];
      destruct (taskInFlight w') as [t'|] eqn:Hw'; simpl; auto.
  - destruct (taskInFlight x) as [t|]; simpl.
    + inversion Hall; subst. constructor; auto.
    + auto.
Qed.

Lemma inFlight_lookup_Forall (Q : WorkerTask.t → Prop) (ws : list Worker) i
  task :
  Forall Q (omap taskInFlight ws) → ws !! i = Some (Scanning task) → Q task.
Proof.
  revert i. induction ws as [|x ws IH]; intros i Hall Hi; [discriminate|].
  destruct i as [|i]; simpl in *.
  - injection Hi as ->. simpl in Hall. inversion Hall; auto.
  - destruct (taskInFlight x); [inversion Hall; subst|]; eauto.
Qed.

(** A property of tasks that carries over to the entries stored for them
    holds of every entry a run stores. *)
Lemma stored_entries_invariant (Q : WorkerTask.t → Prop)
  (P : WorkerResult.t → Prop) (p p' : Pool) :
  (∀ this task, Q task → P (entryOf this task)) →
  rtc step p p' →
  Forall Q (workQueue p) → Forall Q (inFlight p) →
  Forall P (results (agent p)) →
  Forall P (results (agent p')).
Proof.
  intros Hcarry Hrun.
  induction Hrun as [|p q r [i Hstep] _ IH]; [auto|].
  intros Hqueue Hflight Hresults. unfold inFlight in *.
  unfold stepWorker in Hstep.
  destruct (workers p !! i) as [w|] eqn:Hw; [|discriminate].
  destruct w as [|task| |]; [| | |discriminate].
  - destruct (workQueue p) as [|task rest] eqn:Hq; injection Hstep as <-;
      apply IH; cbn [agent workQueue workers]; try assumption.
    + apply inFlight_insert_Forall; [assumption | cbn; congruence].
    + inversion Hqueue; assumption.
    + apply inFlight_insert_Forall; [assumption|].
      cbn. intros t [= <-]. inversion Hqueue; assumption.
  - injection Hstep as <-. apply IH; cbn [agent workQueue workers];
      try assumption.
    + apply inFlight_insert_Forall; [assumption | cbn; congruence].
    + cbn [recordResult results]. apply Forall_app. split; [assumption|].
      constructor; [|constructor].
      apply (Hcarry (agent p) task).
      eapply inFlight_lookup_Forall; eauto.
  - injection Hstep as <-. apply IH; cbn [agent workQueue workers];
      try assumption.
    apply inFlight_insert_Forall; [assumption | cbn; congruence].
Qed.

Lemma makeTasks_Forall (Q : string → Prop) (urls : list string) :
  Forall Q urls → Forall (fun task => Q (WorkerTask.url task)) (makeTasks urls).
Proof.
  intros Hall. rewrite <- (makeTasks_urls urls) in Hall.
  induction (makeTasks urls) as [|task tasks IH]; [constructor|].
  inversion Hall; subst. constructor; auto.
Qed.

(** Every entry a scan on a new scanner stores satisfies [P], when the
    entries of tasks on the given URLs do. *)
Lemma scan_entries_invariant (Q : string → Prop) (P : WorkerResult.t → Prop)
  (options : BulkScanOptions.t) (urls : list string) (p : Pool) :
  (∀ this task, Q (WorkerTask.url task) → P (entryOf this task)) →
  Forall Q urls →
  rtc step
    (startWorkers (setTotal (new options) (length urls)) (makeTasks urls)) p →
  Forall P (results (agent p)).
Proof.
  intros Hcarry Hurls Hrun.
  eapply (stored_entries_invariant
            (fun task => Q (WorkerTask.url task)) P _ _ Hcarry Hrun).
  - apply makeTasks_Forall, Hurls.
  - unfold inFlight. cbn. rewrite inFlight_at_loop_head. constructor.
  - constructor.
Qed.

Lemma categorize_entries_count (entries : list WorkerResult.t)
  (acc : DecisionResult.t) :
  length (allOf
    (foldl (fun acc entry =>
              DecisionAgent.pushByCategory (categoryOf entry)
                (WorkerResult.result entry) acc) acc entries))
  = length (allOf acc) + length entries.
Proof.
  revert acc. induction entries as [|entry entries IH]; intros acc; simpl;
    [lia|].
  rewrite IH. unfold allOf.
  destruct (categoryOf entry); cbn; rewrite !length_app; simpl; lia.
Qed.

(** X8. The four category counts of the summary a scan resolves with add
    up to its number of pages, the number of URLs given (for a worker
    count that is not negative). *)
Theorem summary_counts_add_up_to_the_pages_given
  (options : BulkScanOptions.t) (urls : list string) summary agent' :
  (∀ w, BulkScanOptions.maxWorkers options = Some w → (0 ≤ w)%Z) →
  scanPages (new options) urls (JS.Return (summary, agent')) →
  BulkScanSummary.passedPages summary + BulkScanSummary.minorIssues summary
  + BulkScanSummary.claudeAnalysisNeeded summary
  + BulkScanSummary.criticalIssues summary
  = BulkScanSummary.totalPages summary
  ∧ BulkScanSummary.totalPages summary = length urls.
Proof.
  intros Hvalid Hscan.
  pose proof (workers_of_valid_options options Hvalid) as Hpos.
  pose proof (poolInvariant_start (new options) urls eq_refl eq_refl eq_refl)
    as Hstart.
  inversion Hscan as [|p Hlaunch Hrun Hdone]; subst.
  pose proof (poolInvariant_reachable _ _ _ _ Hstart Hrun) as Hinv.
  destruct (poolInvariant_finished _ _ _ Hinv Hpos Hdone)
    as (_ & Hlen & _ & _).
  split; [|reflexivity].
  cbn [generateSummary BulkScanSummary.passedPages BulkScanSummary.minorIssues
       BulkScanSummary.claudeAnalysisNeeded BulkScanSummary.criticalIssues
       BulkScanSummary.totalPages].
  pose proof (categorize_entries_count (results (agent p))
                DecisionAgent.emptyDecisionResult) as Hcount.
  fold (categorizeResults (agent p)) in Hcount.
  unfold allOf in Hcount. rewrite !length_app in Hcount. cbn in Hcount.
  rewrite Hlen in Hcount. lia.
Qed.

End StoredEntries.

Lemma summary_counts_add_up_to_the_pages_given_witness :
  let summary :=
    BulkScannerAgent.generateSummary
      (BulkScannerAgent.agent samplePool) (length twiceTheSameUrl) in
  BulkScanSummary.passedPages summary + BulkScanSummary.minorIssues summary
  + BulkScanSummary.claudeAnalysisNeeded summary
  + BulkScanSummary.criticalIssues summary
  = BulkScanSummary.totalPages summary
  ∧ BulkScanSummary.totalPages summary = length twiceTheSameUrl.
Proof.
  apply (@summary_counts_add_up_to_the_pages_given samplePlatform flakyBrowser
           (optionsWithWorkers 2) twiceTheSameUrl _
           (BulkScannerAgent.agent samplePool)).
  - intros w Hw. vm_compute in Hw. injection Hw as <-. lia.
  - apply (@BulkScannerAgent.scanPages_resolved samplePlatform flakyBrowser
             _ twiceTheSameUrl samplePool).
    + reflexivity.
    + apply runPool_reachable.
    + vm_compute. repeat constructor.
Defined.

(** ** A scan in which no page loads *)

Section NoPageLoads.
Context `{Platform} `{Browser}.
Import BulkScannerAgent.

Lemma scanAttempts_no_load (this : t) url index remaining attempt lastError :
  (∀ a, ∃ message, attemptOutcome url index a = Failed message) →
  JS.truthy
    (PageScanResult.error
       (scanAttempts this url index remaining attempt lastError).1) = true.
Proof.
  intros Hfail. revert attempt lastError.
  induction remaining as [|remaining IH]; intros attempt lastError.
  - cbn. unfold JS.or_string.
    destruct (String.eqb_spec (default "" lastError) "") as [|Hne];
      [reflexivity|].
    destruct (String.eqb_spec (default "" lastError) ""); [contradiction|].
    reflexivity.
  - cbn [scanAttempts]. destruct (Hfail attempt) as [message ->].
    cbn [performScan].
    specialize (IH (attempt + 1)%Z (Some message)).
    destruct (scanAttempts this url index remaining (attempt + 1)
                (Some message)) as [result later].
    exact IH.
Qed.

Lemma all_critical_entries (entries : list WorkerResult.t)
  (acc : DecisionResult.t) :
  Forall (fun entry =>
            JS.truthy (PageScanResult.error (WorkerResult.result entry)) = true)
    entries →
  foldl (fun acc entry =>
           DecisionAgent.pushByCategory (categoryOf entry)
             (WorkerResult.result entry) acc) acc entries
  = {| DecisionResult.passed := DecisionResult.passed acc;
       DecisionResult.minorIssues := DecisionResult.minorIssues acc;
       DecisionResult.claudeNeeded := DecisionResult.claudeNeeded acc;
       DecisionResult.critical :=
         DecisionResult.critical acc ++ map WorkerResult.result entries |}.
Proof.
  intros Hall. revert acc.
  induction Hall as [|entry entries Herr _ IH]; intros acc.
  - destruct acc. cbn. rewrite app_nil_r. reflexivity.
  - cbn [foldl]. rewrite IH. unfold categoryOf. rewrite Herr.
    cbn. rewrite <- app_assoc. reflexivity.
Qed.

(** X9. When no attempt on any page succeeds, a scan that resolves (with a
    worker count that is not negative) counts every page as a critical
    issue and none under the other categories, and reports no error; every
    stored result is flagged as needing analysis, and no page is handed to
    the Claude analysis. *)
Theorem scan_with_no_page_loading_counts_every_page_critical
  (options : BulkScanOptions.t) (urls : list string) summary agent' :
  (∀ w, BulkScanOptions.maxWorkers options = Some w → (0 ≤ w)%Z) →
  (∀ url index attempt, ∃ message,
     attemptOutcome url index attempt = Failed message) →
  scanPages (new options) urls (JS.Return (summary, agent')) →
  summary
  = {| BulkScanSummary.totalPages := length urls;
       BulkScanSummary.passedPages := 0;
       BulkScanSummary.minorIssues := 0;
       BulkScanSummary.claudeAnalysisNeeded := 0;
       BulkScanSummary.criticalIssues := length urls;
       BulkScanSummary.errors := 0 |}
  ∧ Forall (fun entry => WorkerResult.needsClaudeAnalysis entry = true)
      (results agent')
  ∧ ScannerQueries.getPagesForClaudeAnalysis agent' = [].
Proof.
  intros Hvalid Hfail Hscan.
  pose proof (workers_of_valid_options options Hvalid) as Hpos.
  pose proof (poolInvariant_start (new options) urls eq_refl eq_refl eq_refl)
    as Hstart.
  inversion Hscan as [|p Hlaunch Hrun Hdone]; subst.
  pose proof (poolInvariant_reachable _ _ _ _ Hstart Hrun) as Hinv.
  destruct (poolInvariant_finished _ _ _ Hinv Hpos Hdone)
    as (_ & Hlen & _ & _).
  assert (Hentries :
    Forall (fun entry =>
              JS.truthy (PageScanResult.error (WorkerResult.result entry))
              = true
              ∧ WorkerResult.needsClaudeAnalysis entry = true)
      (results (agent p))).
  { apply (scan_entries_invariant (fun _ => True) _ options urls p);
      [|apply Forall_true; auto|exact Hrun].
    intros this task _. cbn.
    assert (Herr :
      JS.truthy
        (PageScanResult.error
           (scanSinglePage this (WorkerTask.url task) (WorkerTask.index task)).1)
      = true).
    { apply scanAttempts_no_load. intros a. apply Hfail. }
    split; [exact Herr|]. unfold needsHumanAnalysis. rewrite Herr.
    reflexivity. }
  split; [|split].
  - unfold generateSummary, categorizeResults.
    rewrite all_critical_entries
      by (eapply Forall_impl; [exact Hentries | intros ? [? _]; assumption]).
    cbn. rewrite (inv_errors _ _ _ Hinv), length_map, Hlen. reflexivity.
  - eapply Forall_impl; [exact Hentries | intros ? [_ ?]; assumption].
  - unfold ScannerQueries.getPagesForClaudeAnalysis. clear Hlen.
    induction Hentries as [|entry entries [Herr _] _ IH]; [reflexivity|].
    cbn [List.filter]. rewrite Herr, andb_false_r. exact IH.
Qed.

End NoPageLoads.

Definition failingPool : BulkScannerAgent.Pool :=
  @runPool samplePlatform failingBrowser 20
    (BulkScannerAgent.startWorkers
       (BulkScannerAgent.setTotal
          (BulkScannerAgent.new (optionsWithWorkers 2))
          (length twiceTheSameUrl))
       (BulkScannerAgent.makeTasks twiceTheSameUrl)).

Lemma scan_with_no_page_loading_counts_every_page_critical_witness :
  BulkScannerAgent.generateSummary
    (BulkScannerAgent.agent failingPool) (length twiceTheSameUrl)
  = {| BulkScanSummary.totalPages := length twiceTheSameUrl;
       BulkScanSummary.passedPages := 0;
       BulkScanSummary.minorIssues := 0;
       BulkScanSummary.claudeAnalysisNeeded := 0;
       BulkScanSummary.criticalIssues := length twiceTheSameUrl;
       BulkScanSummary.errors := 0 |}
  ∧ Forall (fun entry => WorkerResult.needsClaudeAnalysis entry = true)
      (BulkScannerAgent.results (BulkScannerAgent.agent failingPool))
  ∧ ScannerQueries.getPagesForClaudeAnalysis
      (BulkScannerAgent.agent failingPool) = [].
Proof.
  apply (@scan_with_no_page_loading_counts_every_page_critical samplePlatform
           failingBrowser (optionsWithWorkers 2) twiceTheSameUrl _
           (BulkScannerAgent.agent failingPool)).
  - intros w Hw. vm_compute in Hw. injection Hw as <-. lia.
  - intros url index attempt.
    exists "net::ERR_CONNECTION_TIMED_OUT". reflexivity.
  - apply (@BulkScannerAgent.scanPages_resolved samplePlatform failingBrowser
             _ twiceTheSameUrl failingPool).
    + reflexivity.
    + apply runPool_reachable.
    + vm_compute. repeat constructor.
Defined.

(** ** The pages handed to the Claude analysis *)

(** A browser in which the first page loads with a colour-contrast
    finding, the second with no violation and six incomplete findings, and
    no other page loads. *)
Definition mixedBrowser : Browser := {|
  launch := JS.Return ();
  attemptOutcome := fun _ index _ =>
    match index with
    | 0 =>
        Analysed
          {| AxeResults.violations := [sampleViolation "color-contrast" serious];
             AxeResults.passes := [];
             AxeResults.incomplete := [];
             AxeResults.inapplicable := [] |}
          "2024-01-01T00:00:05.000Z" 4200
    | 1 =>
        Analysed
          {| AxeResults.violations := [];
             AxeResults.passes := [];
             AxeResults.incomplete :=
               replicate 6 (sampleViolation "duplicate-id" moderate);
             AxeResults.inapplicable := [] |}
          "2024-01-01T00:00:09.000Z" 3900
    | _ => Failed "net::ERR_CONNECTION_TIMED_OUT"
    end
|}.

Definition threeUrls : list string :=
  ["https://example.com/a"; "https://example.com/b"; "https://example.com/c"].

Definition mixedPool : BulkScannerAgent.Pool :=
  @runPool samplePlatform mixedBrowser 30
    (BulkScannerAgent.startWorkers
       (BulkScannerAgent.setTotal
          (BulkScannerAgent.new (optionsWithWorkers 2)) (length threeUrls))
       (BulkScannerAgent.makeTasks threeUrls)).

Section HandedOver.
Context `{Platform} `{Browser}.
Import BulkScannerAgent.

(** What a worker stores: the URL of the task, which is the URL of the
    result, and the flag [needsHumanAnalysis] gives the result. *)
Definition storedByWorker (entry : WorkerResult.t) : Prop :=
  WorkerResult.url entry = PageScanResult.url (WorkerResult.result entry)
  ∧ WorkerResult.needsClaudeAnalysis entry
    = needsHumanAnalysis (WorkerResult.result entry).

Lemma scanAttempts_url (this : t) url index remaining attempt lastError :
  PageScanResult.url (scanAttempts this url index remaining attempt lastError).1
  = url.
Proof.
  revert attempt lastError.
  induction remaining as [|remaining IH]; intros attempt lastError;
    [reflexivity|].
  cbn [scanAttempts].
  destruct (attemptOutcome url index attempt) as [axe ts dur|message];
    cbn [performScan]; [reflexivity|].
  specialize (IH (attempt + 1)%Z (Some message)).
  destruct (scanAttempts this url index remaining (attempt + 1)
              (Some message)) as [result later].
  exact IH.
Qed.

Lemma entryOf_storedByWorker (this : t) (task : WorkerTask.t) :
  storedByWorker (entryOf this task).
Proof.
  split; [|reflexivity]. cbn. unfold scanSinglePage.
  rewrite scanAttempts_url. reflexivity.
Qed.

Lemma categorize_entries_loop (entries : list WorkerResult.t)
  (acc : DecisionResult.t) :
  foldl (fun acc entry =>
           DecisionAgent.pushByCategory (categoryOf entry)
             (WorkerResult.result entry) acc) acc entries
  = {| DecisionResult.passed :=
         DecisionResult.passed acc
         ++ map WorkerResult.result
              (List.filter (fun e => Category_eqb (categoryOf e) PASSED)
                 entries);
       DecisionResult.minorIssues :=
         DecisionResult.minorIssues acc
         ++ map WorkerResult.result
              (List.filter (fun e => Category_eqb (categoryOf e) MINOR_ISSUES)
                 entries);
       DecisionResult.claudeNeeded :=
         DecisionResult.claudeNeeded acc
         ++ map WorkerResult.result
              (List.filter (fun e => Category_eqb (categoryOf e) CLAUDE_NEEDED)
                 entries);
       DecisionResult.critical :=
         DecisionResult.critical acc
         ++ map WorkerResult.result
              (List.filter (fun e => Category_eqb (categoryOf e) CRITICAL)
                 entries) |}.
Proof.
  revert acc. induction entries as [|entry entries IH]; intros acc.
  - destruct acc. cbn. rewrite !app_nil_r. reflexivity.
  - cbn [foldl List.filter]. rewrite IH.
    destruct (categoryOf entry); cbn; rewrite <- ?app_assoc; reflexivity.
Qed.

Lemma needsHumanAnalysis_no_violation (result : PageScanResult.t) :
  JS.truthy (PageScanResult.error result) = false →
  PageScanResult.violations result = [] →
  needsHumanAnalysis result
  = (SCAN_CONFIG.decisionThresholds.incompleteResultsLimit
     <? length (PageScanResult.incomplete result)).
Proof.
  intros Herr Hnone. unfold needsHumanAnalysis. rewrite Herr, Hnone.
  cbn [List.filter length existsb].
  destruct (SCAN_CONFIG.decisionThresholds.incompleteResultsLimit
            <? length (PageScanResult.incomplete result)); reflexivity.
Qed.

Lemma handed_over_with_violations (entries : list WorkerResult.t) :
  Forall storedByWorker entries →
  map WorkerResult.url
    (List.filter (fun r =>
       negb (length (PageScanResult.violations (WorkerResult.result r)) =? 0))
       (List.filter (fun r =>
          WorkerResult.needsClaudeAnalysis r
          && negb (JS.truthy (PageScanResult.error (WorkerResult.result r))))
          entries))
  = map PageScanResult.url
      (map WorkerResult.result
         (List.filter (fun e => Category_eqb (categoryOf e) CLAUDE_NEEDED)
            entries)).
Proof.
  induction 1 as [|entry entries [Hurl Hflag] _ IH]; [reflexivity|].
  cbn [List.filter]. unfold categoryOf at 1.
  destruct (JS.truthy (PageScanResult.error (WorkerResult.result entry)));
    [rewrite andb_false_r; exact IH|].
  rewrite andb_true_r.
  destruct (length (PageScanResult.violations (WorkerResult.result entry)) =? 0)
    eqn:Hnone.
  - destruct (WorkerResult.needsClaudeAnalysis entry); cbn [List.filter];
      rewrite ?Hnone; exact IH.
  - destruct (WorkerResult.needsClaudeAnalysis entry); cbn [List.filter].
    + rewrite Hnone. cbn. rewrite IH, Hurl. reflexivity.
    + destruct (existsb _ _); exact IH.
Qed.

Lemma handed_over_without_violation (entries : list WorkerResult.t) :
  Forall storedByWorker entries →
  map WorkerResult.url
    (List.filter (fun r =>
       length (PageScanResult.violations (WorkerResult.result r)) =? 0)
       (List.filter (fun r =>
          WorkerResult.needsClaudeAnalysis r
          && negb (JS.truthy (PageScanResult.error (WorkerResult.result r))))
          entries))
  = map PageScanResult.url
      (List.filter (fun r =>
         SCAN_CONFIG.decisionThresholds.incompleteResultsLimit
         <? length (PageScanResult.incomplete r))
         (map WorkerResult.result
            (List.filter (fun e => Category_eqb (categoryOf e) PASSED)
               entries))).
Proof.
  induction 1 as [|entry entries [Hurl Hflag] _ IH]; [reflexivity|].
  cbn [List.filter]. unfold categoryOf at 1.
  destruct (JS.truthy (PageScanResult.error (WorkerResult.result entry)))
    eqn:Herr; [rewrite andb_false_r; exact IH|].
  rewrite andb_true_r.
  destruct (length (PageScanResult.violations (WorkerResult.result entry)) =? 0)
    eqn:Hnone.
  - pose proof Hnone as Hnil. apply Nat.eqb_eq, nil_length_inv in Hnil.
    pose proof (needsHumanAnalysis_no_violation _ Herr Hnil) as Hneeds.
    rewrite <- Hflag in Hneeds.
    change (Category_eqb PASSED PASSED) with true. cbv iota.
    cbn [map List.filter]. rewrite <- Hneeds.
    destruct (WorkerResult.needsClaudeAnalysis entry); cbn [List.filter];
      rewrite ?Hnone; [|exact IH].
    cbn. rewrite IH, Hurl. reflexivity.
  - destruct (WorkerResult.needsClaudeAnalysis entry); cbn [List.filter].
    + rewrite Hnone. exact IH.
    + destruct (existsb _ _); exact IH.
Qed.

Lemma filter_split_length {A} (f : A → bool) (l : list A) :
  length l
  = length (List.filter (fun x => negb (f x)) l) + length (List.filter f l).
Proof.
  induction l as [|x l IH]; [reflexivity|].
  cbn [List.filter]. destruct (f x); cbn; lia.
Qed.

Lemma filter_map_comm {A B} (f : B → bool) (g : A → B) (l : list A) :
  List.filter f (map g l) = map g (List.filter (fun x => f (g x)) l).
Proof.
  induction l as [|x l IH]; [reflexivity|].
  cbn. destruct (f (g x)); cbn; rewrite IH; reflexivity.
Qed.

(** X10. After a scan, the pages [getPagesForClaudeAnalysis] hands over
    that have a violation are the results [categorizeResults] files under
    [claudeNeeded], in the same order; those it hands over without any
    violation are the results filed under [passed] that have more
    incomplete findings than the limit. So the number of pages handed over
    is the [claudeAnalysisNeeded] of the summary plus the number of those
    passed pages. *)
Theorem pages_handed_to_claude_analysis
  (options : BulkScanOptions.t) (urls : list string) summary agent' :
  scanPages (new options) urls (JS.Return (summary, agent')) →
  let handed := ScannerQueries.getPagesForClaudeAnalysis agent' in
  let categorized := categorizeResults agent' in
  let passedOverLimit :=
    List.filter (fun r =>
      SCAN_CONFIG.decisionThresholds.incompleteResultsLimit
      <? length (PageScanResult.incomplete r))
      (DecisionResult.passed categorized) in
  map PageData.url
    (List.filter (fun d => negb (length (PageData.violations d) =? 0)) handed)
  = map PageScanResult.url (DecisionResult.claudeNeeded categorized)
  ∧ map PageData.url
      (List.filter (fun d => length (PageData.violations d) =? 0) handed)
    = map PageScanResult.url passedOverLimit
  ∧ length handed
    = BulkScanSummary.claudeAnalysisNeeded summary + length passedOverLimit.
Proof.
  intros Hscan.
  inversion Hscan as [|p Hlaunch Hrun Hdone]; subst.
  assert (Hstored : Forall storedByWorker (results (agent p))).
  { apply (scan_entries_invariant (fun _ => True) _ options urls p);
      [|apply Forall_true; auto|exact Hrun].
    intros this task _. apply entryOf_storedByWorker. }
  cbv zeta.
  assert (Hwith :
    map PageData.url
      (List.filter (fun d => negb (length (PageData.violations d) =? 0))
         (ScannerQueries.getPagesForClaudeAnalysis (agent p)))
    = map PageScanResult.url
        (DecisionResult.claudeNeeded (categorizeResults (agent p)))).
  { unfold ScannerQueries.getPagesForClaudeAnalysis, categorizeResults.
    rewrite categorize_entries_loop, filter_map_comm, map_map.
    cbn [PageData.url PageData.violations DecisionResult.claudeNeeded
         DecisionAgent.emptyDecisionResult app].
    apply handed_over_with_violations, Hstored. }
  assert (Hwithout :
    map PageData.url
      (List.filter (fun d => length (PageData.violations d) =? 0)
         (ScannerQueries.getPagesForClaudeAnalysis (agent p)))
    = map PageScanResult.url
        (List.filter (fun r =>
           SCAN_CONFIG.decisionThresholds.incompleteResultsLimit
           <? length (PageScanResult.incomplete r))
           (DecisionResult.passed (categorizeResults (agent p))))).
  { unfold ScannerQueries.getPagesForClaudeAnalysis, categorizeResults.
    rewrite categorize_entries_loop, filter_map_comm, map_map.
    cbn [PageData.url PageData.violations DecisionResult.passed
         DecisionAgent.emptyDecisionResult app].
    apply handed_over_without_violation, Hstored. }
  split; [exact Hwith|]. split; [exact Hwithout|].
  rewrite (filter_split_length
             (fun d => length (PageData.violations d) =? 0)
             (ScannerQueries.getPagesForClaudeAnalysis (agent p))).
  apply (f_equal (@length string)) in Hwith, Hwithout.
  rewrite !length_map in Hwith, Hwithout.
  rewrite Hwith, Hwithout. reflexivity.
Qed.

End HandedOver.

Lemma pages_handed_to_claude_analysis_witness :
  let handed :=
    ScannerQueries.getPagesForClaudeAnalysis
      (BulkScannerAgent.agent mixedPool) in
  let categorized :=
    BulkScannerAgent.categorizeResults (BulkScannerAgent.agent mixedPool) in
  let passedOverLimit :=
    List.filter (fun r =>
      SCAN_CONFIG.decisionThresholds.incompleteResultsLimit
      <? length (PageScanResult.incomplete r))
      (DecisionResult.passed categorized) in
  map PageData.url
    (List.filter (fun d => negb (length (PageData.violations d) =? 0)) handed)
  = map PageScanResult.url (DecisionResult.claudeNeeded categorized)
  ∧ map PageData.url
      (List.filter (fun d => length (PageData.violations d) =? 0) handed)
    = map PageScanResult.url passedOverLimit
  ∧ length handed
    = BulkScanSummary.claudeAnalysisNeeded
        (BulkScannerAgent.generateSummary (BulkScannerAgent.agent mixedPool)
           (length threeUrls))
      + length passedOverLimit.
Proof.
  apply (@pages_handed_to_claude_analysis samplePlatform mixedBrowser
           (optionsWithWorkers 2) threeUrls _
           (BulkScannerAgent.agent mixedPool)).
  apply (@BulkScannerAgent.scanPages_resolved samplePlatform mixedBrowser
           _ threeUrls mixedPool).
  - reflexivity.
  - apply runPool_reachable.
  - vm_compute. repeat constructor.
Defined.

(** In that scan two pages are handed over, one of them filed under
    [passed], for a summary that counts one page as needing the Claude
    analysis. *)
Example mixed_scan_hands_over_a_passed_page :
  map PageData.url
    (ScannerQueries.getPagesForClaudeAnalysis
       (BulkScannerAgent.agent mixedPool))
  = ["https://example.com/a"; "https://example.com/b"]
  ∧ map PageScanResult.url
      (DecisionResult.passed
         (BulkScannerAgent.categorizeResults
            (BulkScannerAgent.agent mixedPool)))
    = ["https://example.com/b"]
  ∧ BulkScannerAgent.generateSummary (BulkScannerAgent.agent mixedPool)
      (length threeUrls)
    = {| BulkScanSummary.totalPages := 3;
         BulkScanSummary.passedPages := 1;
         BulkScanSummary.minorIssues := 0;
         BulkScanSummary.claudeAnalysisNeeded := 1;
         BulkScanSummary.criticalIssues := 1;
         BulkScanSummary.errors := 0 |}.
Proof. repeat split; reflexivity. Qed.

(** * The enhanced orchestrator ([EnhancedAccessibilityOrchestrator])

    Phases 2 to 4 of [runWorkflow]: the decisions made on the scan
    results, the requests built for the Claude analysis and the
    categorization handed to the report generator. The messages sent
    through the communication hub, the metrics and the files written are
    outside the model. *)

Module CategorizedDecisions.
Record t := mk {
  passed : list EnhancedPageDecision.t;
  minorIssues : list EnhancedPageDecision.t;
  claudeNeeded : list EnhancedPageDecision.t;
  critical : list EnhancedPageDecision.t
}.
End CategorizedDecisions.

Module DecisionData.
Record t := mk {
  decisions : list EnhancedPageDecision.t;
  categorized : CategorizedDecisions.t;
  scanResults : list PageScanResult.t
}.
End DecisionData.

Module AnalysisRequest.
Record t := mk {
  url : string;
  violations : list ViolationResult.t;
  priority : Priority;
  pageContext : PageContext.t;
  decisionReasoning : DecisionReasoning.t;
  uncertaintyFactors : list string
}.
End AnalysisRequest.

Module EnhancedAccessibilityOrchestrator.

(** The orchestrator: its decision agent and [metrics.recommendations]. *)
Record t := mk {
  decisionAgent : EnhancedDecisionAgentFixed.t;
  recommendations : list string
}.

(** [allResults] of [performIntelligentScanning]. *)
Definition allResults (categorized : DecisionResult.t)
  : list PageScanResult.t :=
  DecisionResult.passed categorized ++ DecisionResult.minorIssues categorized
  ++ DecisionResult.claudeNeeded categorized
  ++ DecisionResult.critical categorized.

Definition hasCategory (c : Category) (d : EnhancedPageDecision.t) : bool :=
  EnhancedDecisionAgentFixed.Category_eqb (EnhancedPageDecision.category d) c.

Section WithPlatform.
Context `{Platform}.

(** [scanResults.map(result => this.decisionAgent.makeDecisionWithReasoning(result))]:
    the results are decided in order by the one agent, whose memory each
    decision updates; the first decision that throws ends the loop. *)
Fixpoint decideAll (agent : EnhancedDecisionAgentFixed.t)
  (scanResults : list PageScanResult.t)
  : JS.Completion (list EnhancedPageDecision.t * EnhancedDecisionAgentFixed.t) :=
  match scanResults with
  | [] => mret ([], agent)
  | result :: rest =>
      made ← EnhancedDecisionAgentFixed.makeDecisionWithReasoning agent result;
      others ← decideAll made.2 rest;
      mret (made.1 :: others.1, others.2)
  end.

Definition makeEnhancedDecisions (this : t)
  (scanResults : list PageScanResult.t) : JS.Completion (DecisionData.t * t) :=
  made ← decideAll (decisionAgent this) scanResults;
  let enhancedDecisions := made.1 in
  let categorized :=
    {| CategorizedDecisions.passed :=
         List.filter (hasCategory PASSED) enhancedDecisions;
       CategorizedDecisions.minorIssues :=
         List.filter (hasCategory MINOR_ISSUES) enhancedDecisions;
       CategorizedDecisions.claudeNeeded :=
         List.filter (hasCategory CLAUDE_NEEDED) enhancedDecisions;
       CategorizedDecisions.critical :=
         List.filter (hasCategory CRITICAL) enhancedDecisions |} in
  let lowConfidence :=
    List.filter (fun d =>
      PrimFloat.ltb
        (DecisionReasoning.confidence (EnhancedPageDecision.reasoning d)) 0.6)
      enhancedDecisions in
  let recommendations :=
    if 0 <? length lowConfidence
    then recommendations this ++
         [ "Review decision criteria - " +:+ JS.toString (length lowConfidence)
             +:+ " pages had low confidence scores" ]
    else recommendations this in
  mret ({| DecisionData.decisions := enhancedDecisions;
           DecisionData.categorized := categorized;
           DecisionData.scanResults := scanResults |},
        {| decisionAgent := made.2; recommendations := recommendations |}).

End WithPlatform.

(** [decisions.find(d => d.url === r.url && d.category === category)] is
    not [undefined]. *)
Definition decidedAs (decisions : list EnhancedPageDecision.t)
  (category : Category) (r : PageScanResult.t) : bool :=
  existsb (fun d =>
    String.eqb (EnhancedPageDecision.url d) (PageScanResult.url r)
    && hasCategory category d) decisions.

(** [standardCategorized] of [generateEnhancedReports]. *)
Definition standardCategorized (decisionData : DecisionData.t)
  : DecisionResult.t :=
  let decisions := DecisionData.decisions decisionData in
  let scanResults := DecisionData.scanResults decisionData in
  {| DecisionResult.passed :=
       List.filter (decidedAs decisions PASSED) scanResults;
     DecisionResult.minorIssues :=
       List.filter (decidedAs decisions MINOR_ISSUES) scanResults;
     DecisionResult.claudeNeeded :=
       List.filter (decidedAs decisions CLAUDE_NEEDED) scanResults;
     DecisionResult.critical :=
       List.filter (decidedAs decisions CRITICAL) scanResults |}.

(** [scanResults.find(r => r.url === url)]. *)
Definition findByUrl (scanResults : list PageScanResult.t) (url : string)
  : option PageScanResult.t :=
  List.find (fun r => String.eqb (PageScanResult.url r) url) scanResults.

(** [analysisRequests] of [performAdaptiveAnalysis]: one request for each
    decision under [claudeNeeded], on the violations of the first scan
    result with the URL of the decision. *)
Definition analysisRequests (decisionData : DecisionData.t)
  : list AnalysisRequest.t :=
  map (fun decision =>
         let scanResult :=
           findByUrl (DecisionData.scanResults decisionData)
             (EnhancedPageDecision.url decision) in
         let violations :=
           default [] (PageScanResult.violations <$> scanResult) in
         {| AnalysisRequest.url := EnhancedPageDecision.url decision;
            AnalysisRequest.violations := violations;
            AnalysisRequest.priority := EnhancedPageDecision.priority decision;
            AnalysisRequest.pageContext :=
              {| PageContext.title := "";
                 PageContext.description :=
                   DecisionReasoning.contextualAnalysis
                     (EnhancedPageDecision.reasoning decision);
                 PageContext.hasForm :=
                   ScannerQueries.someNodeHtml
                     (fun html => JS.includes html "<form") violations;
                 PageContext.hasNavigation :=
                   ScannerQueries.someNodeHtml
                     (fun html => JS.includes html "nav") violations;
                 PageContext.hasModal :=
                   ScannerQueries.someNodeHtml
                     (fun html =>
                        JS.includes html "modal" || JS.includes html "dialog")
                     violations |};
            AnalysisRequest.decisionReasoning :=
              EnhancedPageDecision.reasoning decision;
            AnalysisRequest.uncertaintyFactors :=
              EnhancedPageDecision.uncertaintyFactors decision |})
    (CategorizedDecisions.claudeNeeded (DecisionData.categorized decisionData)).

(** The first opportunity of [identifyLearningOpportunities]: the decisions
    with more than two uncertainty factors. *)
Definition uncertainDecisions (decisions : list EnhancedPageDecision.t)
  : list EnhancedPageDecision.t :=
  List.filter (fun d => 2 <? length (EnhancedPageDecision.uncertaintyFactors d))
    decisions.

End EnhancedAccessibilityOrchestrator.

(** The list of a categorization that holds the results of [category]. *)
Definition filedUnder (category : Category) (categorized : DecisionResult.t)
  : list PageScanResult.t :=
  match category with
  | PASSED => DecisionResult.passed categorized
  | MINOR_ISSUES => DecisionResult.minorIssues categorized
  | CLAUDE_NEEDED => DecisionResult.claudeNeeded categorized
  | CRITICAL => DecisionResult.critical categorized
  end.

(** A result the agent can decide: it carries an error, or its URL can be
    parsed. *)
Definition canBeDecided `{Platform} (r : PageScanResult.t) : Prop :=
  JS.truthy (PageScanResult.error r) = true
  ∨ is_Some (URL_hostname (PageScanResult.url r)).

Section Orchestrator.
Context `{Platform}.
Import EnhancedDecisionAgentFixed EnhancedAccessibilityOrchestrator.

Lemma makeDecisionWithReasoning_returns (this : EnhancedDecisionAgentFixed.t)
  (r : PageScanResult.t) :
  canBeDecided r → ∃ d this', makeDecisionWithReasoning this r = JS.Return (d, this').
Proof.
  intros Hdec. unfold makeDecisionWithReasoning.
  destruct (JS.truthy (PageScanResult.error r)) eqn:Herr; [cbn; eauto|].
  destruct Hdec as [Habs | [domain Hd]]; [congruence|].
  destruct (criticalThreshold this <=? _);
    [|destruct (ClaudeNeed.needed _); [|destruct (_ =? 0)]];
    match goal with
    | |- context [createDecision ?a ?u ?c ?r ?f ?v ?cv ?xv ?i] =>
        destruct (createDecision_returns a u c r f v cv xv i domain Hd)
          as (d & this' & -> & _)
    end; eauto.
Qed.

Lemma makeDecisionWithReasoning_throws (this : EnhancedDecisionAgentFixed.t)
  (r : PageScanResult.t) :
  ¬ canBeDecided r →
  makeDecisionWithReasoning this r = JS.Throw "TypeError: Invalid URL".
Proof.
  intros Hdec. unfold makeDecisionWithReasoning.
  destruct (JS.truthy (PageScanResult.error r)) eqn:Herr;
    [exfalso; apply Hdec; left; exact Herr|].
  assert (Hnone : URL_hostname (PageScanResult.url r) = None).
  { destruct (URL_hostname (PageScanResult.url r)) as [domain|] eqn:Hd;
      [|reflexivity].
    exfalso. apply Hdec. right. rewrite Hd. eauto. }
  destruct (criticalThreshold this <=? _);
    [|destruct (ClaudeNeed.needed _); [|destruct (_ =? 0)]];
    apply createDecision_throws, Hnone.
Qed.

Lemma canBeDecided_dec (r : PageScanResult.t) : canBeDecided r ∨ ¬ canBeDecided r.
Proof.
  unfold canBeDecided.
  destruct (JS.truthy (PageScanResult.error r)); [auto|].
  destruct (URL_hostname (PageScanResult.url r)) as [domain|]; [eauto|].
  right. intros [Habs | [domain Habs]]; discriminate.
Qed.

(** What [decideAll] returns: a decision for each result, in order, each
    made by the agent in the state the decisions before left it in. *)
Lemma decideAll_inv (agent : EnhancedDecisionAgentFixed.t)
  (scanResults : list PageScanResult.t) decisions agent' :
  decideAll agent scanResults = JS.Return (decisions, agent') →
  Forall2 (fun r d =>
             ∃ before after,
               makeDecisionWithReasoning before r = JS.Return (d, after))
    scanResults decisions.
Proof.
  revert agent decisions agent'.
  induction scanResults as [|r rest IH]; intros agent decisions agent'.
  - cbn. intros [= <- <-]. constructor.
  - cbn [decideAll].
    destruct (makeDecisionWithReasoning agent r) as [[d agent1]|e] eqn:Hd;
      [|discriminate].
    change (mbind ?f (JS.Return ?x)) with (f x). cbn [fst snd].
    destruct (decideAll agent1 rest) as [[ds agent2]|e] eqn:Hrest;
      [|discriminate].
    change (mbind ?f (JS.Return ?x)) with (f x). cbn [fst snd].
    intros [= <- <-]. constructor; [eauto|]. eapply IH, Hrest.
Qed.

Lemma decideAll_returns (agent : EnhancedDecisionAgentFixed.t)
  (scanResults : list PageScanResult.t) :
  Forall canBeDecided scanResults →
  ∃ decisions agent', decideAll agent scanResults = JS.Return (decisions, agent').
Proof.
  intros Hall. revert agent.
  induction Hall as [|r rest Hr _ IH]; intros agent; [cbn; eauto|].
  cbn [decideAll].
  destruct (makeDecisionWithReasoning_returns agent r Hr) as (d & agent1 & ->).
  change (mbind ?f (JS.Return ?x)) with (f x). cbn [fst snd].
  destruct (IH agent1) as (ds & agent2 & ->).
  change (mbind ?f (JS.Return ?x)) with (f x). cbn [fst snd]. eauto.
Qed.

Lemma decideAll_throws (agent : EnhancedDecisionAgentFixed.t)
  (scanResults : list PageScanResult.t) :
  ¬ Forall canBeDecided scanResults →
  decideAll agent scanResults = JS.Throw "TypeError: Invalid URL".
Proof.
  revert agent. induction scanResults as [|r rest IH]; intros agent Hnot.
  - exfalso. apply Hnot. constructor.
  - cbn [decideAll]. destruct (canBeDecided_dec r) as [Hr | Hr].
    + destruct (makeDecisionWithReasoning_returns agent r Hr)
        as (d & agent1 & ->).
      change (mbind ?f (JS.Return ?x)) with (f x). cbn [fst snd].
      rewrite IH; [reflexivity|].
      intros Hrest. apply Hnot. constructor; assumption.
    + rewrite (makeDecisionWithReasoning_throws agent r Hr). reflexivity.
Qed.

End Orchestrator.

Section OrchestratorProperties.
Context `{Platform}.
Import EnhancedDecisionAgentFixed EnhancedAccessibilityOrchestrator.

(** What holds of every decision the agent returns on a result. *)
Lemma decision_facts (this : EnhancedDecisionAgentFixed.t)
  (r : PageScanResult.t) d this' :
  makeDecisionWithReasoning this r = JS.Return (d, this') →
  EnhancedPageDecision.url d = PageScanResult.url r
  ∧ PrimFloat.ltb
      (DecisionReasoning.confidence (EnhancedPageDecision.reasoning d)) 0.6
    = false
  ∧ length (EnhancedPageDecision.uncertaintyFactors d) ≤ 1
  ∧ canBeDecided r.
Proof.
  intros Heq.
  assert (Hdec : canBeDecided r).
  { destruct (canBeDecided_dec r) as [Hr | Hr]; [exact Hr|].
    rewrite (makeDecisionWithReasoning_throws this r Hr) in Heq.
    discriminate. }
  destruct (makeDecisionWithReasoning_inv _ _ _ _ Heq)
    as [(e & _ & _ & -> & _) | (_ & domain & _ & -> & _)].
  - cbn. repeat split; [lia | exact Hdec].
  - cbn [decisionRecord EnhancedPageDecision.url EnhancedPageDecision.reasoning
         DecisionReasoning.confidence EnhancedPageDecision.uncertaintyFactors].
    split; [reflexivity|]. split; [|split; [|exact Hdec]].
    + destruct (branchConfidence_levels this r)
        as [-> | [-> | [-> | [-> | [-> | ->]]]]]; reflexivity.
    + destruct (PrimFloat.ltb _ _); simpl; lia.
Qed.

Lemma filter_none {A} (f : A → bool) (l : list A) :
  Forall (fun x => f x = false) l → List.filter f l = [].
Proof.
  induction 1 as [|x l Hx _ IH]; [reflexivity|].
  cbn. rewrite Hx. exact IH.
Qed.

Lemma filter_by_category_partition {A} (c : A → Category) (l : list A) :
  List.filter (fun x => Category_eqb (c x) PASSED) l
  ++ List.filter (fun x => Category_eqb (c x) MINOR_ISSUES) l
  ++ List.filter (fun x => Category_eqb (c x) CLAUDE_NEEDED) l
  ++ List.filter (fun x => Category_eqb (c x) CRITICAL) l ≡ₚ l.
Proof.
  induction l as [|x l IH]; [reflexivity|].
  cbn [List.filter]. destruct (c x); cbn.
  - constructor. exact IH.
  - rewrite <- Permutation_middle. constructor. exact IH.
  - rewrite app_assoc, <- Permutation_middle, <- app_assoc.
    constructor. exact IH.
  - rewrite !app_assoc, <- Permutation_middle, <- !app_assoc.
    constructor. exact IH.
Qed.

(** X11. When [makeEnhancedDecisions] returns, its decisions are on the
    URLs of the scan results, in their order; every result carried an
    error or had a URL that can be parsed; the four lists of the
    categorization hold every decision once; no decision counts as of low
    confidence, so that no recommendation is added; and no decision has
    the more than two uncertainty factors under which
    [identifyLearningOpportunities] would report it. *)
Theorem decisions_follow_the_scan_results
  (this : EnhancedAccessibilityOrchestrator.t)
  (scanResults : list PageScanResult.t) decisionData this' :
  makeEnhancedDecisions this scanResults = JS.Return (decisionData, this') →
  let categorized := DecisionData.categorized decisionData in
  map EnhancedPageDecision.url (DecisionData.decisions decisionData)
  = map PageScanResult.url scanResults
  ∧ DecisionData.scanResults decisionData = scanResults
  ∧ Forall canBeDecided scanResults
  ∧ CategorizedDecisions.passed categorized
    ++ CategorizedDecisions.minorIssues categorized
    ++ CategorizedDecisions.claudeNeeded categorized
    ++ CategorizedDecisions.critical categorized
    ≡ₚ DecisionData.decisions decisionData
  ∧ recommendations this' = recommendations this
  ∧ uncertainDecisions (DecisionData.decisions decisionData) = [].
Proof.
  unfold makeEnhancedDecisions.
  destruct (decideAll (decisionAgent this) scanResults)
    as [[decisions agent']|e] eqn:Hall; [|discriminate].
  change (mbind ?f (JS.Return ?x)) with (f x). cbn [fst snd].
  intros [= <- <-]. cbv zeta.
  cbn [DecisionData.decisions DecisionData.categorized DecisionData.scanResults
       CategorizedDecisions.passed CategorizedDecisions.minorIssues
       CategorizedDecisions.claudeNeeded CategorizedDecisions.critical
       recommendations].
  pose proof (decideAll_inv _ _ _ _ Hall) as Heach.
  assert (Hfacts :
    Forall2 (fun r d =>
      EnhancedPageDecision.url d = PageScanResult.url r
      ∧ PrimFloat.ltb
          (DecisionReasoning.confidence (EnhancedPageDecision.reasoning d)) 0.6
        = false
      ∧ length (EnhancedPageDecision.uncertaintyFactors d) ≤ 1
      ∧ canBeDecided r) scanResults decisions).
  { eapply Forall2_impl; [exact Heach|].
    intros r d (before & after & Hd). eapply decision_facts, Hd. }
  clear Heach Hall.
  split; [|split; [reflexivity|split; [|split; [|split]]]].
  - induction Hfacts as [|r d rs ds (Hurl & _) _ IH]; [reflexivity|].
    cbn. rewrite Hurl, IH. reflexivity.
  - induction Hfacts as [|r d rs ds (_ & _ & _ & Hdec) _ IH];
      constructor; assumption.
  - apply (filter_by_category_partition EnhancedPageDecision.category).
  - rewrite filter_none; [reflexivity|].
    induction Hfacts as [|r d rs ds (_ & Hconf & _) _ IH];
      constructor; assumption.
  - apply filter_none.
    induction Hfacts as [|r d rs ds (_ & _ & Hlen & _) _ IH];
      constructor; [|assumption].
    apply Nat.ltb_ge. lia.
Qed.

(** X12. [makeEnhancedDecisions] returns when every scan result carries an
    error or has a URL that can be parsed, and otherwise throws the
    [TypeError] of [new URL], whatever the other results are. *)
Theorem decisions_stop_at_a_url_that_cannot_be_parsed
  (this : EnhancedAccessibilityOrchestrator.t)
  (scanResults : list PageScanResult.t) :
  (Forall canBeDecided scanResults →
   ∃ decisionData this',
     makeEnhancedDecisions this scanResults = JS.Return (decisionData, this'))
  ∧ (¬ Forall canBeDecided scanResults →
     makeEnhancedDecisions this scanResults = JS.Throw "TypeError: Invalid URL").
Proof.
  unfold makeEnhancedDecisions. split; intros Hall.
  - destruct (decideAll_returns (decisionAgent this) scanResults Hall)
      as (decisions & agent' & ->).
    change (mbind ?f (JS.Return ?x)) with (f x). eauto.
  - rewrite (decideAll_throws (decisionAgent this) scanResults Hall).
    reflexivity.
Qed.

End OrchestratorProperties.

Section Reports.
Context `{Platform}.
Import EnhancedDecisionAgentFixed EnhancedAccessibilityOrchestrator.

Lemma decideAll_urls (agent : EnhancedDecisionAgentFixed.t)
  (scanResults : list PageScanResult.t) decisions agent' :
  decideAll agent scanResults = JS.Return (decisions, agent') →
  Forall2 (fun r d => EnhancedPageDecision.url d = PageScanResult.url r)
    scanResults decisions.
Proof.
  intros Hall. eapply Forall2_impl; [exact (decideAll_inv _ _ _ _ Hall)|].
  intros r d (before & after & Hd). eapply decision_facts, Hd.
Qed.

Lemma Category_eqb_eq (a b : Category) : Category_eqb a b = true ↔ a = b.
Proof. destruct a, b; cbn; split; congruence. Qed.

Lemma decidedAs_absent (decisions : list EnhancedPageDecision.t) c r :
  PageScanResult.url r ∉ map EnhancedPageDecision.url decisions →
  decidedAs decisions c r = false.
Proof.
  induction decisions as [|d ds IH]; [reflexivity|].
  cbn. intros Hnot. apply not_elem_of_cons in Hnot as [Hne Hnot].
  destruct (String.eqb_spec (EnhancedPageDecision.url d) (PageScanResult.url r));
    [congruence|].
  cbn. apply IH, Hnot.
Qed.

(** With no URL decided twice, a result is found decided as a category
    exactly when the decision on its URL is of that category. *)
Lemma decidedAs_own (decisions : list EnhancedPageDecision.t) d0 c r :
  NoDup (map EnhancedPageDecision.url decisions) →
  d0 ∈ decisions →
  EnhancedPageDecision.url d0 = PageScanResult.url r →
  decidedAs decisions c r = hasCategory c d0.
Proof.
  intros Hnodup Hin Hurl.
  induction decisions as [|d ds IH]; [inversion Hin|].
  cbn in Hnodup. apply NoDup_cons in Hnodup as [Hfresh Hnodup].
  cbn [decidedAs existsb]. apply elem_of_cons in Hin as [<- | Hin].
  - rewrite Hurl, String.eqb_refl. cbn [andb].
    fold (decidedAs ds c r). rewrite decidedAs_absent; [apply orb_false_r|].
    rewrite <- Hurl. exact Hfresh.
  - destruct (String.eqb_spec (EnhancedPageDecision.url d)
                (PageScanResult.url r)) as [Heq | Hne].
    + exfalso. apply Hfresh. rewrite Heq, <- Hurl.
      apply list_elem_of_fmap_2, Hin.
    + cbn [andb orb]. apply IH; assumption.
Qed.

Lemma filter_four_partition {A} (f : Category → A → bool) (l : list A) :
  Forall (fun x => ∃ c, ∀ c', f c' x = Category_eqb c c') l →
  List.filter (f PASSED) l ++ List.filter (f MINOR_ISSUES) l
  ++ List.filter (f CLAUDE_NEEDED) l ++ List.filter (f CRITICAL) l ≡ₚ l.
Proof.
  induction 1 as [|x l [c Hc] _ IH]; [reflexivity|].
  cbn [List.filter]. rewrite !Hc. destruct c; cbn.
  - constructor. exact IH.
  - rewrite <- Permutation_middle. constructor. exact IH.
  - rewrite app_assoc, <- Permutation_middle, <- app_assoc.
    constructor. exact IH.
  - rewrite !app_assoc, <- Permutation_middle, <- !app_assoc.
    constructor. exact IH.
Qed.

Lemma filedUnder_standardCategorized (decisionData : DecisionData.t) c :
  filedUnder c (standardCategorized decisionData)
  = List.filter (decidedAs (DecisionData.decisions decisionData) c)
      (DecisionData.scanResults decisionData).
Proof. destruct c; reflexivity. Qed.

(** X13. When no two scan results have the same URL, the categorization
    [generateEnhancedReports] hands to the report generator files every
    scan result once, under the category of the decision made on it. *)
Theorem report_files_each_result_under_its_decision
  (this : EnhancedAccessibilityOrchestrator.t)
  (scanResults : list PageScanResult.t) decisionData this' :
  NoDup (map PageScanResult.url scanResults) →
  makeEnhancedDecisions this scanResults = JS.Return (decisionData, this') →
  allOf (standardCategorized decisionData) ≡ₚ scanResults
  ∧ Forall2 (fun r d =>
               ∀ c, r ∈ filedUnder c (standardCategorized decisionData)
                    ↔ EnhancedPageDecision.category d = c)
      scanResults (DecisionData.decisions decisionData).
Proof.
  intros Hnodup. unfold makeEnhancedDecisions.
  destruct (decideAll (decisionAgent this) scanResults)
    as [[decisions agent']|e] eqn:Hall; [|discriminate].
  change (mbind ?f (JS.Return ?x)) with (f x). cbn [fst snd].
  intros [= <- <-].
  pose proof (decideAll_urls _ _ _ _ Hall) as Hurls.
  assert (Hmap :
    map EnhancedPageDecision.url decisions = map PageScanResult.url scanResults).
  { clear Hall Hnodup.
    induction Hurls as [|r d rs ds Hurl _ IH]; [reflexivity|].
    cbn. rewrite Hurl, IH. reflexivity. }
  assert (Hnodup' : NoDup (map EnhancedPageDecision.url decisions))
    by (rewrite Hmap; exact Hnodup).
  assert (Hown : ∀ i r d,
    scanResults !! i = Some r → decisions !! i = Some d →
    ∀ c, decidedAs decisions c r = hasCategory c d).
  { intros i r d Hr Hd c.
    apply (decidedAs_own decisions d c r Hnodup').
    - eapply list_elem_of_lookup_2, Hd.
    - apply Forall2_same_length_lookup in Hurls as [_ Hurls]. eauto. }
  split.
  - unfold allOf, standardCategorized.
    cbn [DecisionResult.passed DecisionResult.minorIssues
         DecisionResult.claudeNeeded DecisionResult.critical
         DecisionData.decisions DecisionData.scanResults].
    apply (filter_four_partition (decidedAs decisions)).
    apply Forall_lookup. intros i r Hr.
    destruct (Forall2_lookup_l _ _ _ _ _ Hurls Hr) as (d & Hd & _).
    exists (EnhancedPageDecision.category d). intros c.
    rewrite (Hown i r d Hr Hd c). reflexivity.
  - apply Forall2_same_length_lookup. split; [eapply Forall2_length, Hurls|].
    intros i r d Hr Hd c.
    rewrite filedUnder_standardCategorized.
    cbn [DecisionData.decisions DecisionData.scanResults].
    rewrite list_elem_of_In, filter_In, (Hown i r d Hr Hd c).
    unfold hasCategory. rewrite Category_eqb_eq, <- list_elem_of_In.
    split; [tauto|]. intros Hc. split; [|exact Hc].
    eapply list_elem_of_lookup_2, Hr.
Qed.

End Reports.

Section Requests.
Context `{Platform}.
Import EnhancedDecisionAgentFixed EnhancedAccessibilityOrchestrator.

Lemma findByUrl_absent (scanResults : list PageScanResult.t) url :
  url ∉ map PageScanResult.url scanResults → findByUrl scanResults url = None.
Proof.
  induction scanResults as [|r rs IH]; [reflexivity|].
  cbn. intros Hnot. apply not_elem_of_cons in Hnot as [Hne Hnot].
  destruct (String.eqb_spec (PageScanResult.url r) url); [congruence|].
  apply IH, Hnot.
Qed.

Lemma findByUrl_own (scanResults : list PageScanResult.t) r :
  NoDup (map PageScanResult.url scanResults) →
  r ∈ scanResults →
  findByUrl scanResults (PageScanResult.url r) = Some r.
Proof.
  intros Hnodup Hin.
  induction scanResults as [|r' rs IH]; [inversion Hin|].
  cbn in Hnodup. apply NoDup_cons in Hnodup as [Hfresh Hnodup].
  cbn [findByUrl find]. apply elem_of_cons in Hin as [<- | Hin].
  - rewrite String.eqb_refl. reflexivity.
  - destruct (String.eqb_spec (PageScanResult.url r') (PageScanResult.url r))
      as [Heq | Hne].
    + exfalso. apply Hfresh. rewrite Heq. apply list_elem_of_fmap_2, Hin.
    + apply IH; assumption.
Qed.

(** X14. When no two scan results have the same URL, the requests built
    for the Claude analysis are, in order, on the URLs and the violations
    of the scan results filed under [claudeNeeded] for the report. *)
Theorem analysis_requests_carry_the_violations_decided_on
  (this : EnhancedAccessibilityOrchestrator.t)
  (scanResults : list PageScanResult.t) decisionData this' :
  NoDup (map PageScanResult.url scanResults) →
  makeEnhancedDecisions this scanResults = JS.Return (decisionData, this') →
  map (fun request =>
         (AnalysisRequest.url request, AnalysisRequest.violations request))
    (analysisRequests decisionData)
  = map (fun r => (PageScanResult.url r, PageScanResult.violations r))
      (DecisionResult.claudeNeeded (standardCategorized decisionData)).
Proof.
  intros Hnodup. unfold makeEnhancedDecisions.
  destruct (decideAll (decisionAgent this) scanResults)
    as [[decisions agent']|e] eqn:Hall; [|discriminate].
  change (mbind ?f (JS.Return ?x)) with (f x). cbn [fst snd].
  intros [= <- <-].
  pose proof (decideAll_urls _ _ _ _ Hall) as Hurls.
  assert (Hmap :
    map EnhancedPageDecision.url decisions = map PageScanResult.url scanResults).
  { clear Hall Hnodup.
    induction Hurls as [|r d rs ds Hurl _ IH]; [reflexivity|].
    cbn. rewrite Hurl, IH. reflexivity. }
  assert (Hnodup' : NoDup (map EnhancedPageDecision.url decisions))
    by (rewrite Hmap; exact Hnodup).
  assert (Hown :
    Forall2 (fun r d =>
      EnhancedPageDecision.url d = PageScanResult.url r
      ∧ decidedAs decisions CLAUDE_NEEDED r = hasCategory CLAUDE_NEEDED d
      ∧ findByUrl scanResults (EnhancedPageDecision.url d) = Some r)
      scanResults decisions).
  { apply Forall2_same_length_lookup. split; [eapply Forall2_length, Hurls|].
    intros i r d Hr Hd.
    assert (Hurl : EnhancedPageDecision.url d = PageScanResult.url r).
    { apply Forall2_same_length_lookup in Hurls as [_ Hurls]. eauto. }
    split; [exact Hurl|]. split.
    - apply (decidedAs_own decisions d CLAUDE_NEEDED r Hnodup');
        [eapply list_elem_of_lookup_2, Hd | exact Hurl].
    - rewrite Hurl. apply findByUrl_own; [exact Hnodup|].
      eapply list_elem_of_lookup_2, Hr. }
  unfold analysisRequests, standardCategorized.
  cbn [DecisionData.decisions DecisionData.categorized DecisionData.scanResults
       CategorizedDecisions.claudeNeeded DecisionResult.claudeNeeded].
  rewrite map_map. cbn [AnalysisRequest.url AnalysisRequest.violations].
  clear Hurls Hmap Hnodup Hnodup' Hall.
  generalize dependent (findByUrl scanResults).
  generalize (decidedAs decisions CLAUDE_NEEDED).
  intros filed find Hown.
  induction Hown as [|r d rs ds (Hurl & Hfiled & Hfind) _ IH]; [reflexivity|].
  cbn [List.filter]. rewrite Hfiled.
  destruct (hasCategory CLAUDE_NEEDED d); [|exact IH].
  cbn [map]. rewrite IH, Hfind, Hurl. reflexivity.
Qed.

End Requests.

(** ** From the URLs of the configuration to the decisions *)

Section ValidatedUrls.
Context `{Platform} `{Browser}.
Import BulkScannerAgent EnhancedAccessibilityOrchestrator.

Lemma validateUrls_valid (urls : list string) :
  Forall (fun url => is_Some (URL_hostname url))
    (ScannerQueries.validateUrls urls).
Proof.
  unfold ScannerQueries.validateUrls.
  induction urls as [|url urls IH]; [constructor|].
  cbn. destruct (URL_hostname url) as [domain|] eqn:Hd; [|exact IH].
  constructor; [rewrite Hd; eauto | exact IH].
Qed.

Lemma allResults_of_scan (this : BulkScannerAgent.t) :
  allResults (categorizeResults this) ≡ₚ map WorkerResult.result (results this).
Proof.
  unfold allResults, categorizeResults. rewrite categorize_entries_loop.
  cbn [DecisionResult.passed DecisionResult.minorIssues
       DecisionResult.claudeNeeded DecisionResult.critical
       DecisionAgent.emptyDecisionResult app].
  rewrite <- !map_app. apply Permutation_map.
  apply (filter_by_category_partition categoryOf).
Qed.

(** X15. The URLs [validateUrls] keeps, once scanned (with a worker count
    that is not negative), give scan results on which
    [makeEnhancedDecisions] returns, with one decision for each URL
    kept. *)
Theorem validated_urls_are_all_decided
  (options : BulkScanOptions.t) (urls : list string) summary agent'
  (this : EnhancedAccessibilityOrchestrator.t) :
  (∀ w, BulkScanOptions.maxWorkers options = Some w → (0 ≤ w)%Z) →
  scanPages (new options) (ScannerQueries.validateUrls urls)
    (JS.Return (summary, agent')) →
  ∃ decisionData this',
    makeEnhancedDecisions this (allResults (categorizeResults agent'))
    = JS.Return (decisionData, this')
    ∧ map EnhancedPageDecision.url (DecisionData.decisions decisionData)
      ≡ₚ ScannerQueries.validateUrls urls.
Proof.
  intros Hvalid Hscan.
  pose proof (workers_of_valid_options options Hvalid) as Hpos.
  pose proof (poolInvariant_start (new options)
                (ScannerQueries.validateUrls urls) eq_refl eq_refl eq_refl)
    as Hstart.
  inversion Hscan as [|p Hlaunch Hrun Hdone]; subst.
  pose proof (poolInvariant_reachable _ _ _ _ Hstart Hrun) as Hinv.
  destruct (poolInvariant_finished _ _ _ Hinv Hpos Hdone)
    as (Hperm & _ & _ & _).
  assert (Hstored :
    Forall (fun entry =>
              storedByWorker entry
              ∧ is_Some (URL_hostname (WorkerResult.url entry)))
      (results (agent p))).
  { apply (scan_entries_invariant (fun url => is_Some (URL_hostname url)) _
             options (ScannerQueries.validateUrls urls) p);
      [|apply validateUrls_valid|exact Hrun].
    intros scanner task Hurl. split; [apply entryOf_storedByWorker|].
    exact Hurl. }
  assert (Hdecided :
    Forall canBeDecided (allResults (categorizeResults (agent p)))).
  { rewrite allResults_of_scan. apply Forall_fmap.
    eapply Forall_impl; [exact Hstored|].
    intros entry [[Hurl _] Hparsed]. right. cbn. rewrite <- Hurl.
    exact Hparsed. }
  unfold makeEnhancedDecisions.
  destruct (decideAll_returns (decisionAgent this) _ Hdecided)
    as (decisions & agent1 & Hall).
  rewrite Hall. change (mbind ?f (JS.Return ?x)) with (f x).
  eexists _, _. split; [reflexivity|].
  cbn [fst DecisionData.decisions].
  pose proof (decideAll_urls _ _ _ _ Hall) as Hurls.
  assert (Hmap :
    map EnhancedPageDecision.url decisions
    = map PageScanResult.url (allResults (categorizeResults (agent p)))).
  { clear Hall Hdecided.
    induction Hurls as [|r d rs ds Hurl _ IH]; [reflexivity|].
    cbn. rewrite Hurl, IH. reflexivity. }
  rewrite Hmap, allResults_of_scan, map_map, <- Hperm.
  match goal with
  | |- ?a ≡ₚ ?b => assert (Heq : a = b); [|rewrite Heq; reflexivity]
  end.
  clear -Hstored.
  induction Hstored as [|entry entries [[Hurl _] _] _ IH]; [reflexivity|].
  cbn. rewrite <- Hurl, IH. reflexivity.
Qed.

End ValidatedUrls.

(** ** Sample runs of the orchestrator *)

Definition sampleOrchestrator : EnhancedAccessibilityOrchestrator.t :=
  {| EnhancedAccessibilityOrchestrator.decisionAgent :=
       EnhancedDecisionAgentFixed.new;
     EnhancedAccessibilityOrchestrator.recommendations := [] |}.

Definition noDecisionData : DecisionData.t :=
  {| DecisionData.decisions := [];
     DecisionData.categorized :=
       {| CategorizedDecisions.passed := [];
          CategorizedDecisions.minorIssues := [];
          CategorizedDecisions.claudeNeeded := [];
          CategorizedDecisions.critical := [] |};
     DecisionData.scanResults := [] |}.

(** What [makeEnhancedDecisions] returns on sample results. *)
Definition decisionsOn (scanResults : list PageScanResult.t)
  : DecisionData.t * EnhancedAccessibilityOrchestrator.t :=
  returned
    (@EnhancedAccessibilityOrchestrator.makeEnhancedDecisions samplePlatform
       sampleOrchestrator scanResults)
    (noDecisionData, sampleOrchestrator).

(** The results of the scan of [mixedPool], as the orchestrator lists
    them. *)
Definition mixedResults : list PageScanResult.t :=
  EnhancedAccessibilityOrchestrator.allResults
    (BulkScannerAgent.categorizeResults (BulkScannerAgent.agent mixedPool)).

Lemma decisions_follow_the_scan_results_witness :
  let decisionData := (decisionsOn clearPages).1 in
  let this' := (decisionsOn clearPages).2 in
  let categorized := DecisionData.categorized decisionData in
  map EnhancedPageDecision.url (DecisionData.decisions decisionData)
  = map PageScanResult.url clearPages
  ∧ DecisionData.scanResults decisionData = clearPages
  ∧ Forall (@canBeDecided samplePlatform) clearPages
  ∧ CategorizedDecisions.passed categorized
    ++ CategorizedDecisions.minorIssues categorized
    ++ CategorizedDecisions.claudeNeeded categorized
    ++ CategorizedDecisions.critical categorized
    ≡ₚ DecisionData.decisions decisionData
  ∧ EnhancedAccessibilityOrchestrator.recommendations this'
    = EnhancedAccessibilityOrchestrator.recommendations sampleOrchestrator
  ∧ EnhancedAccessibilityOrchestrator.uncertainDecisions
      (DecisionData.decisions decisionData) = [].
Proof.
  apply (@decisions_follow_the_scan_results samplePlatform sampleOrchestrator
           clearPages (decisionsOn clearPages).1 (decisionsOn clearPages).2).
  reflexivity.
Defined.

Lemma mixedResults_urls :
  map PageScanResult.url mixedResults
  = ["https://example.com/b"; "https://example.com/a"; "https://example.com/c"].
Proof. reflexivity. Qed.

Lemma mixedResults_NoDup : NoDup (map PageScanResult.url mixedResults).
Proof.
  rewrite mixedResults_urls.
  repeat (apply NoDup_cons; split;
          [rewrite ?elem_of_cons, elem_of_nil; intros Hin;
           repeat destruct Hin as [Hin | Hin]; solve [discriminate | exact Hin]
          |]).
  apply NoDup_nil. constructor.
Defined.

Lemma report_files_each_result_under_its_decision_witness :
  allOf (EnhancedAccessibilityOrchestrator.standardCategorized
           (decisionsOn mixedResults).1)
  ≡ₚ mixedResults
  ∧ Forall2 (fun r d =>
               ∀ c, r ∈ filedUnder c
                          (EnhancedAccessibilityOrchestrator.standardCategorized
                             (decisionsOn mixedResults).1)
                    ↔ EnhancedPageDecision.category d = c)
      mixedResults (DecisionData.decisions (decisionsOn mixedResults).1).
Proof.
  apply (@report_files_each_result_under_its_decision samplePlatform
           sampleOrchestrator mixedResults (decisionsOn mixedResults).1
           (decisionsOn mixedResults).2).
  - exact mixedResults_NoDup.
  - reflexivity.
Defined.

Lemma analysis_requests_carry_the_violations_decided_on_witness :
  map (fun request =>
         (AnalysisRequest.url request, AnalysisRequest.violations request))
    (EnhancedAccessibilityOrchestrator.analysisRequests
       (decisionsOn mixedResults).1)
  = map (fun r => (PageScanResult.url r, PageScanResult.violations r))
      (DecisionResult.claudeNeeded
         (EnhancedAccessibilityOrchestrator.standardCategorized
            (decisionsOn mixedResults).1)).
Proof.
  apply (@analysis_requests_carry_the_violations_decided_on samplePlatform
           sampleOrchestrator mixedResults (decisionsOn mixedResults).1
           (decisionsOn mixedResults).2).
  - exact mixedResults_NoDup.
  - reflexivity.
Defined.

(** Two results on one URL, the first a failed scan and the second with a
    colour-contrast finding: each is filed under both [claudeNeeded] and
    [critical], and the request for the Claude analysis is built on the
    failed scan, with no violation. *)
Example results_on_one_url_are_filed_twice :
  let decisionData := (decisionsOn [failedPage; pageWithColorContrast]).1 in
  map EnhancedPageDecision.category (DecisionData.decisions decisionData)
  = [CRITICAL; CLAUDE_NEEDED]
  ∧ EnhancedAccessibilityOrchestrator.standardCategorized decisionData
    = {| DecisionResult.passed := [];
         DecisionResult.minorIssues := [];
         DecisionResult.claudeNeeded := [failedPage; pageWithColorContrast];
         DecisionResult.critical := [failedPage; pageWithColorContrast] |}
  ∧ map AnalysisRequest.violations
      (EnhancedAccessibilityOrchestrator.analysisRequests decisionData)
    = [[]].
Proof. repeat split; reflexivity. Qed.

(** One of three URLs cannot be parsed and is not scanned. *)
Definition urlsWithOneInvalid : list string :=
  ["https://example.com/a"; "example.com/b"; "https://example.com/c"].

Definition validatedPool : BulkScannerAgent.Pool :=
  @runPool samplePlatform mixedBrowser 30
    (BulkScannerAgent.startWorkers
       (BulkScannerAgent.setTotal
          (BulkScannerAgent.new (optionsWithWorkers 2))
          (length (@ScannerQueries.validateUrls samplePlatform
                     urlsWithOneInvalid)))
       (BulkScannerAgent.makeTasks
          (@ScannerQueries.validateUrls samplePlatform urlsWithOneInvalid))).

Lemma validated_urls_are_all_decided_witness :
  ∃ decisionData this',
    @EnhancedAccessibilityOrchestrator.makeEnhancedDecisions samplePlatform
      sampleOrchestrator
      (EnhancedAccessibilityOrchestrator.allResults
         (BulkScannerAgent.categorizeResults
            (BulkScannerAgent.agent validatedPool)))
    = JS.Return (decisionData, this')
    ∧ map EnhancedPageDecision.url (DecisionData.decisions decisionData)
      ≡ₚ @ScannerQueries.validateUrls samplePlatform urlsWithOneInvalid.
Proof.
  apply (@validated_urls_are_all_decided samplePlatform mixedBrowser
           (optionsWithWorkers 2) urlsWithOneInvalid
           (BulkScannerAgent.generateSummary
              (BulkScannerAgent.agent validatedPool)
              (length (@ScannerQueries.validateUrls samplePlatform
                         urlsWithOneInvalid)))
           (BulkScannerAgent.agent validatedPool) sampleOrchestrator).
  - intros w Hw. vm_compute in Hw. injection Hw as <-. lia.
  - apply (@BulkScannerAgent.scanPages_resolved samplePlatform mixedBrowser
             _ _ validatedPool).
    + reflexivity.
    + apply runPool_reachable.
    + vm_compute. repeat constructor.
Defined.

Example invalid_url_is_not_scanned :
  @ScannerQueries.validateUrls samplePlatform urlsWithOneInvalid
  = ["https://example.com/a"; "https://example.com/c"].
Proof. reflexivity. Qed.

(** * The communication hub ([src/agents/agent-communication.ts])

    The hub keeps a queue of messages for each agent, the history of all
    messages, and a cache of insights under the keys
    [`${fromAgent}-${insight.type}`]. The callbacks of [subscribe] only log
    or write to the metrics of the orchestrator and are outside the model,
    as is the console. Values of type [unknown] that nothing reads are kept
    as text. *)

Module AgentType.
Inductive t :=
  bulk_scanner | decision_agent | claude_analyst | report_generator
| orchestrator.

Definition name (agent : t) : string :=
  match agent with
  | bulk_scanner => "bulk-scanner"
  | decision_agent => "decision-agent"
  | claude_analyst => "claude-analyst"
  | report_generator => "report-generator"
  | orchestrator => "orchestrator"
  end.

Definition eqb (a b : t) : bool :=
  match a, b with
  | bulk_scanner, bulk_scanner | decision_agent, decision_agent
  | claude_analyst, claude_analyst | report_generator, report_generator
  | orchestrator, orchestrator => true
  | _, _ => false
  end.

Definition all : list t :=
  [bulk_scanner; decision_agent; claude_analyst; report_generator;
   orchestrator].
End AgentType.

Inductive Recipient := toAgent (agent : AgentType.t) | broadcast.

Module MessageType.
Inductive t := insight | request | response | feedback | alert | coordination.

Definition eqb (a b : t) : bool :=
  match a, b with
  | insight, insight | request, request | response, response
  | feedback, feedback | alert, alert | coordination, coordination => true
  | _, _ => false
  end.
End MessageType.

Module MessagePriority.
Inductive t := low | medium | high | critical.
End MessagePriority.

Module InsightType.
Inductive t := pattern | anomaly | optimization | learning.

Definition name (type : t) : string :=
  match type with
  | pattern => "pattern"
  | anomaly => "anomaly"
  | optimization => "optimization"
  | learning => "learning"
  end.
End InsightType.

Inductive FeedbackOutcome := success | failure | partial.

Module FeedbackMessage.
Record t := mk {
  targetAction : string;
  outcome : FeedbackOutcome;
  metrics : list (string * float);
  learnings : list string;
  improvements : option (list string)
}.
End FeedbackMessage.

(** The evidence of an insight: a feedback message, or another value, kept
    as text. *)
Inductive Evidence :=
| FeedbackEvidence (feedback : FeedbackMessage.t)
| OtherEvidence (json : string).

Module AgentInsight.
Record t := mk {
  type : InsightType.t;
  description : string;
  evidence : list Evidence;
  confidence : float;
  actionable : bool;
  suggestedActions : option (list string)
}.
End AgentInsight.

Inductive CoordinationAction := prioritize | batch | sequence | parallelize.

(** [constraints]: the [maxBatchSize] entry, and the other entries, which
    nothing reads. *)
Module Constraints.
Record t := mk {
  maxBatchSize : option Z;
  others : list (string * string)
}.
End Constraints.

(** A request for coordination. [resources] is a reference to an array of
    the store: the request holds the array it was given, not a copy. *)
Module CoordinationRequest.
Record t := mk {
  action : CoordinationAction;
  resources : nat;
  constraints : Constraints.t;
  deadline : option string
}.
End CoordinationRequest.

Inductive Payload :=
| InsightPayload (insight : AgentInsight.t)
| CoordinationPayload (request : CoordinationRequest.t)
| PrioritizedPayload (prioritized : nat)
| BatchesPayload (batches : list (list string))
| FeedbackPayload (feedback : FeedbackMessage.t)
| OtherPayload (json : string).

Module AgentMessage.
Record t := mk {
  id : string;
  timestamp : string;
  fromAgent : AgentType.t;
  toAgent : Recipient;
  messageType : MessageType.t;
  priority : MessagePriority.t;
  payload : Payload;
  requiresResponse : bool;
  correlationId : option string
}.
End AgentMessage.

(** [Omit<AgentMessage, 'id' | 'timestamp'>]. *)
Module MessageDraft.
Record t := mk {
  fromAgent : AgentType.t;
  toAgent : Recipient;
  messageType : MessageType.t;
  priority : MessagePriority.t;
  payload : Payload;
  requiresResponse : bool;
  correlationId : option string
}.
End MessageDraft.

(** [`${Date.now()}-${Math.random().toString(36).substr(2, 9)}`] at the
    n-th identifier the hub generates. *)
Class IdSource := { idSuffix : nat → string }.

(** The arrays of strings the agents pass around, by reference. *)
Definition Store := gmap nat (list string).

(** Operations on arrays and strings. *)
Module JSArray.

(** [l.sort(compare)], a stable sort, for [before x y] the test
    [compare(x, y) <= 0]: [x] goes behind the elements that must come
    before it and in front of the others. *)
Fixpoint insertSorted {A} (before : A → A → bool) (x : A) (l : list A)
  : list A :=
  match l with
  | [] => [x]
  | y :: l' =>
      if before x y then x :: y :: l' else y :: insertSorted before x l'
  end.

Definition sort {A} (before : A → A → bool) (l : list A) : list A :=
  foldr (insertSorted before) [] l.

(** [l.slice(start, end)]. *)
Definition slice {A} (l : list A) (start finish : Z) : list A :=
  let len := Z.of_nat (length l) in
  let k := if (start <? 0)%Z then Z.max (len + start) 0 else Z.min start len in
  let final :=
    if (finish <? 0)%Z then Z.max (len + finish) 0 else Z.min finish len in
  take (Z.to_nat (final - k)) (drop (Z.to_nat k) l).

(** [s.split(sep)] for a separator of one character. *)
Fixpoint split (sep : Ascii.ascii) (s : string) : list string :=
  match s with
  | EmptyString => [""]
  | String c s' =>
      if Ascii.eqb c sep then "" :: split sep s'
      else
        match split sep s' with
        | first :: rest => String c first :: rest
        | [] => [String c ""]
        end
  end.

End JSArray.

Module AgentCommunicationHub.

Record t := mk {
  messageQueue : AgentType.t → list AgentMessage.t;
  messageHistory : list AgentMessage.t;
  insightCache : list (string * list AgentInsight.t);
  coordinationState : list (string * CoordinationRequest.t);
  generated : nat
}.

(** The constructor: an empty queue for each agent. *)
Definition new : t := {|
  messageQueue := fun _ => [];
  messageHistory := [];
  insightCache := [];
  coordinationState := [];
  generated := 0
|}.

(** [map.set(key, value)] on a [Map] in insertion order. *)
Fixpoint mapSet {V} (m : list (string * V)) (key : string) (value : V)
  : list (string * V) :=
  match m with
  | [] => [(key, value)]
  | (k, v) :: rest =>
      if String.eqb k key then (k, value) :: rest
      else (k, v) :: mapSet rest key value
  end.

Fixpoint mapGet {V} (m : list (string * V)) (key : string) : option V :=
  match m with
  | [] => None
  | (k, v) :: rest => if String.eqb k key then Some v else mapGet rest key
  end.

Section WithIds.
Context `{Platform} `{IdSource}.

Definition sendMessage (this : t) (message : MessageDraft.t) : string * t :=
  let fullMessage :=
    {| AgentMessage.id := "msg-" +:+ idSuffix (generated this);
       AgentMessage.timestamp := Date_toISOString;
       AgentMessage.fromAgent := MessageDraft.fromAgent message;
       AgentMessage.toAgent := MessageDraft.toAgent message;
       AgentMessage.messageType := MessageDraft.messageType message;
       AgentMessage.priority := MessageDraft.priority message;
       AgentMessage.payload := MessageDraft.payload message;
       AgentMessage.requiresResponse := MessageDraft.requiresResponse message;
       AgentMessage.correlationId := MessageDraft.correlationId message |} in
  let delivered (agent : AgentType.t) : bool :=
    match MessageDraft.toAgent message with
    | broadcast => negb (AgentType.eqb agent (MessageDraft.fromAgent message))
    | toAgent target => AgentType.eqb agent target
    end in
  (AgentMessage.id fullMessage,
   {| messageQueue := fun agent =>
        if delivered agent then messageQueue this agent ++ [fullMessage]
        else messageQueue this agent;
      messageHistory := messageHistory this ++ [fullMessage];
      insightCache := insightCache this;
      coordinationState := coordinationState this;
      generated := generated this + 1 |}).

Definition getMessages (this : t) (agent : AgentType.t)
  (messageTypes : option (list MessageType.t)) : list AgentMessage.t :=
  let queue := messageQueue this agent in
  match messageTypes with
  | Some types =>
      List.filter (fun msg =>
        existsb (MessageType.eqb (AgentMessage.messageType msg)) types) queue
  | None => queue
  end.

Definition clearMessages (this : t) (agent : AgentType.t)
  (messageIds : list string) : t :=
  {| messageQueue := fun a =>
       if AgentType.eqb a agent
       then List.filter (fun msg =>
              negb (JS.array_includes messageIds (AgentMessage.id msg)))
              (messageQueue this agent)
       else messageQueue this a;
     messageHistory := messageHistory this;
     insightCache := insightCache this;
     coordinationState := coordinationState this;
     generated := generated this |}.

Definition insightKey (fromAgent : AgentType.t) (type : InsightType.t)
  : string :=
  AgentType.name fromAgent +:+ "-" +:+ InsightType.name type.

Definition shareInsight (this : t) (fromAgent : AgentType.t)
  (insight : AgentInsight.t) : t :=
  let key := insightKey fromAgent (AgentInsight.type insight) in
  let insights := default [] (mapGet (insightCache this) key) ++ [insight] in
  let this :=
    {| messageQueue := messageQueue this;
       messageHistory := messageHistory this;
       insightCache := mapSet (insightCache this) key insights;
       coordinationState := coordinationState this;
       generated := generated this |} in
  if PrimFloat.ltb 0.7 (AgentInsight.confidence insight)
     && AgentInsight.actionable insight
  then
    (sendMessage this
       {| MessageDraft.fromAgent := fromAgent;
          MessageDraft.toAgent := broadcast;
          MessageDraft.messageType := MessageType.insight;
          MessageDraft.priority :=
            if PrimFloat.ltb 0.9 (AgentInsight.confidence insight)
            then MessagePriority.high else MessagePriority.medium;
          MessageDraft.payload := InsightPayload insight;
          MessageDraft.requiresResponse := false;
          MessageDraft.correlationId := None |}).2
  else this.

Definition sendFeedback (this : t) (fromAgent toAgent' : AgentType.t)
  (feedback : FeedbackMessage.t) : t :=
  let this :=
    (sendMessage this
       {| MessageDraft.fromAgent := fromAgent;
          MessageDraft.toAgent := toAgent toAgent';
          MessageDraft.messageType := MessageType.feedback;
          MessageDraft.priority :=
            match FeedbackMessage.outcome feedback with
            | failure => MessagePriority.high
            | _ => MessagePriority.medium
            end;
          MessageDraft.payload := FeedbackPayload feedback;
          MessageDraft.requiresResponse := false;
          MessageDraft.correlationId := None |}).2 in
  if 0 <? length (FeedbackMessage.learnings feedback)
  then
    shareInsight this fromAgent
      {| AgentInsight.type := InsightType.learning;
         AgentInsight.description :=
           "Feedback from " +:+ FeedbackMessage.targetAction feedback
             +:+ ": " +:+ JS.join "; " (FeedbackMessage.learnings feedback);
         AgentInsight.evidence := [FeedbackEvidence feedback];
         AgentInsight.confidence := 0.8;
         AgentInsight.actionable := true;
         AgentInsight.suggestedActions :=
           FeedbackMessage.improvements feedback |}
  else this.

Definition requestCoordination (this : t) (fromAgent : AgentType.t)
  (request : CoordinationRequest.t) : string * t :=
  let correlationId := "corr-" +:+ idSuffix (generated this) in
  let this :=
    {| messageQueue := messageQueue this;
       messageHistory := messageHistory this;
       insightCache := insightCache this;
       coordinationState :=
         mapSet (coordinationState this) correlationId request;
       generated := generated this + 1 |} in
  (correlationId,
   (sendMessage this
      {| MessageDraft.fromAgent := fromAgent;
         MessageDraft.toAgent := toAgent AgentType.orchestrator;
         MessageDraft.messageType := MessageType.coordination;
         MessageDraft.priority := MessagePriority.high;
         MessageDraft.payload := CoordinationPayload request;
         MessageDraft.requiresResponse := true;
         MessageDraft.correlationId := Some correlationId |}).2).

Definition hyphen : Ascii.ascii := Ascii.ascii_of_nat 45.

(** [getInsights]: the key of each cache entry is split at its hyphens and
    the first two parts are compared with the agent and the type asked
    for. *)
Definition keyMatches (key : string) (agent : option AgentType.t)
  (type : option InsightType.t) : bool :=
  let parts := JSArray.split hyphen key in
  let cachedAgent := parts !! 0 in
  let cachedType := parts !! 1 in
  match agent with
  | None => true
  | Some agent =>
      match cachedAgent with
      | Some cached => String.eqb cached (AgentType.name agent)
      | None => false
      end
  end
  && match type with
     | None => true
     | Some type =>
         match cachedType with
         | Some cached => String.eqb cached (InsightType.name type)
         | None => false
         end
     end.

Definition getInsights (this : t) (agent : option AgentType.t)
  (type : option InsightType.t) : list AgentInsight.t :=
  let insights :=
    flat_map (fun entry =>
      if keyMatches entry.1 agent type then entry.2 else [])
      (insightCache this) in
  JSArray.sort (fun a b =>
    PrimFloat.leb
      (PrimFloat.sub (AgentInsight.confidence b) (AgentInsight.confidence a)) 0)
    insights.

End WithIds.

End AgentCommunicationHub.

(** ** The communicators of the agents *)

Module BulkScannerCommunicator.
Section WithIds.
Context `{Platform} `{IdSource}.

Definition requestPrioritization (hub : AgentCommunicationHub.t) (urls : nat)
  : string * AgentCommunicationHub.t :=
  AgentCommunicationHub.requestCoordination hub AgentType.bulk_scanner
    {| CoordinationRequest.action := prioritize;
       CoordinationRequest.resources := urls;
       CoordinationRequest.constraints :=
         {| Constraints.maxBatchSize := None;
            Constraints.others := [("maxConcurrent", "5"); ("timeLimit", "1h")] |};
       CoordinationRequest.deadline := None |}.

End WithIds.
End BulkScannerCommunicator.

Module ClaudeAnalystCommunicator.
Section WithIds.
Context `{Platform} `{IdSource}.

Definition requestBatchOptimization (hub : AgentCommunicationHub.t)
  (pages : nat) : AgentCommunicationHub.t :=
  (AgentCommunicationHub.requestCoordination hub AgentType.claude_analyst
     {| CoordinationRequest.action := batch;
        CoordinationRequest.resources := pages;
        CoordinationRequest.constraints :=
          {| Constraints.maxBatchSize := Some 10%Z;
             Constraints.others :=
               [("similarityThreshold", "0.8"); ("costLimit", "5")] |};
        CoordinationRequest.deadline := None |}).2.

End WithIds.
End ClaudeAnalystCommunicator.

Module OrchestratorCommunicator.

(** [compare(a, b) <= 0] for the comparison [a.length - b.length] of
    [prioritizeResources]; the lengths are counted in UTF-16 code units. *)
Definition shorterFirst (a b : string) : bool :=
  (Z.of_nat (JS.string_length a) - Z.of_nat (JS.string_length b) <=? 0)%Z.

(** [prioritizeResources]: [resources.sort] sorts the array in place and
    returns it. *)
Definition prioritizeResources (store : Store) (resources : nat)
  : nat * Store :=
  (resources, alter (JSArray.sort shorterFirst) resources store).

(** The loop of [createBatches] from index [i] on. [None]: the loop has
    not ended within [fuel] iterations. *)
Fixpoint createBatchesFrom (fuel : nat) (resources : list string)
  (maxBatchSize i : Z) (batches : list (list string))
  : option (list (list string)) :=
  match fuel with
  | 0 => None
  | S fuel' =>
      if (i <? Z.of_nat (length resources))%Z
      then createBatchesFrom fuel' resources maxBatchSize (i + maxBatchSize)%Z
             (batches ++ [JSArray.slice resources i (i + maxBatchSize)%Z])
      else Some batches
  end.

Definition createBatches (fuel : nat) (resources : list string)
  (constraints : Constraints.t) : option (list (list string)) :=
  let maxBatchSize := JS.or_number (Constraints.maxBatchSize constraints) 10 in
  createBatchesFrom fuel resources maxBatchSize 0 [].

Section WithIds.
Context `{Platform} `{IdSource}.

Definition respond (hub : AgentCommunicationHub.t) (message : AgentMessage.t)
  (payload : Payload) : AgentCommunicationHub.t :=
  (AgentCommunicationHub.sendMessage hub
     {| MessageDraft.fromAgent := AgentType.orchestrator;
        MessageDraft.toAgent := toAgent (AgentMessage.fromAgent message);
        MessageDraft.messageType := MessageType.response;
        MessageDraft.priority := MessagePriority.medium;
        MessageDraft.payload := payload;
        MessageDraft.requiresResponse := false;
        MessageDraft.correlationId := Some (AgentMessage.id message) |}).2.

Definition handlePrioritization (hub : AgentCommunicationHub.t)
  (store : Store) (message : AgentMessage.t) (request : CoordinationRequest.t)
  : AgentCommunicationHub.t * Store :=
  let '(prioritized, store) :=
    prioritizeResources store (CoordinationRequest.resources request) in
  (respond hub message (PrioritizedPayload prioritized), store).

Definition handleBatching (fuel : nat) (hub : AgentCommunicationHub.t)
  (store : Store) (message : AgentMessage.t) (request : CoordinationRequest.t)
  : option (AgentCommunicationHub.t * Store) :=
  batches ←
    createBatches fuel
      (default [] (store !! CoordinationRequest.resources request))
      (CoordinationRequest.constraints request);
  Some (respond hub message (BatchesPayload batches), store).

(** The body of the [forEach] of [handleCoordinationRequests]. A payload
    that is no request has no [action] and falls through the [switch]. *)
Definition handleRequest (fuel : nat) (hub : AgentCommunicationHub.t)
  (store : Store) (message : AgentMessage.t)
  : option (AgentCommunicationHub.t * Store) :=
  match AgentMessage.payload message with
  | CoordinationPayload request =>
      match CoordinationRequest.action request with
      | prioritize => Some (handlePrioritization hub store message request)
      | batch => handleBatching fuel hub store message request
      | sequence | parallelize => Some (hub, store)
      end
  | _ => Some (hub, store)
  end.

Fixpoint handleAll (fuel : nat) (hub : AgentCommunicationHub.t)
  (store : Store) (messages : list AgentMessage.t)
  : option (AgentCommunicationHub.t * Store) :=
  match messages with
  | [] => Some (hub, store)
  | message :: rest =>
      handled ← handleRequest fuel hub store message;
      handleAll fuel handled.1 handled.2 rest
  end.

Definition handleCoordinationRequests (fuel : nat)
  (hub : AgentCommunicationHub.t) (store : Store)
  : option (AgentCommunicationHub.t * Store) :=
  let messages :=
    AgentCommunicationHub.getMessages hub AgentType.orchestrator
      (Some [MessageType.coordination]) in
  handled ← handleAll fuel hub store messages;
  Some (AgentCommunicationHub.clearMessages handled.1 AgentType.orchestrator
          (map AgentMessage.id messages),
        handled.2).

End WithIds.
End OrchestratorCommunicator.

(** The start of [performIntelligentScanning] of the orchestrator, up to
    the call of [scanPages]: the array of URLs that is scanned, with the
    response found for the request, if any. [waitForResponse] only reads
    the queue. *)
Module Prioritization.
Section WithIds.
Context `{Platform} `{IdSource}.

Record t := mk {
  responseMessage : option AgentMessage.t;
  prioritizedUrls : nat;
  hub : AgentCommunicationHub.t;
  store : Store
}.

Definition run (fuel : nat) (hub : AgentCommunicationHub.t) (store : Store)
  (urls : nat) : option t :=
  let '(correlationId, hub) :=
    BulkScannerCommunicator.requestPrioritization hub urls in
  handled ← OrchestratorCommunicator.handleCoordinationRequests fuel hub store;
  let messages :=
    AgentCommunicationHub.getMessages handled.1 AgentType.bulk_scanner
      (Some [MessageType.response]) in
  let responseMessage :=
    List.find (fun m =>
      match AgentMessage.correlationId m with
      | Some c => String.eqb c correlationId
      | None => false
      end) messages in
  let prioritized :=
    match AgentMessage.payload <$> responseMessage with
    | Some (PrioritizedPayload prioritized) => prioritized
    | _ => urls
    end in
  Some {| responseMessage := responseMessage;
          prioritizedUrls := prioritized;
          hub := handled.1;
          store := handled.2 |}.

End WithIds.
End Prioritization.

(** The calls that change a hub. *)
Inductive HubCall :=
| SendMessage (message : MessageDraft.t)
| ClearMessages (agent : AgentType.t) (messageIds : list string)
| ShareInsight (fromAgent : AgentType.t) (insight : AgentInsight.t)
| RequestCoordination (fromAgent : AgentType.t)
    (request : CoordinationRequest.t)
| SendFeedback (fromAgent toAgent' : AgentType.t)
    (feedback : FeedbackMessage.t).

Definition hubCall `{Platform} `{IdSource} (hub : AgentCommunicationHub.t)
  (call : HubCall) : AgentCommunicationHub.t :=
  match call with
  | SendMessage message => (AgentCommunicationHub.sendMessage hub message).2
  | ClearMessages agent messageIds =>
      AgentCommunicationHub.clearMessages hub agent messageIds
  | ShareInsight fromAgent insight =>
      AgentCommunicationHub.shareInsight hub fromAgent insight
  | RequestCoordination fromAgent request =>
      (AgentCommunicationHub.requestCoordination hub fromAgent request).2
  | SendFeedback fromAgent toAgent' feedback =>
      AgentCommunicationHub.sendFeedback hub fromAgent toAgent' feedback
  end.

Section HubProperties.
Context `{Platform} `{IdSource}.
Import AgentCommunicationHub.

Definition keysOfInsights (cache : list (string * list AgentInsight.t))
  : Prop :=
  Forall (fun entry => ∃ agent type, entry.1 = insightKey agent type) cache.

Lemma mapSet_keys {V} (P : string → Prop) (m : list (string * V)) key value :
  Forall (fun entry => P entry.1) m → P key →
  Forall (fun entry => P entry.1) (mapSet m key value).
Proof.
  intros Hall Hkey. induction Hall as [|[k v] rest Hk Hrest IH]; cbn.
  - constructor; [exact Hkey | constructor].
  - destruct (String.eqb k key); constructor; cbn in *; assumption.
Qed.

Lemma shareInsight_keys (hub : AgentCommunicationHub.t)
  (fromAgent : AgentType.t) (insight : AgentInsight.t) :
  keysOfInsights (insightCache hub) →
  keysOfInsights (insightCache (shareInsight hub fromAgent insight)).
Proof.
  intros Hkeys. unfold shareInsight.
  destruct (PrimFloat.ltb 0.7 (AgentInsight.confidence insight)
            && AgentInsight.actionable insight); cbn;
    apply (mapSet_keys (fun k => ∃ agent type, k = insightKey agent type));
    eauto.
Qed.

Lemma hubCall_keys (hub : AgentCommunicationHub.t) (call : HubCall) :
  keysOfInsights (insightCache hub) →
  keysOfInsights (insightCache (hubCall hub call)).
Proof.
  intros Hkeys.
  destruct call as [m | a ids | a i | a r | a b f]; cbn; try exact Hkeys.
  - apply shareInsight_keys, Hkeys.
  - unfold sendFeedback.
    destruct (0 <? length (FeedbackMessage.learnings f)); [|exact Hkeys].
    apply shareInsight_keys, Hkeys.
Qed.

Lemma calls_keys (calls : list HubCall) (hub : AgentCommunicationHub.t) :
  keysOfInsights (insightCache hub) →
  keysOfInsights (insightCache (foldl hubCall hub calls)).
Proof.
  revert hub. induction calls as [|call calls IH]; intros hub Hkeys;
    [exact Hkeys|].
  cbn. apply IH, hubCall_keys, Hkeys.
Qed.

Lemma keyMatches_hyphenated (cached agent : AgentType.t)
  (cachedType : InsightType.t) (type : option InsightType.t) :
  agent ≠ AgentType.orchestrator →
  keyMatches (insightKey cached cachedType) (Some agent) type = false.
Proof.
  intros Hagent.
  destruct agent; try congruence; destruct cached, cachedType; reflexivity.
Qed.

Lemma keyMatches_type_only (cached : AgentType.t)
  (cachedType type : InsightType.t) :
  keyMatches (insightKey cached cachedType) None (Some type)
  = keyMatches (insightKey cached cachedType) (Some AgentType.orchestrator)
      (Some type).
Proof. destruct cached, cachedType, type; reflexivity. Qed.

(** X16. Whatever calls a new hub has served, [getInsights] finds no
    insight for an agent other than the orchestrator, the one agent whose
    name has no hyphen; and asked for a type alone, it returns what it
    returns for that type and the orchestrator. *)
Theorem insights_of_hyphenated_agents_are_never_found
  (calls : list HubCall) (agent : AgentType.t) :
  agent ≠ AgentType.orchestrator →
  let hub := foldl hubCall new calls in
  (∀ type, getInsights hub (Some agent) type = [])
  ∧ (∀ type,
       getInsights hub None (Some type)
       = getInsights hub (Some AgentType.orchestrator) (Some type)).
Proof.
  intros Hagent hub.
  assert (Hkeys : keysOfInsights (insightCache hub))
    by (apply calls_keys; constructor).
  unfold getInsights. split; intros type.
  - replace (flat_map _ (insightCache hub)) with (@nil AgentInsight.t);
      [reflexivity|].
    induction Hkeys as [|[key insights] rest (cached & cachedType & Hkey) _ IH];
      [reflexivity|].
    cbn in Hkey. subst key. cbn [flat_map fst snd].
    rewrite (keyMatches_hyphenated cached agent cachedType type Hagent).
    exact IH.
  - f_equal.
    induction Hkeys as [|[key insights] rest (cached & cachedType & Hkey) _ IH];
      [reflexivity|].
    cbn in Hkey. subst key. cbn [flat_map fst snd].
    rewrite keyMatches_type_only, IH. reflexivity.
Qed.

End HubProperties.

(** ** Prioritization of the URLs *)

Section SortByLength.
Import OrchestratorCommunicator.

Lemma shorterFirst_le (a b : string) :
  shorterFirst a b = (JS.string_length a <=? JS.string_length b).
Proof.
  unfold shorterFirst.
  destruct (Nat.leb_spec (JS.string_length a) (JS.string_length b));
    [apply Z.leb_le | apply Z.leb_gt]; lia.
Qed.

Lemma insertSorted_Permutation {A} (before : A → A → bool) x (l : list A) :
  JSArray.insertSorted before x l ≡ₚ x :: l.
Proof.
  induction l as [|y l IH]; cbn; [reflexivity|].
  destruct (before x y); [reflexivity|].
  rewrite IH. apply Permutation_swap.
Qed.

Lemma sort_Permutation {A} (before : A → A → bool) (l : list A) :
  JSArray.sort before l ≡ₚ l.
Proof.
  induction l as [|x l IH]; [reflexivity|].
  cbn. rewrite insertSorted_Permutation, IH. reflexivity.
Qed.

Definition notLonger (a b : string) : Prop :=
  JS.string_length a ≤ JS.string_length b.

Lemma insertSorted_sorted x (l : list string) :
  StronglySorted notLonger l →
  StronglySorted notLonger (JSArray.insertSorted shorterFirst x l).
Proof.
  induction 1 as [|y l Hsorted IH Hall]; cbn.
  - constructor; constructor.
  - rewrite shorterFirst_le.
    destruct (Nat.leb_spec (JS.string_length x) (JS.string_length y)) as [Hle | Hgt].
    + constructor; [constructor; assumption|].
      constructor; [exact Hle|].
      eapply Forall_impl; [exact Hall|]. unfold notLonger. intros z Hz. lia.
    + constructor; [exact IH|].
      rewrite insertSorted_Permutation. constructor; [|exact Hall].
      unfold notLonger. lia.
Qed.

Lemma sort_sorted (l : list string) :
  StronglySorted notLonger (JSArray.sort shorterFirst l).
Proof.
  induction l as [|x l IH]; [constructor|].
  cbn. apply insertSorted_sorted, IH.
Qed.

Lemma insertSorted_stable n x (l : list string) :
  List.filter (fun u => JS.string_length u =? n)
    (JSArray.insertSorted shorterFirst x l)
  = List.filter (fun u => JS.string_length u =? n) (x :: l).
Proof.
  induction l as [|y l IH]; [reflexivity|].
  cbn [JSArray.insertSorted]. rewrite shorterFirst_le.
  destruct (Nat.leb_spec (JS.string_length x) (JS.string_length y)) as [Hle | Hgt];
    [reflexivity|].
  cbn [List.filter] in *. rewrite IH.
  destruct (Nat.eqb_spec (JS.string_length x) n) as [Hx | Hx];
    [|reflexivity].
  destruct (Nat.eqb_spec (JS.string_length y) n) as [Hy | Hy]; [lia|].
  reflexivity.
Qed.

Lemma sort_stable n (l : list string) :
  List.filter (fun u => JS.string_length u =? n) (JSArray.sort shorterFirst l)
  = List.filter (fun u => JS.string_length u =? n) l.
Proof.
  induction l as [|x l IH]; [reflexivity|].
  cbn [JSArray.sort foldr]. rewrite insertSorted_stable.
  cbn [List.filter]. fold (JSArray.sort shorterFirst l). rewrite IH.
  reflexivity.
Qed.

End SortByLength.

Section PrioritizationProperties.
Context `{Platform} `{IdSource}.
Import AgentCommunicationHub OrchestratorCommunicator.

Lemma message_id_is_no_correlation_id (a b : string) :
  String.eqb ("msg-" +:+ a) ("corr-" +:+ b) = false.
Proof. reflexivity. Qed.

(** X17. At the start of a workflow, the orchestrator's request to
    prioritize the URLs is served by sorting the array of URLs itself: the
    array then holds the same URLs, the shorter before the longer and
    those of one length in their former order, the length of a URL being
    its [length] in JavaScript, the number of its UTF-16 code units. The response sent to the
    scanner carries the identifier of the request message where the
    orchestrator looks for the correlation identifier, so no response is
    found; the array scanned is the one given, now sorted. *)
Theorem urls_are_prioritized_in_place (fuel : nat) (store : Store)
  (urls : nat) (given : list string) :
  store !! urls = Some given →
  ∃ result,
    Prioritization.run fuel new store urls = Some result
    ∧ Prioritization.responseMessage result = None
    ∧ length (getMessages (Prioritization.hub result) AgentType.bulk_scanner
                (Some [MessageType.response])) = 1
    ∧ getMessages (Prioritization.hub result) AgentType.orchestrator None = []
    ∧ Prioritization.prioritizedUrls result = urls
    ∧ Prioritization.store result
      = <[urls := JSArray.sort shorterFirst given]> store
    ∧ JSArray.sort shorterFirst given ≡ₚ given
    ∧ StronglySorted notLonger (JSArray.sort shorterFirst given)
    ∧ ∀ n,
        List.filter (fun u => JS.string_length u =? n)
          (JSArray.sort shorterFirst given)
        = List.filter (fun u => JS.string_length u =? n) given.
Proof.
  intros Hgiven. eexists. split; [reflexivity|].
  cbn [Prioritization.responseMessage Prioritization.hub
       Prioritization.prioritizedUrls Prioritization.store].
  split; [reflexivity|]. split; [reflexivity|].
  split; [cbn; rewrite String.eqb_refl; reflexivity|].
  split; [reflexivity|]. split.
  - cbv [handlePrioritization prioritizeResources].
    cbn [fst snd CoordinationRequest.resources].
    unfold Store in *. apply map_eq. intros k.
    destruct (decide (k = urls)) as [-> | Hne].
    + rewrite lookup_alter_eq, lookup_insert_eq, Hgiven. reflexivity.
    + rewrite lookup_alter_ne, lookup_insert_ne by congruence. reflexivity.
  - split; [apply sort_Permutation|]. split; [apply sort_sorted|].
    intros n. apply sort_stable.
Qed.

End PrioritizationProperties.

Definition sampleIds : IdSource := {|
  idSuffix := fun n => "1700000000000-" +:+ JS.toString n
|}.

Definition sampleUrls : list string :=
  [ "https://example.com/products/item";
    "https://example.com/";
    "https://example.com/about";
    "https://example.com/terms" ].

Definition sampleStore : Store := {[ 0 := sampleUrls ]}.

Lemma urls_are_prioritized_in_place_witness :
  ∃ result,
    @Prioritization.run samplePlatform sampleIds 0 AgentCommunicationHub.new
      sampleStore 0 = Some result
    ∧ Prioritization.responseMessage result = None
    ∧ length (AgentCommunicationHub.getMessages (Prioritization.hub result)
                AgentType.bulk_scanner (Some [MessageType.response])) = 1
    ∧ AgentCommunicationHub.getMessages (Prioritization.hub result)
        AgentType.orchestrator None = []
    ∧ Prioritization.prioritizedUrls result = 0
    ∧ Prioritization.store result
      = <[0 := JSArray.sort OrchestratorCommunicator.shorterFirst sampleUrls]>
          sampleStore
    ∧ JSArray.sort OrchestratorCommunicator.shorterFirst sampleUrls
      ≡ₚ sampleUrls
    ∧ StronglySorted notLonger
        (JSArray.sort OrchestratorCommunicator.shorterFirst sampleUrls)
    ∧ ∀ n,
        List.filter (fun u => JS.string_length u =? n)
          (JSArray.sort OrchestratorCommunicator.shorterFirst sampleUrls)
        = List.filter (fun u => JS.string_length u =? n) sampleUrls.
Proof.
  apply (@urls_are_prioritized_in_place samplePlatform sampleIds 0 sampleStore
           0 sampleUrls).
  reflexivity.
Defined.

Example sampleUrls_prioritized :
  JSArray.sort OrchestratorCommunicator.shorterFirst sampleUrls
  = [ "https://example.com/";
      "https://example.com/about";
      "https://example.com/terms";
      "https://example.com/products/item" ].
Proof. reflexivity. Qed.

(** The lengths compared are those of JavaScript: a URL of sixteen code
    units that takes eighteen bytes comes before one of seventeen code
    units and seventeen bytes. *)
Example urls_are_compared_by_code_units :
  JS.string_length "https://a.com/éé" = 16
  ∧ String.length "https://a.com/éé" = 18
  ∧ JS.string_length "https://a.com/abc" = 17
  ∧ JS.string_length "https://a.com/😀" = 16
  ∧ JSArray.sort OrchestratorCommunicator.shorterFirst
      ["https://a.com/abc"; "https://a.com/éé"]
    = ["https://a.com/éé"; "https://a.com/abc"].
Proof. repeat split. Qed.

(** ** Batches *)

Section Batches.
Import OrchestratorCommunicator.

Lemma slice_within {A} (l : list A) (k m : nat) :
  k < length l → 0 < m →
  JSArray.slice l (Z.of_nat k) (Z.of_nat k + Z.of_nat m)
  = take m (drop k l).
Proof.
  intros Hk Hm. unfold JSArray.slice.
  destruct (Z.ltb_spec (Z.of_nat k) 0); [lia|].
  destruct (Z.ltb_spec (Z.of_nat k + Z.of_nat m) 0); [lia|].
  rewrite (Z.min_l (Z.of_nat k)) by lia. rewrite Nat2Z.id.
  destruct (Z.min_spec (Z.of_nat k + Z.of_nat m) (Z.of_nat (length l)))
    as [[_ ->] | [Hge ->]].
  - f_equal. lia.
  - rewrite !take_ge; [reflexivity| |]; rewrite length_drop; lia.
Qed.

(** The loop of [createBatches] for a positive batch size, from an index
    within or behind the array: it ends, having appended batches that make
    up the rest of the array. *)
Lemma createBatchesFrom_positive (resources : list string) (m : nat) :
  0 < m →
  ∀ fuel k batches,
    length resources - k < fuel →
    ∃ added,
      createBatchesFrom fuel resources (Z.of_nat m) (Z.of_nat k) batches
      = Some (batches ++ added)
      ∧ concat added = drop k resources
      ∧ Forall (fun b => 0 < length b ≤ m) added
      ∧ ∀ j b, added !! j = Some b → S j < length added → length b = m.
Proof.
  intros Hm fuel. induction fuel as [|fuel IH]; intros k batches Hfuel; [lia|].
  cbn [createBatchesFrom].
  destruct (Z.ltb_spec (Z.of_nat k) (Z.of_nat (length resources)))
    as [Hlt | Hge].
  - rewrite slice_within by lia.
    replace (Z.of_nat k + Z.of_nat m)%Z with (Z.of_nat (k + m)) by lia.
    destruct (IH (k + m) (batches ++ [take m (drop k resources)]))
      as (added & -> & Hconcat & Hsizes & Hfull); [lia|].
    exists (take m (drop k resources) :: added).
    split; [rewrite <- app_assoc; reflexivity|].
    split; [|split].
    + cbn [concat]. rewrite Hconcat, <- drop_drop. apply take_drop.
    + constructor; [|exact Hsizes].
      rewrite length_take, length_drop. lia.
    + intros [|j] b Hb Hj; cbn in Hb, Hj.
      * injection Hb as <-. rewrite length_take, length_drop.
        destruct added as [|b' added']; [cbn in Hj; lia|].
        assert (Hrest : drop (k + m) resources ≠ []).
        { rewrite <- Hconcat. inversion Hsizes; subst.
          destruct b'; [cbn in *; lia | discriminate]. }
        assert (k + m < length resources).
        { destruct (Nat.lt_ge_cases (k + m) (length resources)); [assumption|].
          exfalso. apply Hrest, drop_ge. lia. }
        lia.
      * apply (Hfull j b Hb). lia.
  - exists []. rewrite app_nil_r. split; [reflexivity|].
    split; [symmetry; apply drop_ge; lia|].
    split; [constructor|]. intros j b Hb. discriminate.
Qed.

(** The batch size [createBatches] uses. *)
Definition batchSize (constraints : Constraints.t) : Z :=
  JS.or_number (Constraints.maxBatchSize constraints) 10.

(** X18. For a batch size that is positive (10 when [maxBatchSize] is
    absent or 0), [createBatches] ends within one iteration more than there
    are resources, and its batches are the resources in order: none is
    empty or longer than the batch size, and each but the last has exactly
    that size. *)
Theorem batches_make_up_the_resources (fuel : nat) (resources : list string)
  (constraints : Constraints.t) :
  (0 < batchSize constraints)%Z →
  length resources < fuel →
  ∃ batches,
    createBatches fuel resources constraints = Some batches
    ∧ concat batches = resources
    ∧ Forall (fun b => 0 < length b ≤ Z.to_nat (batchSize constraints)) batches
    ∧ ∀ j b, batches !! j = Some b → S j < length batches →
             length b = Z.to_nat (batchSize constraints).
Proof.
  intros Hsize Hfuel. unfold createBatches. fold (batchSize constraints).
  destruct (createBatchesFrom_positive resources
              (Z.to_nat (batchSize constraints)) ltac:(lia) fuel 0 []
              ltac:(lia))
    as (added & Hrun & Hconcat & Hsizes & Hfull).
  rewrite Z2Nat.id in Hrun by lia. exists added. auto.
Qed.

Lemma createBatchesFrom_negative (resources : list string) (size : Z) :
  (size < 0)%Z → resources ≠ [] →
  ∀ fuel i batches,
    (i ≤ 0)%Z → createBatchesFrom fuel resources size i batches = None.
Proof.
  intros Hsize Hres fuel.
  induction fuel as [|fuel IH]; intros i batches Hi; [reflexivity|].
  cbn [createBatchesFrom].
  destruct (Z.ltb_spec i (Z.of_nat (length resources))) as [_ | Hge].
  - apply IH. lia.
  - destruct resources; [congruence | cbn in Hge; lia].
Qed.

(** X19. For a negative [maxBatchSize] and at least one resource, the
    loop of [createBatches] never ends: the index only decreases. *)
Theorem negative_batch_size_never_ends (resources : list string)
  (constraints : Constraints.t) :
  (batchSize constraints < 0)%Z → resources ≠ [] →
  ∀ fuel, createBatches fuel resources constraints = None.
Proof.
  intros Hsize Hres fuel. unfold createBatches.
  apply createBatchesFrom_negative; [exact Hsize | exact Hres | lia].
Qed.

End Batches.

Definition batchesOfThree : Constraints.t :=
  {| Constraints.maxBatchSize := Some 3%Z; Constraints.others := [] |}.

Lemma batches_make_up_the_resources_witness :
  ∃ batches,
    OrchestratorCommunicator.createBatches 5 sampleUrls batchesOfThree
    = Some batches
    ∧ concat batches = sampleUrls
    ∧ Forall (fun b => 0 < length b ≤ Z.to_nat (batchSize batchesOfThree))
        batches
    ∧ ∀ j b, batches !! j = Some b → S j < length batches →
             length b = Z.to_nat (batchSize batchesOfThree).
Proof.
  apply (batches_make_up_the_resources 5 sampleUrls batchesOfThree).
  - reflexivity.
  - vm_compute. lia.
Defined.

Lemma negative_batch_size_never_ends_witness :
  OrchestratorCommunicator.createBatches 1000 sampleUrls
    {| Constraints.maxBatchSize := Some (-1)%Z; Constraints.others := [] |}
  = None.
Proof.
  apply (negative_batch_size_never_ends sampleUrls
           {| Constraints.maxBatchSize := Some (-1)%Z;
              Constraints.others := [] |}).
  - reflexivity.
  - discriminate.
Defined.

(** * The Claude analysis agent ([src/agents/claude-analysis-agent.ts]) *)

Module PageAnalysisRequest.
Record t := mk {
  url : string;
  violations : list ViolationResult.t;
  priority : Priority;
  pageContext : option PageContext.t
}.
End PageAnalysisRequest.

Module RemediationStep.
Record t := mk {
  issue : string;
  solution : string;
  priority : Priority;
  effort : string;
  wcagCriteria : string;
  codeExample : option string
}.
End RemediationStep.

Module ClaudeAnalysisResults.
Record t := mk {
  keyboardNavigation : string;
  visualIssues : string;
  accessibilityTree : string;
  dynamicContent : string;
  screenshots : list string;
  remediationSteps : list RemediationStep.t
}.
End ClaudeAnalysisResults.

(** An [AnalysisResult]; its [analysisType] is always
    ['claude_visual_analysis']. *)
Module AnalysisResult.
Record t := mk {
  url : string;
  timestamp : string;
  findings : ClaudeAnalysisResults.t;
  remediationSteps : list RemediationStep.t;
  overallAssessment : string;
  sessionId : string;
  cost : float
}.
End AnalysisResult.

(** What one pass through the [try] block of [analyzeWithClaude] comes to:
    the prompt was built, Claude answered and the answer was parsed into a
    result for the URL of the request, or one of the steps threw an error,
    given here as the text [`${error}`]. *)
Inductive Analysis :=
| Answered (findings : ClaudeAnalysisResults.t)
    (remediationSteps : list RemediationStep.t) (overallAssessment : string)
    (sessionId : string) (cost : float)
| Errored (error : string).

(** The Claude service: what the [attempt]-th pass on a request comes to,
    and [Date.now()] as text. *)
Class ClaudeService := {
  analysisOf : PageAnalysisRequest.t → nat → Analysis;
  Date_now : string
}.

Module ClaudeAnalysisAgent.

Definition analysisDelay : Z := 5000.
Definition maxRetries : nat := 3.
Definition retryDelay : Z := 10000.

(** What a call has done besides returning: the delays awaited, in
    milliseconds and in order, and the number of passes made. *)
Record Trace := mkTrace {
  delays : list Z;
  passes : nat
}.

Definition noTrace : Trace := {| delays := []; passes := 0 |}.

Definition andThen (a b : Trace) : Trace :=
  {| delays := delays a ++ delays b; passes := passes a + passes b |}.

Section WithService.
Context `{Platform} `{ClaudeService}.

(** The [while] loop of [analyzeWithClaude] with [attempt] failures so far
    and [remaining = maxRetries - attempt] passes left. *)
Fixpoint analyzeFrom (pageData : PageAnalysisRequest.t) (remaining : nat)
  (attempt : nat) : JS.Completion AnalysisResult.t * Trace :=
  match remaining with
  | 0 =>
      (JS.Throw ("Unexpected error: exceeded retry attempts for "
                   +:+ PageAnalysisRequest.url pageData), noTrace)
  | S remaining' =>
      match analysisOf pageData (attempt + 1) with
      | Answered findings remediationSteps overallAssessment sessionId cost =>
          (JS.Return
             {| AnalysisResult.url := PageAnalysisRequest.url pageData;
                AnalysisResult.timestamp := Date_toISOString;
                AnalysisResult.findings := findings;
                AnalysisResult.remediationSteps := remediationSteps;
                AnalysisResult.overallAssessment := overallAssessment;
                AnalysisResult.sessionId := sessionId;
                AnalysisResult.cost := cost |},
           {| delays := []; passes := 1 |})
      | Errored error =>
          let attempt := attempt + 1 in
          if maxRetries <=? attempt then
            (JS.Throw ("Failed to analyze " +:+ PageAnalysisRequest.url pageData
                         +:+ " after " +:+ JS.toString maxRetries
                         +:+ " attempts: " +:+ error),
             {| delays := []; passes := 1 |})
          else
            let delay := (retryDelay * 2 ^ Z.of_nat (attempt - 1))%Z in
            let '(outcome, trace) := analyzeFrom pageData remaining' attempt in
            (outcome, andThen {| delays := [delay]; passes := 1 |} trace)
      end
  end.

Definition analyzeWithClaude (pageData : PageAnalysisRequest.t)
  : JS.Completion AnalysisResult.t * Trace :=
  if String.eqb (PageAnalysisRequest.url pageData) "" then
    (JS.Throw "PageAnalysisRequest must include a valid URL", noTrace)
  else analyzeFrom pageData maxRetries 0.

(** [url.replace(/[^a-zA-Z0-9]/g, '-')]: the expression has no [u] flag,
    so every UTF-16 code unit that is no ASCII letter or digit becomes one
    hyphen; a byte of the encoding that is none gives as many hyphens as
    it starts code units. *)
Definition isAlphanumeric (c : Ascii.ascii) : bool :=
  let n := Ascii.nat_of_ascii c in
  ((48 <=? n) && (n <=? 57)) || ((65 <=? n) && (n <=? 90))
  || ((97 <=? n) && (n <=? 122)).

Fixpoint hyphens (n : nat) (rest : string) : string :=
  match n with
  | 0 => rest
  | S n' => String AgentCommunicationHub.hyphen (hyphens n' rest)
  end.

Fixpoint cleanUrl (url : string) : string :=
  match url with
  | EmptyString => EmptyString
  | String c rest =>
      if isAlphanumeric c then String c (cleanUrl rest)
      else hyphens (JS.utf16Units c) (cleanUrl rest)
  end.

Definition generateSessionId (url : string) : string :=
  "accessibility-" +:+ cleanUrl url +:+ "-" +:+ Date_now.

Definition createFailedAnalysisResult (pageData : PageAnalysisRequest.t)
  (message : string) : AnalysisResult.t :=
  {| AnalysisResult.url := PageAnalysisRequest.url pageData;
     AnalysisResult.timestamp := Date_toISOString;
     AnalysisResult.findings :=
       {| ClaudeAnalysisResults.keyboardNavigation :=
            "Analysis failed due to error";
          ClaudeAnalysisResults.visualIssues := "Analysis failed due to error";
          ClaudeAnalysisResults.accessibilityTree :=
            "Analysis failed due to error";
          ClaudeAnalysisResults.dynamicContent :=
            "Analysis failed due to error";
          ClaudeAnalysisResults.screenshots := [];
          ClaudeAnalysisResults.remediationSteps := [] |};
     AnalysisResult.remediationSteps :=
       [ {| RemediationStep.issue := "Claude analysis failed";
            RemediationStep.solution := "Manual accessibility review required";
            RemediationStep.priority := High;
            RemediationStep.effort := "Manual review needed";
            RemediationStep.wcagCriteria := "All applicable criteria";
            RemediationStep.codeExample := None |} ];
     AnalysisResult.overallAssessment :=
       "Analysis failed with error: " +:+ message;
     AnalysisResult.sessionId :=
       generateSessionId (PageAnalysisRequest.url pageData);
     AnalysisResult.cost := 0 |}.

(** The [for] loop of [processComplexIssues] on the pages left. Saving a
    result to a file never throws and is outside the model. *)
Fixpoint processFrom (flaggedPages : list PageAnalysisRequest.t)
  : list AnalysisResult.t * Trace :=
  match flaggedPages with
  | [] => ([], noTrace)
  | pageData :: rest =>
      let '(outcome, trace) := analyzeWithClaude pageData in
      let result :=
        match outcome with
        | JS.Return result => result
        | JS.Throw message => createFailedAnalysisResult pageData message
        end in
      let rateLimit :=
        {| delays := if 0 <? length rest then [analysisDelay] else [];
           passes := 0 |} in
      let '(results, later) := processFrom rest in
      (result :: results, andThen trace (andThen rateLimit later))
  end.

Definition processComplexIssues (flaggedPages : list PageAnalysisRequest.t)
  : list AnalysisResult.t * Trace :=
  processFrom flaggedPages.

End WithService.

End ClaudeAnalysisAgent.

(** The time a call has spent waiting, in milliseconds. *)
Definition totalDelay (trace : ClaudeAnalysisAgent.Trace) : Z :=
  foldr Z.add 0%Z (ClaudeAnalysisAgent.delays trace).

Section ClaudeProperties.
Context `{Platform} `{ClaudeService}.
Import ClaudeAnalysisAgent.

Lemma totalDelay_andThen (a b : Trace) :
  totalDelay (andThen a b) = (totalDelay a + totalDelay b)%Z.
Proof.
  unfold totalDelay, andThen. cbn [delays].
  induction (delays a) as [|d ds IH]; cbn; [reflexivity|]. rewrite IH. lia.
Qed.

(** What every call of [analyzeWithClaude] does. *)
Lemma analyzeWithClaude_trace (pageData : PageAnalysisRequest.t) :
  let outcome := (analyzeWithClaude pageData).1 in
  let trace := (analyzeWithClaude pageData).2 in
  delays trace
  = map (fun k => (retryDelay * 2 ^ Z.of_nat k)%Z) (seq 0 (passes trace - 1))
  ∧ passes trace ≤ maxRetries
  ∧ (∀ result, outcome = JS.Return result →
       AnalysisResult.url result = PageAnalysisRequest.url pageData
       ∧ 1 ≤ passes trace)
  ∧ (∀ message, outcome = JS.Throw message →
       passes trace = 0 ∧ PageAnalysisRequest.url pageData = ""
       ∨ passes trace = maxRetries).
Proof.
  unfold analyzeWithClaude, maxRetries.
  destruct (String.eqb_spec (PageAnalysisRequest.url pageData) "") as [Hurl | _].
  - cbn. split; [reflexivity|]. split; [lia|]. split; [discriminate|]. auto.
  - cbn [analyzeFrom maxRetries Nat.add Nat.leb].
    destruct (analysisOf pageData 1);
      [cbn; split; [reflexivity|]; split; [lia|]; split;
       [intros ? [= <-]; split; [reflexivity | lia] | discriminate]|].
    destruct (analysisOf pageData 2);
      [cbn; split; [reflexivity|]; split; [lia|]; split;
       [intros ? [= <-]; split; [reflexivity | lia] | discriminate]|].
    destruct (analysisOf pageData 3); cbn;
      (split; [reflexivity|]; split; [lia|]; split;
       [first [discriminate | intros ? [= <-]; split; [reflexivity | lia]]
       | first [discriminate | auto]]).
Qed.

(** X20. Whatever Claude answers, a request is passed to it at most three
    times; the delays between the passes are 10000 and 20000 ms, doubling
    from pass to pass; a result returned is on the URL of the request; and
    [analyzeWithClaude] throws only for a request without a URL, before any
    pass, or after three passes. *)
Theorem claude_retries_back_off_exponentially
  (pageData : PageAnalysisRequest.t) :
  let outcome := (analyzeWithClaude pageData).1 in
  let trace := (analyzeWithClaude pageData).2 in
  delays trace
  = map (fun k => (10000 * 2 ^ Z.of_nat k)%Z) (seq 0 (passes trace - 1))
  ∧ passes trace ≤ 3
  ∧ (delays trace = [] ∨ delays trace = [10000%Z]
     ∨ delays trace = [10000%Z; 20000%Z])
  ∧ (∀ result, outcome = JS.Return result →
       AnalysisResult.url result = PageAnalysisRequest.url pageData
       ∧ 1 ≤ passes trace)
  ∧ (∀ message, outcome = JS.Throw message →
       passes trace = 0 ∧ PageAnalysisRequest.url pageData = ""
       ∨ passes trace = 3).
Proof.
  destruct (analyzeWithClaude_trace pageData)
    as (Hdelays & Hpasses & Hreturn & Hthrow).
  cbv zeta. unfold maxRetries, retryDelay in *.
  split; [exact Hdelays|]. split; [exact Hpasses|].
  split; [|split; [exact Hreturn | exact Hthrow]].
  rewrite Hdelays.
  destruct (passes (analyzeWithClaude pageData).2) as [|[|[|[|n]]]];
    cbn; auto; lia.
Qed.

Lemma processFrom_results (flaggedPages : list PageAnalysisRequest.t) :
  map AnalysisResult.url (processFrom flaggedPages).1
  = map PageAnalysisRequest.url flaggedPages
  ∧ passes (processFrom flaggedPages).2 ≤ maxRetries * length flaggedPages
  ∧ (totalDelay (processFrom flaggedPages).2
     ≤ 35000 * Z.of_nat (length flaggedPages))%Z.
Proof.
  induction flaggedPages as [|pageData rest (IHurls & IHpasses & IHdelay)].
  - cbn. repeat split; lia.
  - cbn [processFrom].
    destruct (analyzeWithClaude_trace pageData)
      as (Hdelays & Hpasses & Hreturn & _).
    destruct (analyzeWithClaude pageData) as [outcome trace].
    destruct (processFrom rest) as [results later].
    cbn [fst snd] in *. split; [|split].
    + cbn [map]. rewrite IHurls. f_equal.
      destruct outcome as [result | message]; [|reflexivity].
      apply (Hreturn result eq_refl).
    + cbn. unfold maxRetries in *. lia.
    + rewrite !totalDelay_andThen.
      assert (Hwait : (totalDelay trace ≤ 30000)%Z).
      { unfold totalDelay. rewrite Hdelays. unfold maxRetries, retryDelay in *.
        destruct (passes trace) as [|[|[|[|n]]]]; cbn; lia. }
      assert (Hrate :
        (totalDelay
           {| delays :=
                if (0 <? length rest)%nat then [analysisDelay] else [];
              passes := 0%nat |} ≤ 5000)%Z).
      { unfold totalDelay, analysisDelay. destruct rest; cbn; lia. }
      cbn [length]. lia.
Qed.

(** X21. [processComplexIssues] never throws: it returns one result for
    each page given, in order and on its URL, the failed result where the
    analysis threw; it passes no page to Claude more than three times, and
    the delays it awaits add up to at most 35 seconds a page. *)
Theorem every_flagged_page_gets_one_result
  (flaggedPages : list PageAnalysisRequest.t) :
  let results := (processComplexIssues flaggedPages).1 in
  let trace := (processComplexIssues flaggedPages).2 in
  map AnalysisResult.url results = map PageAnalysisRequest.url flaggedPages
  ∧ length results = length flaggedPages
  ∧ passes trace ≤ 3 * length flaggedPages
  ∧ (totalDelay trace ≤ 35000 * Z.of_nat (length flaggedPages))%Z.
Proof.
  cbv zeta. unfold processComplexIssues.
  destruct (processFrom_results flaggedPages) as (Hurls & Hpasses & Hdelay).
  split; [exact Hurls|]. split; [|split; [exact Hpasses | exact Hdelay]].
  apply (f_equal (@length string)) in Hurls.
  rewrite !length_map in Hurls. exact Hurls.
Qed.

(** X22. When every pass on a request with a URL ends in an error,
    [analyzeWithClaude] makes three passes, waits 10000 and then 20000 ms,
    and throws with the error of the third pass; [processComplexIssues]
    then returns for the page the failed result, whose one remediation
    step has priority High and whose cost is 0. *)
Theorem failed_analysis_is_reported_after_three_passes
  (pageData : PageAnalysisRequest.t) (error : nat → string) :
  PageAnalysisRequest.url pageData ≠ "" →
  (∀ attempt, analysisOf pageData attempt = Errored (error attempt)) →
  let message :=
    "Failed to analyze " +:+ PageAnalysisRequest.url pageData
      +:+ " after 3 attempts: " +:+ error 3 in
  analyzeWithClaude pageData
  = (JS.Throw message, {| delays := [10000; 20000]%Z; passes := 3 |})
  ∧ processComplexIssues [pageData]
    = ([createFailedAnalysisResult pageData message],
       {| delays := [10000; 20000]%Z; passes := 3 |})
  ∧ map RemediationStep.priority
      (AnalysisResult.remediationSteps
         (createFailedAnalysisResult pageData message)) = [High]
  ∧ AnalysisResult.cost (createFailedAnalysisResult pageData message)
    = 0%float.
Proof.
  intros Hurl Hfail message.
  assert (Hanalyze :
    analyzeWithClaude pageData
    = (JS.Throw message, {| delays := [10000; 20000]%Z; passes := 3 |})).
  { unfold analyzeWithClaude.
    destruct (String.eqb_spec (PageAnalysisRequest.url pageData) "");
      [contradiction|].
    cbn [analyzeFrom maxRetries Nat.add]. rewrite !Hfail. reflexivity. }
  split; [exact Hanalyze|]. split; [|split; reflexivity].
  unfold processComplexIssues. cbn [processFrom]. rewrite Hanalyze.
  reflexivity.
Qed.

End ClaudeProperties.

(** A service that answers no request. *)
Definition unreachableService : ClaudeService := {|
  analysisOf := fun _ attempt =>
    Errored ("Error: Claude Code process exited with code 1 (pass "
               +:+ JS.toString attempt +:+ ")");
  Date_now := "1700000000000"
|}.

Definition sampleRequest : PageAnalysisRequest.t :=
  {| PageAnalysisRequest.url := "https://example.com/";
     PageAnalysisRequest.violations :=
       [sampleViolation "color-contrast" serious];
     PageAnalysisRequest.priority := High;
     PageAnalysisRequest.pageContext := None |}.

Lemma failed_analysis_is_reported_after_three_passes_witness :
  let message :=
    "Failed to analyze https://example.com/ after 3 attempts: "
      +:+ "Error: Claude Code process exited with code 1 (pass 3)" in
  @ClaudeAnalysisAgent.analyzeWithClaude samplePlatform unreachableService
    sampleRequest
  = (JS.Throw message,
     {| ClaudeAnalysisAgent.delays := [10000; 20000]%Z;
        ClaudeAnalysisAgent.passes := 3 |})
  ∧ @ClaudeAnalysisAgent.processComplexIssues samplePlatform
      unreachableService [sampleRequest]
    = ([@ClaudeAnalysisAgent.createFailedAnalysisResult samplePlatform
          unreachableService sampleRequest message],
       {| ClaudeAnalysisAgent.delays := [10000; 20000]%Z;
          ClaudeAnalysisAgent.passes := 3 |})
  ∧ map RemediationStep.priority
      (AnalysisResult.remediationSteps
         (@ClaudeAnalysisAgent.createFailedAnalysisResult samplePlatform
            unreachableService sampleRequest message)) = [High]
  ∧ AnalysisResult.cost
      (@ClaudeAnalysisAgent.createFailedAnalysisResult samplePlatform
         unreachableService sampleRequest message)
    = 0%float.
Proof.
  apply (@failed_analysis_is_reported_after_three_passes samplePlatform
           unreachableService sampleRequest
           (fun attempt =>
              "Error: Claude Code process exited with code 1 (pass "
                +:+ JS.toString attempt +:+ ")")).
  - discriminate.
  - intros attempt. reflexivity.
Defined.

Example failed_analysis_session :
  AnalysisResult.sessionId
    (@ClaudeAnalysisAgent.createFailedAnalysisResult samplePlatform
       unreachableService sampleRequest "")
  = "accessibility-https---example-com--1700000000000".
Proof. reflexivity. Qed.

(** The cleaned URL has one character for each UTF-16 code unit of the
    URL: a character outside ASCII becomes one hyphen, or two when it
    takes a surrogate pair. *)
Lemma cleanUrl_length (url : string) :
  String.length (ClaudeAnalysisAgent.cleanUrl url) = JS.string_length url.
Proof.
  induction url as [|c url IH]; [reflexivity|].
  cbn [ClaudeAnalysisAgent.cleanUrl JS.string_length].
  destruct (ClaudeAnalysisAgent.isAlphanumeric c) eqn:Hc.
  - cbn [String.length]. rewrite IH.
    destruct c as [[] [] [] [] [] [] [] []]; try discriminate; reflexivity.
  - rewrite <- IH.
    generalize (ClaudeAnalysisAgent.cleanUrl url) as rest.
    induction (JS.utf16Units c) as [|n IHn]; intros rest; [reflexivity|].
    cbn [ClaudeAnalysisAgent.hyphens String.length]. rewrite IHn.
    reflexivity.
Qed.

Example cleanUrl_outside_ascii :
  ClaudeAnalysisAgent.cleanUrl "https://a.com/é?😀" = "https---a-com-----".
Proof. reflexivity. Qed.

(** * The report generator ([ComprehensiveReportGenerator])

    The score and the category a page is reported with, and the score
    distribution of the summary. The lists of tests run and the exported
    files are outside the model. *)

Module OverallScore.
Inductive t := PASS | WARNING | SERIOUS | CRITICAL.

Definition eqb (a b : t) : bool :=
  match a, b with
  | PASS, PASS | WARNING, WARNING | SERIOUS, SERIOUS | CRITICAL, CRITICAL =>
      true
  | _, _ => false
  end.
End OverallScore.

Module ReportCategory.
Inductive t := PASSED | CRITICAL | CLAUDE_TESTED | NEEDS_REVIEW | MINOR_ISSUES.
End ReportCategory.

Module ScoreDetails.
Record t := mk {
  critical : nat;
  serious : nat;
  moderate : nat;
  minor : nat
}.
End ScoreDetails.

Module ManualTests.
Record t := mk {
  total : nat;
  passed : nat;
  failed : nat;
  warnings : nat;
  testsRun : list string;
  remediationSteps : list RemediationStep.t
}.
End ManualTests.

(** A [PageTestResult] without its [automatedTests]. *)
Module PageTestResult.
Record t := mk {
  url : string;
  category : ReportCategory.t;
  overallScore : OverallScore.t;
  scoreDetails : ScoreDetails.t;
  manualTests : option ManualTests.t
}.
End PageTestResult.

Module ScoreDistribution.
Record t := mk {
  pass : nat;
  warning : nat;
  serious : nat;
  critical : nat
}.
End ScoreDistribution.

Module ComprehensiveReportGenerator.

Definition manualTestsPerformed : list string :=
  [ "keyboard-navigation-flow"; "focus-indicator-visibility";
    "color-contrast-enhanced"; "text-readability";
    "interactive-element-affordance"; "error-identification";
    "consistent-navigation"; "consistent-identification";
    "visual-focus-order"; "content-on-hover-or-focus"; "animation-control";
    "resize-text-200"; "images-of-text-usage"; "visual-presentation";
    "link-purpose-in-context" ].

Definition stepHasPriority (p : Priority) (step : RemediationStep.t) : bool :=
  Priority_eqb (RemediationStep.priority step) p.

Definition calculateOverallScore (scoreDetails : ScoreDetails.t)
  (claudeResult : option AnalysisResult.t) : OverallScore.t :=
  if 0 <? ScoreDetails.critical scoreDetails then OverallScore.CRITICAL
  else if 0 <? ScoreDetails.serious scoreDetails then OverallScore.SERIOUS
  else
    let hasCriticalManual :=
      match claudeResult with
      | Some result =>
          existsb (stepHasPriority Critical)
            (AnalysisResult.remediationSteps result)
      | None => false
      end in
    let hasSeriousManual :=
      match claudeResult with
      | Some result =>
          existsb (stepHasPriority High) (AnalysisResult.remediationSteps result)
      | None => false
      end in
    if hasCriticalManual then OverallScore.CRITICAL
    else if hasSeriousManual then OverallScore.SERIOUS
    else if 0 <? ScoreDetails.moderate scoreDetails then OverallScore.WARNING
    else if 0 <? ScoreDetails.minor scoreDetails then OverallScore.WARNING
    else OverallScore.PASS.

Definition determineCategory (page : PageScanResult.t)
  (claudeResult : option AnalysisResult.t) : ReportCategory.t :=
  if (length (PageScanResult.violations page) =? 0)
     && match claudeResult with
        | None => true
        | Some result =>
            length (AnalysisResult.remediationSteps result) =? 0
        end
  then ReportCategory.PASSED
  else
    let criticalCount :=
      length (List.filter isCriticalOrSerious (PageScanResult.violations page)) in
    if 5 <=? criticalCount then ReportCategory.CRITICAL
    else
      match claudeResult with
      | Some _ => ReportCategory.CLAUDE_TESTED
      | None =>
          if 0 <? criticalCount then ReportCategory.NEEDS_REVIEW
          else ReportCategory.MINOR_ISSUES
      end.

(** [processClaudeResults]: the count of passed tests made in the loop is
    replaced by the estimate after it. *)
Definition processClaudeResults (claudeResult : AnalysisResult.t)
  : ManualTests.t :=
  let steps := AnalysisResult.remediationSteps claudeResult in
  let failed :=
    length (List.filter (fun step =>
      stepHasPriority Critical step || stepHasPriority High step) steps) in
  let warnings := length (List.filter (stepHasPriority Medium) steps) in
  let total := length manualTestsPerformed in
  {| ManualTests.total := total;
     ManualTests.passed := total - failed - warnings;
     ManualTests.failed := failed;
     ManualTests.warnings := warnings;
     ManualTests.testsRun := manualTestsPerformed;
     ManualTests.remediationSteps := steps |}.

Definition createPageTestResult (page : PageScanResult.t)
  (claudeResult : option AnalysisResult.t) : PageTestResult.t :=
  let scoreDetails :=
    {| ScoreDetails.critical :=
         length (List.filter (hasImpact critical)
                   (PageScanResult.violations page));
       ScoreDetails.serious :=
         length (List.filter (hasImpact serious)
                   (PageScanResult.violations page));
       ScoreDetails.moderate :=
         length (List.filter (hasImpact moderate)
                   (PageScanResult.violations page));
       ScoreDetails.minor :=
         length (List.filter (hasImpact minor)
                   (PageScanResult.violations page)) |} in
  {| PageTestResult.url := PageScanResult.url page;
     PageTestResult.category := determineCategory page claudeResult;
     PageTestResult.overallScore :=
       calculateOverallScore scoreDetails claudeResult;
     PageTestResult.scoreDetails := scoreDetails;
     PageTestResult.manualTests := processClaudeResults <$> claudeResult |}.

Definition processAllPages (categorizedResults : DecisionResult.t)
  (claudeAnalysisResults : list AnalysisResult.t) : list PageTestResult.t :=
  let allPages :=
    DecisionResult.passed categorizedResults
    ++ DecisionResult.minorIssues categorizedResults
    ++ DecisionResult.claudeNeeded categorizedResults
    ++ DecisionResult.critical categorizedResults in
  map (fun page =>
         let claudeResult :=
           List.find (fun c =>
             String.eqb (AnalysisResult.url c) (PageScanResult.url page))
             claudeAnalysisResults in
         createPageTestResult page claudeResult)
    allPages.



End ComprehensiveReportGenerator.

(** * The workflow of [main-orchestrator.ts] after the scan *)

Module MainOrchestrator.
Section WithService.
Context `{Platform} `{ClaudeService}.



End WithService.
End MainOrchestrator.

Section ReportProperties.
Import ComprehensiveReportGenerator.

Lemma impacts_partition (violations : list ViolationResult.t) :
  length (List.filter (hasImpact critical) violations)
  + length (List.filter (hasImpact serious) violations)
  + length (List.filter (hasImpact moderate) violations)
  + length (List.filter (hasImpact minor) violations)
  = length violations.
Proof.
  unfold hasImpact.
  induction violations as [|v vs IH]; [reflexivity|].
  cbn [List.filter]. destruct (ViolationResult.impact v); cbn; lia.
Qed.

Lemma criticalOrSerious_count (violations : list ViolationResult.t) :
  length (List.filter isCriticalOrSerious violations)
  = length (List.filter (hasImpact critical) violations)
    + length (List.filter (hasImpact serious) violations).
Proof.
  unfold isCriticalOrSerious, hasImpact.
  induction violations as [|v vs IH]; [reflexivity|].
  cbn [List.filter]. destruct (ViolationResult.impact v); cbn; lia.
Qed.

(** The steps of priority Critical or High among those of a result. *)
Definition urgentSteps (claudeResult : option AnalysisResult.t)
  : list RemediationStep.t :=
  match claudeResult with
  | Some result =>
      List.filter (fun step =>
        stepHasPriority Critical step || stepHasPriority High step)
        (AnalysisResult.remediationSteps result)
  | None => []
  end.

Lemma no_urgent_step (steps : list RemediationStep.t) :
  List.filter (fun step =>
    stepHasPriority Critical step || stepHasPriority High step) steps = []
  ↔ existsb (stepHasPriority Critical) steps = false
    ∧ existsb (stepHasPriority High) steps = false.
Proof.
  induction steps as [|step steps IH]; [cbn; tauto|].
  cbn [List.filter existsb].
  destruct (stepHasPriority Critical step), (stepHasPriority High step); cbn;
    try (split; [discriminate | intros [? ?]; discriminate]).
  exact IH.
Qed.

(** X23. The page results of the report: the four counts of the score
    details add up to the number of violations; the score is PASS exactly
    for a page with no violation whose Claude result, if any, has no step
    of priority Critical or High; a page of category PASSED has the score
    PASS; and with five or more serious or critical violations the
    category is CRITICAL and the score CRITICAL or SERIOUS. *)
Theorem reported_score_and_category (page : PageScanResult.t)
  (claudeResult : option AnalysisResult.t) :
  let result := createPageTestResult page claudeResult in
  let details := PageTestResult.scoreDetails result in
  ScoreDetails.critical details + ScoreDetails.serious details
  + ScoreDetails.moderate details + ScoreDetails.minor details
  = length (PageScanResult.violations page)
  ∧ (PageTestResult.overallScore result = OverallScore.PASS
     ↔ PageScanResult.violations page = [] ∧ urgentSteps claudeResult = [])
  ∧ (PageTestResult.category result = ReportCategory.PASSED →
     PageTestResult.overallScore result = OverallScore.PASS)
  ∧ (5 ≤ length (List.filter isCriticalOrSerious
                   (PageScanResult.violations page)) →
     PageTestResult.category result = ReportCategory.CRITICAL
     ∧ (PageTestResult.overallScore result = OverallScore.CRITICAL
        ∨ PageTestResult.overallScore result = OverallScore.SERIOUS)).
Proof.
  cbv zeta.
  cbn [createPageTestResult PageTestResult.scoreDetails
       PageTestResult.overallScore PageTestResult.category
       ScoreDetails.critical ScoreDetails.serious ScoreDetails.moderate
       ScoreDetails.minor].
  pose proof (impacts_partition (PageScanResult.violations page)) as Hsum.
  pose proof (criticalOrSerious_count (PageScanResult.violations page))
    as Hurgent.
  assert (Hscore :
    calculateOverallScore
      {| ScoreDetails.critical :=
           length (List.filter (hasImpact critical)
                     (PageScanResult.violations page));
         ScoreDetails.serious :=
           length (List.filter (hasImpact serious)
                     (PageScanResult.violations page));
         ScoreDetails.moderate :=
           length (List.filter (hasImpact moderate)
                     (PageScanResult.violations page));
         ScoreDetails.minor :=
           length (List.filter (hasImpact minor)
                     (PageScanResult.violations page)) |} claudeResult
    = OverallScore.PASS
    ↔ PageScanResult.violations page = [] ∧ urgentSteps claudeResult = []).
  { unfold calculateOverallScore.
    cbn [ScoreDetails.critical ScoreDetails.serious ScoreDetails.moderate
         ScoreDetails.minor].
    set (c := length (List.filter (hasImpact critical) _)) in *.
    set (s := length (List.filter (hasImpact serious) _)) in *.
    set (m := length (List.filter (hasImpact moderate) _)) in *.
    set (n := length (List.filter (hasImpact minor) _)) in *.
    assert (Hnil : PageScanResult.violations page = []
                   ↔ c = 0 ∧ s = 0 ∧ m = 0 ∧ n = 0).
    { split.
      - intros Hnone. rewrite Hnone in Hsum. cbn in Hsum. lia.
      - intros (-> & -> & -> & ->). apply nil_length_inv. lia. }
    assert (Hsteps : urgentSteps claudeResult = []
      ↔ match claudeResult with
        | Some result =>
            existsb (stepHasPriority Critical)
              (AnalysisResult.remediationSteps result)
        | None => false
        end = false
        ∧ match claudeResult with
          | Some result =>
              existsb (stepHasPriority High)
                (AnalysisResult.remediationSteps result)
          | None => false
          end = false).
    { destruct claudeResult as [result|]; [apply no_urgent_step|].
      cbn. tauto. }
    rewrite Hnil, Hsteps.
    destruct (Nat.ltb_spec 0 c);
      [split; [discriminate | intros [(? & _) _]; lia]|].
    destruct (Nat.ltb_spec 0 s);
      [split; [discriminate | intros [(? & ? & _) _]; lia]|].
    destruct (match claudeResult with Some _ => _ | None => false end);
      [split; [discriminate | intros [_ [? _]]; discriminate]|].
    destruct (match claudeResult with Some _ => _ | None => false end);
      [split; [discriminate | intros [_ [_ ?]]; discriminate]|].
    destruct (Nat.ltb_spec 0 m);
      [split; [discriminate | intros [(? & ? & ? & _) _]; lia]|].
    destruct (Nat.ltb_spec 0 n);
      [split; [discriminate | intros [(? & ? & ? & ?) _]; lia]|].
    split; [intros _; repeat split; lia | reflexivity]. }
  split; [exact Hsum|]. split; [exact Hscore|]. split.
  - intros Hpassed. apply Hscore. unfold determineCategory in Hpassed.
    destruct (length (PageScanResult.violations page) =? 0) eqn:Hnone.
    + apply Nat.eqb_eq, nil_length_inv in Hnone. split; [exact Hnone|].
      destruct claudeResult as [result|]; [|reflexivity].
      cbn [andb] in Hpassed. cbn [urgentSteps].
      destruct (length (AnalysisResult.remediationSteps result) =? 0)
        eqn:Hsteps.
      * apply Nat.eqb_eq, nil_length_inv in Hsteps. rewrite Hsteps.
        reflexivity.
      * rewrite Hnone in Hpassed. cbn in Hpassed. discriminate.
    + cbn [andb] in Hpassed.
      destruct (5 <=? _); [discriminate|].
      destruct claudeResult; [discriminate|].
      destruct (0 <? _); discriminate.
  - intros Hmany. split.
    + unfold determineCategory.
      destruct (length (PageScanResult.violations page) =? 0) eqn:Hnone.
      * apply Nat.eqb_eq in Hnone. lia.
      * cbn [andb]. destruct (Nat.leb_spec 5
          (length (List.filter isCriticalOrSerious
                     (PageScanResult.violations page)))); [reflexivity | lia].
    + unfold calculateOverallScore.
      cbn [ScoreDetails.critical ScoreDetails.serious].
      destruct (Nat.ltb_spec 0
        (length (List.filter (hasImpact critical)
                   (PageScanResult.violations page)))); [auto|].
      destruct (Nat.ltb_spec 0
        (length (List.filter (hasImpact serious)
                   (PageScanResult.violations page)))); [auto | lia].
Qed.

(** What the report shows for a page whose scan failed and for which
    there is no Claude result. *)
Lemma failed_page_reported (page : PageScanResult.t) :
  JS.truthy (PageScanResult.error page) = true →
  errorMeansNoFindings page →
  createPageTestResult page None
  = {| PageTestResult.url := PageScanResult.url page;
       PageTestResult.category := ReportCategory.PASSED;
       PageTestResult.overallScore := OverallScore.PASS;
       PageTestResult.scoreDetails :=
         {| ScoreDetails.critical := 0;
            ScoreDetails.serious := 0;
            ScoreDetails.moderate := 0;
            ScoreDetails.minor := 0 |};
       PageTestResult.manualTests := None |}.
Proof.
  intros Herr Hnone.
  destruct (truthy_Some _ Herr) as (e & He & _).
  destruct Hnone as (Hviolations & _); [congruence|].
  unfold createPageTestResult, determineCategory. rewrite Hviolations.
  reflexivity.
Qed.

End ReportProperties.

Section FailedScansInTheReport.
Context `{Platform} `{Browser} `{ClaudeService}.
Import ComprehensiveReportGenerator.

(** X24. A page whose scan failed, with no Claude result on its URL, is
    reported with the category PASSED and the score PASS, although the
    scanner files it under [critical] and the decision agent decides it
    CRITICAL with priority Critical. *)
Theorem failed_scan_is_reported_as_passed
  (this : EnhancedDecisionAgentFixed.t) (page : PageScanResult.t)
  (claudeAnalysisResults : list AnalysisResult.t) :
  JS.truthy (PageScanResult.error page) = true →
  errorMeansNoFindings page →
  Forall (fun c => AnalysisResult.url c ≠ PageScanResult.url page)
    claudeAnalysisResults →
  let reported :=
    processAllPages
      {| DecisionResult.passed := [];
         DecisionResult.minorIssues := [];
         DecisionResult.claudeNeeded := [];
         DecisionResult.critical := [page] |} claudeAnalysisResults in
  map PageTestResult.category reported = [ReportCategory.PASSED]
  ∧ map PageTestResult.overallScore reported = [OverallScore.PASS]
  ∧ scannerCategory page = CRITICAL
  ∧ ∃ d,
      EnhancedDecisionAgentFixed.makeDecisionWithReasoning this page
      = JS.Return (d, this)
      ∧ EnhancedPageDecision.category d = CRITICAL
      ∧ EnhancedPageDecision.priority d = Critical.
Proof.
  intros Herr Hnone Hurls reported. subst reported.
  unfold processAllPages. cbn [app map DecisionResult.passed
    DecisionResult.minorIssues DecisionResult.claudeNeeded
    DecisionResult.critical].
  assert (Hfind :
    List.find (fun c =>
      String.eqb (AnalysisResult.url c) (PageScanResult.url page))
      claudeAnalysisResults = None).
  { induction Hurls as [|c cs Hc _ IH]; [reflexivity|].
    cbn. destruct (String.eqb_spec (AnalysisResult.url c)
                     (PageScanResult.url page)); [contradiction | exact IH]. }
  rewrite Hfind, (failed_page_reported page Herr Hnone).
  split; [reflexivity|]. split; [reflexivity|]. split.
  - unfold scannerCategory, BulkScannerAgent.categoryOf. cbn. rewrite Herr.
    reflexivity.
  - unfold EnhancedDecisionAgentFixed.makeDecisionWithReasoning.
    rewrite Herr. eexists. split; [reflexivity|]. split; reflexivity.
Qed.


End FailedScansInTheReport.

(** ** Sample runs of the hub and of the report *)

Definition sampleInsight : AgentInsight.t :=
  {| AgentInsight.type := InsightType.pattern;
     AgentInsight.description :=
       "Systemic violations detected across multiple pages";
     AgentInsight.evidence := [OtherEvidence "color-contrast: 3"];
     AgentInsight.confidence := 0.9;
     AgentInsight.actionable := true;
     AgentInsight.suggestedActions :=
       Some ["Create targeted remediation guide";
             "Update development standards"] |}.

Definition sampleCalls : list HubCall :=
  [ ShareInsight AgentType.decision_agent sampleInsight;
    ShareInsight AgentType.orchestrator sampleInsight ].

Definition sampleHub : AgentCommunicationHub.t :=
  foldl (@hubCall samplePlatform sampleIds) AgentCommunicationHub.new
    sampleCalls.

Lemma insights_of_hyphenated_agents_are_never_found_witness :
  (∀ type,
     AgentCommunicationHub.getInsights sampleHub
       (Some AgentType.decision_agent) type = [])
  ∧ (∀ type,
       AgentCommunicationHub.getInsights sampleHub None (Some type)
       = AgentCommunicationHub.getInsights sampleHub
           (Some AgentType.orchestrator) (Some type)).
Proof.
  apply (@insights_of_hyphenated_agents_are_never_found samplePlatform
           sampleIds sampleCalls AgentType.decision_agent).
  discriminate.
Defined.

(** The insight the decision agent shared is in the cache, and is
    returned only when neither an agent nor a type is asked for. *)
Example shared_insight_is_cached_but_not_found :
  map fst (AgentCommunicationHub.insightCache sampleHub)
  = ["decision-agent-pattern"; "orchestrator-pattern"]
  ∧ length (AgentCommunicationHub.getInsights sampleHub None None) = 2
  ∧ length (AgentCommunicationHub.getInsights sampleHub None
              (Some InsightType.pattern)) = 1
  ∧ AgentCommunicationHub.getInsights sampleHub
      (Some AgentType.decision_agent) (Some InsightType.pattern) = [].
Proof. repeat split; reflexivity. Qed.

Lemma failed_scan_is_reported_as_passed_witness :
  let reported :=
    ComprehensiveReportGenerator.processAllPages
      {| DecisionResult.passed := [];
         DecisionResult.minorIssues := [];
         DecisionResult.claudeNeeded := [];
         DecisionResult.critical := [failedPage] |} [] in
  map PageTestResult.category reported = [ReportCategory.PASSED]
  ∧ map PageTestResult.overallScore reported = [OverallScore.PASS]
  ∧ scannerCategory failedPage = CRITICAL
  ∧ ∃ d,
      @EnhancedDecisionAgentFixed.makeDecisionWithReasoning samplePlatform
        EnhancedDecisionAgentFixed.new failedPage
      = JS.Return (d, EnhancedDecisionAgentFixed.new)
      ∧ EnhancedPageDecision.category d = CRITICAL
      ∧ EnhancedPageDecision.priority d = Critical.
Proof.
  apply (@failed_scan_is_reported_as_passed samplePlatform
           EnhancedDecisionAgentFixed.new failedPage []).
  - reflexivity.
  - intros _. repeat split; reflexivity.
  - constructor.
Defined.


(** * The enhanced workflow after the decisions *)

Module EnhancedWorkflow.
Section WithService.
Context `{Platform} `{ClaudeService}.




End WithService.
End EnhancedWorkflow.

Section FailedScansInTheEnhancedWorkflow.
Context `{Platform} `{Browser} `{ClaudeService}.
Import EnhancedAccessibilityOrchestrator ComprehensiveReportGenerator.





End FailedScansInTheEnhancedWorkflow.


(** ** Coordination requests *)

(** The requests [handleCoordinationRequests] answers: those to prioritize
    and to batch. *)
Definition isAnswered (message : AgentMessage.t) : bool :=
  match AgentMessage.payload message with
  | CoordinationPayload request =>
      match CoordinationRequest.action request with
      | prioritize | batch => true
      | sequence | parallelize => false
      end
  | _ => false
  end.

(** A response of the orchestrator to one of [requests]. *)
Definition respondsTo (requests : list AgentMessage.t) (m : AgentMessage.t)
  : Prop :=
  AgentMessage.messageType m = MessageType.response
  ∧ AgentMessage.fromAgent m = AgentType.orchestrator
  ∧ ∃ request,
      request ∈ requests
      ∧ isAnswered request = true
      ∧ AgentMessage.correlationId m = Some (AgentMessage.id request)
      ∧ AgentMessage.toAgent m = toAgent (AgentMessage.fromAgent request).

Section Coordination.
Context `{Platform} `{IdSource}.
Import AgentCommunicationHub OrchestratorCommunicator.

(** From [hub] to [hub'], each queue has only gained responses to
    [requests], and the history has gained [sent] messages. *)
Definition answers (requests : list AgentMessage.t) (sent : nat)
  (hub hub' : AgentCommunicationHub.t) : Prop :=
  (∀ agent, ∃ extra,
     messageQueue hub' agent = messageQueue hub agent ++ extra
     ∧ Forall (respondsTo requests) extra)
  ∧ length (messageHistory hub') = length (messageHistory hub) + sent.

Lemma answers_none (requests : list AgentMessage.t)
  (hub : AgentCommunicationHub.t) : answers requests 0 hub hub.
Proof.
  split; [|lia]. intros agent. exists []. rewrite app_nil_r.
  split; [reflexivity | constructor].
Qed.

Lemma answers_trans (requests : list AgentMessage.t) (n m : nat)
  (a b c : AgentCommunicationHub.t) :
  answers requests n a b → answers requests m b c →
  answers requests (n + m) a c.
Proof.
  intros [Hq1 Hh1] [Hq2 Hh2]. split; [|lia].
  intros agent. destruct (Hq1 agent) as (e1 & Hb & He1).
  destruct (Hq2 agent) as (e2 & Hc & He2).
  exists (e1 ++ e2). rewrite Hc, Hb, app_assoc. split; [reflexivity|].
  apply Forall_app. auto.
Qed.

Lemma answers_weaken (requests requests' : list AgentMessage.t) (n : nat)
  (a b : AgentCommunicationHub.t) :
  (∀ m, m ∈ requests → m ∈ requests') →
  answers requests n a b → answers requests' n a b.
Proof.
  intros Hsub [Hq Hh]. split; [|exact Hh].
  intros agent. destruct (Hq agent) as (extra & -> & Hextra).
  exists extra. split; [reflexivity|].
  eapply Forall_impl; [exact Hextra|].
  intros m (Htype & Hfrom & request & Hin & Hrest).
  split; [exact Htype|]. split; [exact Hfrom|]. exists request. auto.
Qed.

Lemma respond_answers (hub : AgentCommunicationHub.t)
  (message : AgentMessage.t) (payload : Payload) :
  isAnswered message = true →
  answers [message] 1 hub (respond hub message payload).
Proof.
  intros Hanswered. unfold respond, sendMessage. split.
  - intros agent. cbn [snd messageQueue MessageDraft.toAgent].
    destruct (AgentType.eqb agent (AgentMessage.fromAgent message)).
    + eexists [_]. split; [reflexivity|].
      constructor; [|constructor].
      split; [reflexivity|]. split; [reflexivity|].
      exists message. split; [left|]. auto.
    + exists []. rewrite app_nil_r. split; [reflexivity | constructor].
  - cbn. rewrite length_app. reflexivity.
Qed.

Lemma handleRequest_answers (fuel : nat) (hub : AgentCommunicationHub.t)
  (store : Store) (message : AgentMessage.t) handled :
  handleRequest fuel hub store message = Some handled →
  answers [message] (if isAnswered message then 1 else 0) hub handled.1.
Proof.
  unfold handleRequest, isAnswered.
  destruct (AgentMessage.payload message) as [i | request | p | b | f | j]
    eqn:Hpayload;
    try (intros [= <-]; apply answers_none).
  destruct (CoordinationRequest.action request) eqn:Haction;
    try (intros [= <-]; apply answers_none).
  - intros [= <-]. unfold handlePrioritization. cbn [prioritizeResources fst].
    apply respond_answers. unfold isAnswered. rewrite Hpayload, Haction.
    reflexivity.
  - unfold handleBatching.
    destruct (createBatches fuel _ _) as [batches|]; [|discriminate].
    intros [= <-]. apply respond_answers. unfold isAnswered.
    rewrite Hpayload, Haction. reflexivity.
Qed.

Lemma handleAll_answers (fuel : nat) (messages : list AgentMessage.t) :
  ∀ (hub : AgentCommunicationHub.t) (store : Store) handled,
    handleAll fuel hub store messages = Some handled →
    answers messages (length (List.filter isAnswered messages)) hub handled.1.
Proof.
  induction messages as [|message rest IH]; intros hub store handled.
  - intros [= <-]. apply answers_none.
  - cbn [handleAll].
    destruct (handleRequest fuel hub store message) as [first|] eqn:Hfirst;
      [|discriminate].
    change (mbind ?f (Some ?x)) with (f x). intros Hrest.
    apply handleRequest_answers in Hfirst. apply IH in Hrest.
    cbn [List.filter].
    replace (length (if isAnswered message
                     then message :: List.filter isAnswered rest
                     else List.filter isAnswered rest))
      with ((if isAnswered message then 1 else 0)
            + length (List.filter isAnswered rest))
      by (destruct (isAnswered message); reflexivity).
    eapply answers_trans.
    + eapply answers_weaken; [|exact Hfirst].
      intros m Hm. apply list_elem_of_singleton in Hm as ->. left.
    + eapply answers_weaken; [|exact Hrest]. intros m Hm. right. exact Hm.
Qed.

(** X27. When [handleCoordinationRequests] returns, no coordination
    message is left in the queue of the orchestrator; every queue has
    otherwise only gained responses of the orchestrator, each addressed to
    the sender of a request to prioritize or to batch and carrying the
    identifier of that request message as its correlation identifier; and
    as many messages were sent as there were such requests: a request to
    sequence or to parallelize is removed without an answer. *)
Theorem coordination_requests_are_answered_and_cleared (fuel : nat)
  (hub : AgentCommunicationHub.t) (store : Store) handled :
  handleCoordinationRequests fuel hub store = Some handled →
  let requests :=
    getMessages hub AgentType.orchestrator (Some [MessageType.coordination]) in
  getMessages handled.1 AgentType.orchestrator (Some [MessageType.coordination])
  = []
  ∧ (∀ agent,
       agent ≠ AgentType.orchestrator →
       ∃ extra,
         messageQueue handled.1 agent = messageQueue hub agent ++ extra
         ∧ Forall (respondsTo requests) extra)
  ∧ length (messageHistory handled.1)
    = length (messageHistory hub) + length (List.filter isAnswered requests).
Proof.
  unfold handleCoordinationRequests.
  set (requests :=
         getMessages hub AgentType.orchestrator
           (Some [MessageType.coordination])).
  destruct (handleAll fuel hub store requests) as [served|] eqn:Hserved;
    [|discriminate].
  change (mbind ?f (Some ?x)) with (f x). intros [= <-]. cbv zeta.
  destruct (handleAll_answers _ _ _ _ _ Hserved) as [Hqueues Hhistory].
  cbn [fst]. split; [|split].
  - unfold getMessages, clearMessages. cbn [messageQueue AgentType.eqb].
    destruct (Hqueues AgentType.orchestrator) as (extra & -> & Hextra).
    apply filter_none, Forall_forall. intros m Hm.
    apply list_elem_of_In, filter_In in Hm as [Hm Hkept].
    apply in_app_or in Hm as [Hm | Hm].
    + destruct (MessageType.eqb (AgentMessage.messageType m)
                  MessageType.coordination) eqn:Htype;
        [|cbn; rewrite Htype; reflexivity].
      exfalso. apply negb_true_iff in Hkept.
      assert (Hin : In (AgentMessage.id m) (map AgentMessage.id requests)).
      { apply in_map. unfold requests, getMessages. apply filter_In.
        split; [exact Hm|]. cbn. rewrite Htype. reflexivity. }
      unfold JS.array_includes in Hkept.
      assert (Hfound :
        existsb (String.eqb (AgentMessage.id m))
          (map AgentMessage.id requests) = true).
      { apply existsb_exists. exists (AgentMessage.id m).
        split; [exact Hin | apply String.eqb_refl]. }
      congruence.
    + apply list_elem_of_In in Hm.
      rewrite Forall_forall in Hextra.
      destruct (Hextra m Hm) as (Htype & _). cbn. rewrite Htype.
      reflexivity.
  - intros agent Hagent. unfold clearMessages. cbn [messageQueue].
    destruct agent; try congruence; cbn [AgentType.eqb]; apply Hqueues.
  - exact Hhistory.
Qed.

End Coordination.

(** A hub that holds a request of the scanner to prioritize the sample
    URLs and a request of the decision agent to sequence them. *)
Definition requestingHub : AgentCommunicationHub.t :=
  foldl (@hubCall samplePlatform sampleIds) AgentCommunicationHub.new
    [ RequestCoordination AgentType.bulk_scanner
        {| CoordinationRequest.action := prioritize;
           CoordinationRequest.resources := 0;
           CoordinationRequest.constraints :=
             {| Constraints.maxBatchSize := None; Constraints.others := [] |};
           CoordinationRequest.deadline := None |};
      RequestCoordination AgentType.decision_agent
        {| CoordinationRequest.action := sequence;
           CoordinationRequest.resources := 0;
           CoordinationRequest.constraints :=
             {| Constraints.maxBatchSize := None; Constraints.others := [] |};
           CoordinationRequest.deadline := None |} ].

Definition servedHub : AgentCommunicationHub.t * Store :=
  default (requestingHub, sampleStore)
    (@OrchestratorCommunicator.handleCoordinationRequests samplePlatform
       sampleIds 0 requestingHub sampleStore).

Lemma coordination_requests_are_answered_and_cleared_witness :
  let requests :=
    AgentCommunicationHub.getMessages requestingHub AgentType.orchestrator
      (Some [MessageType.coordination]) in
  AgentCommunicationHub.getMessages servedHub.1 AgentType.orchestrator
    (Some [MessageType.coordination]) = []
  ∧ (∀ agent,
       agent ≠ AgentType.orchestrator →
       ∃ extra,
         AgentCommunicationHub.messageQueue servedHub.1 agent
         = AgentCommunicationHub.messageQueue requestingHub agent ++ extra
         ∧ Forall (respondsTo requests) extra)
  ∧ length (AgentCommunicationHub.messageHistory servedHub.1)
    = length (AgentCommunicationHub.messageHistory requestingHub)
      + length (List.filter isAnswered requests).
Proof.
  apply (@coordination_requests_are_answered_and_cleared samplePlatform
           sampleIds 0 requestingHub sampleStore servedHub).
  reflexivity.
Defined.

(** The request to sequence is removed without an answer: one response was
    sent, to the scanner. *)
Example request_to_sequence_gets_no_answer :
  length (AgentCommunicationHub.messageHistory requestingHub) = 2
  ∧ length (AgentCommunicationHub.messageHistory servedHub.1) = 3
  ∧ AgentCommunicationHub.messageQueue servedHub.1 AgentType.orchestrator = []
  ∧ AgentCommunicationHub.messageQueue servedHub.1 AgentType.decision_agent
    = []
  ∧ length (AgentCommunicationHub.messageQueue servedHub.1
              AgentType.bulk_scanner) = 1.
Proof. repeat split; reflexivity. Qed.
